(** * Matching, settlement and freeze accounting of the exchange

    A shallow embedding of [app/services/order_service.py],
    [app/services/balance_service.py], the repositories of [app/repositories]
    and the endpoints of [app/api/v1/order.py], [app/api/v1/admin.py] and
    [app/api/v1/public.py], together with the properties of the engine
    stated in the specification.

    Modelling conventions.
    - The relational store is a record of finite maps; the SQLAlchemy session
      is a pair (committed snapshot, working copy).  [flush] makes a change
      visible in the working copy, [rollback] resets the working copy to the
      snapshot, [commit] promotes it.  Closing the session at the end of a
      request discards whatever was not committed.
    - Python exceptions are values of [Exn]; a service routine is a function
      from a session to a result and a session.
    - ORM objects are identity-mapped: two loads of the same row are the same
      object.  Every attribute update is therefore a read-modify-write of the
      working copy at the row's key, in program order.
    - Order quantities and prices are Python integers, kept in 32-bit
      [Integer] columns: a flush that writes a larger value is refused by
      the database.
    - Balances and inventory quantities are [Float] columns, binary64
      numbers.  Every value the code adds to them is an integer, so they
      stay integral and are held as [Z]; each addition rounds as binary64
      does, to 53 significant bits, ties to even.  A comparison of a float
      with a Python integer is exact.  An integer too large for binary64 is
      refused when it is converted; sums are taken to stay below 2^1024,
      where binary64 ends.
    - A trade records the quantity and the price of an order row; both fit
      32 bits and are held by the [Float] columns of the trade as they
      are. *)

From stdpp Require Import gmap strings list fin_maps sorting.

Local Open Scope Z_scope.

(** ** Binary64 arithmetic on integral values *)

(** The spacing of the binary64 numbers around the magnitude [m]: 1 up to
    2^53, doubling with every further bit. *)
Definition ulp (m : Z) : Z := 2 ^ Z.max 0 (Z.log2 m - 52).

(** The multiple of [u] nearest to [m], the even multiple on a tie. *)
Definition round_half_even (u m : Z) : Z :=
  let q := m / u in
  let r := m mod u in
  if 2 * r <? u then u * q
  else if u <? 2 * r then u * (q + 1)
  else if Z.even q then u * q else u * (q + 1).

(** The binary64 number nearest to the integer [x].  The largest binary64
    number is 2^1024 - 2^971; where a Python integer is converted,
    [float_of_int] below refuses the values that round beyond it. *)
Definition to_float (x : Z) : Z :=
  Z.sgn x * round_half_even (ulp (Z.abs x)) (Z.abs x).

(** [x + y] where [x] is the value of a [Float] column and [y] a Python
    integer: [y] is converted, then the sum is rounded.  A column holds
    binary64 numbers only, so [x] is read through [to_float], which leaves
    such a number as it is. *)
Definition float_add (x y : Z) : Z := to_float (to_float x + to_float y).

(** ** 32-bit [Integer] columns *)

Definition int32 (z : Z) : bool := (- 2 ^ 31 <=? z) && (z <? 2 ^ 31).

(** ** Data model ([app/models]) *)

Abbreviation UUID := positive.

Inductive DirectionEnum := ASK | BID.
Inductive OrderStatusEnum := NEW | EXECUTED | PARTIALLY_EXECUTED | CANCELLED.
Inductive RoleEnum := USER | ADMIN.

Global Instance DirectionEnum_eq_dec : EqDecision DirectionEnum.
Proof. solve_decision. Defined.
Global Instance OrderStatusEnum_eq_dec : EqDecision OrderStatusEnum.
Proof. solve_decision. Defined.

Record User := mkUser {
  name : string;
  role : RoleEnum;
  balance : Z
}.

(** The primary key [id] is the key of the [orders] table below. *)
Record Order := mkOrder {
  user_id : UUID;
  instrument_ticker : string;
  amount : Z;
  filled : Z;
  price : option Z;
  direction : DirectionEnum;
  status : OrderStatusEnum;
  created_at : Z
}.

(** Fields of [Transaction] carry the prefix [tx_]: Rocq projections share
    one name space and [amount], [price] belong to [Order]. *)
Record Transaction := mkTransaction {
  tx_user_from_id : UUID;
  tx_user_to_id : UUID;
  tx_instrument_ticker : string;
  tx_amount : Z;
  tx_price : Z
}.

(** [inventories] holds [UserInventory.quantity] under the pair
    (user, ticker): registration and instrument creation insert one row per
    pair, and [get_by_user_and_ticker] reads it with [scalar_one_or_none]. *)
Record Store := mkStore {
  users : gmap UUID User;
  inventories : gmap (UUID * string) Z;
  instruments : gset string;
  orders : gmap UUID Order;
  transactions : list Transaction
}.

Record Session := mkSession {
  committed : Store;
  working : Store
}.

(** ** Exceptions ([app/core/exceptions.py]) *)

Inductive Exn :=
  | NotFoundError (resource : string)
  | InsufficientBalanceError (ticker : string) (required available : Z)
  | OrderExecutionError (message : string)
  | TypeError (message : string)
  | DBAPIError (message : string)
  | OverflowError (message : string)
  | HTTPException (status_code : Z) (detail : string).

(** [str(e)]: [BaseAppException] passes [message] to [Exception].
    [DBAPIError] is SQLAlchemy's wrapper of an error of the database
    driver. *)
Definition str (e : Exn) : string :=
  match e with
  | NotFoundError resource => String.append resource " not found"
  | InsufficientBalanceError _ _ _ => "Insufficient balance"
  | OrderExecutionError m => m
  | TypeError m => m
  | DBAPIError m => m
  | OverflowError m => m
  | HTTPException _ d => d
  end.

Inductive Result (A : Type) :=
  | Ok (a : A)
  | Raise (e : Exn).
Arguments Ok {A} a.
Arguments Raise {A} e.

(** ** The session monad *)

Definition Sess (A : Type) : Type := Session → Result A * Session.

Global Instance Sess_ret : MRet Sess := λ A a s, (Ok a, s).
Global Instance Sess_bind : MBind Sess := λ A B k m s,
  match m s with
  | (Ok a, s') => k a s'
  | (Raise e, s') => (Raise e, s')
  end.

Definition raise {A} (e : Exn) : Sess A := λ s, (Raise e, s).

Definition lift {A} (r : Result A) : Sess A := λ s, (r, s).

(** [try: body except Exception as e: handler e]. *)
Definition try_except {A} (body : Sess A) (handler : Exn → Sess A) : Sess A :=
  λ s, match body s with
       | (Ok a, s') => (Ok a, s')
       | (Raise e, s') => handler e s'
       end.

Definition read {A} (f : Store → A) : Sess A := λ s, (Ok (f (working s)), s).

Definition modify (f : Store → Store) : Sess unit :=
  λ s, (Ok tt, mkSession (committed s) (f (working s))).

Definition rollback : Sess unit :=
  λ s, (Ok tt, mkSession (committed s) (committed s)).

Definition commit : Sess unit :=
  λ s, (Ok tt, mkSession (working s) (working s)).

(** ** Row updates *)

Definition set_order (oid : UUID) (o : Order) (st : Store) : Store :=
  mkStore (users st) (inventories st) (instruments st)
          (<[oid := o]> (orders st)) (transactions st).

Definition add_transaction (t : Transaction) (st : Store) : Store :=
  mkStore (users st) (inventories st) (instruments st) (orders st)
          (transactions st ++ [t]).

(** [user.balance += d] on the row of [uid]. *)
Definition credit_balance (uid : UUID) (d : Z) (st : Store) : Store :=
  match users st !! uid with
  | Some u =>
      mkStore (<[uid := mkUser (name u) (role u) (float_add (balance u) d)]>
                 (users st))
              (inventories st) (instruments st) (orders st) (transactions st)
  | None => st
  end.

(** [inventory.quantity += d] on the row of ([uid], [ticker]). *)
Definition credit_quantity (uid : UUID) (ticker : string) (d : Z) (st : Store)
    : Store :=
  match inventories st !! (uid, ticker) with
  | Some q =>
      mkStore (users st) (<[(uid, ticker) := float_add q d]> (inventories st))
              (instruments st) (orders st) (transactions st)
  | None => st
  end.

Definition add_balance (uid : UUID) (d : Z) : Sess unit :=
  modify (credit_balance uid d).

Definition add_quantity (uid : UUID) (ticker : string) (d : Z) : Sess unit :=
  modify (credit_quantity uid ticker d).

Definition with_amount (o : Order) (a f : Z) (s : OrderStatusEnum) : Order :=
  mkOrder (user_id o) (instrument_ticker o) a f (price o) (direction o) s
          (created_at o).

(** ** Book view ([OrderRepository.get_orders]) *)

(** PostgreSQL sorts NULL after every value in ascending order and before
    every value in descending order. *)
Definition price_asc_leb (a b : option Z) : bool :=
  match a, b with
  | Some x, Some y => x <=? y
  | Some _, None => true
  | None, Some _ => false
  | None, None => true
  end.

(** [desc(Order.price) if direction == BID else asc(Order.price)]. *)
Definition price_key_leb (d : DirectionEnum) (a b : option Z) : bool :=
  match d with
  | BID => price_asc_leb b a
  | ASK => price_asc_leb a b
  end.

(** [ORDER BY price-key, created_at]. *)
Definition book_leb (d : DirectionEnum) (a b : UUID * Order) : bool :=
  price_key_leb d (price a.2) (price b.2)
  && (negb (price_key_leb d (price b.2) (price a.2))
      || (created_at a.2 <=? created_at b.2)).

Definition book_le (d : DirectionEnum) (a b : UUID * Order) : Prop :=
  Is_true (book_leb d a b).

Definition status_in (l : list OrderStatusEnum) (o : Order) : bool :=
  bool_decide (status o ∈ l).

Definition book_where (ticker : string) (d : DirectionEnum)
    (statuses : list OrderStatusEnum) (row : UUID * Order) : bool :=
  bool_decide (instrument_ticker row.2 = ticker)
  && bool_decide (direction row.2 = d)
  && status_in statuses row.2.

(** Rows equal on price and timestamp come out in table order; SQL leaves
    their order open. *)
Definition get_orders (st : Store) (ticker : string) (d : DirectionEnum)
    (limit : nat) (statuses : option (list OrderStatusEnum))
    : list (UUID * Order) :=
  let statuses := default [NEW; PARTIALLY_EXECUTED] statuses in
  take limit
    (merge_sort (book_le d)
       (filter (λ row, book_where ticker d statuses row)
               (map_to_list (orders st)))).

(** ** Order service ([app/services/order_service.py]) *)

Section OrderService.

(** [settings.base_instrument_ticker]. *)
Variable base_instrument_ticker : string.

(** Python truthiness of an optional integer: [None] and [0] are false. *)
Definition truthy (p : option Z) : bool :=
  match p with
  | Some v => negb (v =? 0)
  | None => false
  end.

Definition _partially_execute_order (order : Order) (amt : Z) : Result Order :=
  if amount order <? amt then Raise (OrderExecutionError "Order amount insufficient")
  else
    let amount' := amount order - amt in
    Ok (with_amount order amount' (filled order + amt)
          (if amount' =? 0 then EXECUTED else PARTIALLY_EXECUTED)).

(** [lprice] is the parameter [price]: the resting order's price. *)
Definition _execute_buy (seller_id buyer_id : UUID) (ticker : string)
    (lprice : option Z) (amt : Z) : Sess Transaction :=
  buyer ← read (λ st, users st !! buyer_id);
  seller ← read (λ st, users st !! seller_id);
  buyer_inv ← read (λ st, inventories st !! (buyer_id, ticker));
  match buyer, seller, buyer_inv with
  | Some buyer, Some _, Some _ =>
      match lprice with
      | None =>
          raise (TypeError "unsupported operand type(s) for *: 'int' and 'NoneType'")
      | Some p =>
          let total_cost := amt * p in
          if balance buyer <? total_cost then
            raise (InsufficientBalanceError base_instrument_ticker total_cost
                     (balance buyer))
          else
            let transaction := mkTransaction seller_id buyer_id ticker amt p in
            modify (add_transaction transaction);;
            add_balance seller_id total_cost;;
            add_balance buyer_id (- total_cost);;
            add_quantity buyer_id ticker amt;;
            mret transaction
      end
  | _, _, _ => raise (NotFoundError "User or inventory")
  end.

Definition _execute_sell (seller_id buyer_id : UUID) (ticker : string)
    (lprice : option Z) (amt : Z) : Sess Transaction :=
  seller ← read (λ st, users st !! seller_id);
  buyer ← read (λ st, users st !! buyer_id);
  seller_inv ← read (λ st, inventories st !! (seller_id, ticker));
  buyer_inv ← read (λ st, inventories st !! (buyer_id, ticker));
  match seller, buyer, seller_inv, buyer_inv with
  | Some _, Some _, Some seller_qty, Some _ =>
      if seller_qty <? amt then
        raise (InsufficientBalanceError ticker amt seller_qty)
      else
        match lprice with
        | None =>
            raise (TypeError "unsupported operand type(s) for *: 'int' and 'NoneType'")
        | Some p =>
            let total_cost := amt * p in
            let transaction := mkTransaction seller_id buyer_id ticker amt p in
            modify (add_transaction transaction);;
            add_balance seller_id total_cost;;
            add_quantity seller_id ticker (- amt);;
            add_quantity buyer_id ticker amt;;
            mret transaction
        end
  | _, _, _, _ => raise (NotFoundError "User or inventory")
  end.

Definition _freeze_balance (uid : UUID) (ticker : string) (amt : Z) : Sess unit :=
  user ← read (λ st, users st !! uid);
  match user with
  | None => raise (NotFoundError "User")
  | Some user =>
      if bool_decide (ticker = base_instrument_ticker) then
        if balance user <? amt then
          raise (InsufficientBalanceError ticker amt (balance user))
        else add_balance uid (- amt)
      else
        inventory ← read (λ st, inventories st !! (uid, ticker));
        match inventory with
        | None => raise (NotFoundError "Inventory")
        | Some q =>
            if q <? amt then raise (InsufficientBalanceError ticker amt q)
            else add_quantity uid ticker (- amt)
        end
  end.

Definition _unfreeze_balance (uid : UUID) (ticker : string) (amt : Z) : Sess unit :=
  user ← read (λ st, users st !! uid);
  match user with
  | None => raise (NotFoundError "User")
  | Some _ =>
      if bool_decide (ticker = base_instrument_ticker) then add_balance uid amt
      else
        inventory ← read (λ st, inventories st !! (uid, ticker));
        match inventory with
        | Some _ => add_quantity uid ticker amt
        | None => mret tt
        end
  end.

(** [flush] of an order row: [amount], [filled] and [price] go to 32-bit
    [Integer] columns, and the driver refuses a value out of their range. *)
Definition flush_order (o : Order) : Result unit :=
  if int32 (amount o) && int32 (filled o)
     && match price o with Some p => int32 p | None => true end
  then Ok tt
  else Raise (DBAPIError "value out of int32 range").

(** [session.add(order); flush]: the row receives its primary key
    ([uuid4], an identifier not in the table) on insertion. *)
Definition add_order (o : Order) : Sess UUID :=
  lift (flush_order o);;
  oid ← read (λ st, fresh (dom (orders st)));
  modify (set_order oid o);;
  mret oid.

(** [new_order.amount == 0 or (price and order.price > price)]. *)
Definition buy_break (new_order : Order) (lprice : option Z) (order : Order)
    : Result bool :=
  if amount new_order =? 0 then Ok true
  else if truthy lprice then
    match price order, lprice with
    | Some q, Some p => Ok (p <? q)
    | _, _ =>
        Raise (TypeError "'>' not supported between instances of 'NoneType' and 'int'")
    end
  else Ok false.

(** [new_order.amount == 0 or (price and order.price < price)]. *)
Definition sell_break (new_order : Order) (lprice : option Z) (order : Order)
    : Result bool :=
  if amount new_order =? 0 then Ok true
  else if truthy lprice then
    match price order, lprice with
    | Some q, Some p => Ok (q <? p)
    | _, _ =>
        Raise (TypeError "'<' not supported between instances of 'NoneType' and 'int'")
    end
  else Ok false.

(** The [for order in orderbook] loop of [create_limit_buy_order].  The
    resting [order] is a row of the session, written by the flush that ends
    [_partially_execute_order]; [new_order] is not in the session yet. *)
Fixpoint buy_loop (orderbook : list (UUID * Order)) (new_order : Order)
    (uid : UUID) (ticker : string) (lprice : option Z) : Sess Order :=
  match orderbook with
  | [] => mret new_order
  | (oid, order) :: rest =>
      stop ← lift (buy_break new_order lprice order);
      if (stop : bool) then mret new_order
      else
        let count_to_buy := Z.min (amount order) (amount new_order) in
        _execute_buy (user_id order) uid ticker (price order) count_to_buy;;
        order' ← lift (_partially_execute_order order count_to_buy);
        lift (flush_order order');;
        modify (set_order oid order');;
        new_order' ← lift (_partially_execute_order new_order count_to_buy);
        buy_loop rest new_order' uid ticker lprice
  end.

Fixpoint sell_loop (orderbook : list (UUID * Order)) (new_order : Order)
    (uid : UUID) (ticker : string) (lprice : option Z) : Sess Order :=
  match orderbook with
  | [] => mret new_order
  | (oid, order) :: rest =>
      stop ← lift (sell_break new_order lprice order);
      if (stop : bool) then mret new_order
      else
        let count_to_sell := Z.min (amount order) (amount new_order) in
        _execute_sell uid (user_id order) ticker (price order) count_to_sell;;
        order' ← lift (_partially_execute_order order count_to_sell);
        lift (flush_order order');;
        modify (set_order oid order');;
        new_order' ← lift (_partially_execute_order new_order count_to_sell);
        sell_loop rest new_order' uid ticker lprice
  end.

(** The handler of [except Exception as e] in both submission routines:
    its own flush of the CANCELLED row can fail, and then that error leaves
    the routine. *)
Definition cancel_on_error (new_order : Order) (qty : Z) (e : Exn)
    : Sess (UUID * Order) :=
  rollback;;
  let cancelled := with_amount new_order qty 0 CANCELLED in
  add_order cancelled;;
  raise (OrderExecutionError (str e)).

(** [now] is the value [datetime.utcnow] gives [created_at] on insertion. *)
Definition create_limit_buy_order (ticker : string) (qty : Z)
    (lprice : option Z) (uid : UUID) (now : Z) : Sess (UUID * Order) :=
  orderbook ← read (λ st, get_orders st ticker ASK (Z.to_nat qty) None);
  let new_order := mkOrder uid ticker qty 0 lprice BID NEW now in
  try_except
    (new_order' ← buy_loop orderbook new_order uid ticker lprice;
     (if bool_decide (status new_order' ≠ EXECUTED) then
        if truthy lprice then
          _freeze_balance uid base_instrument_ticker
            (amount new_order' * default 0 (price new_order'))
        else raise (OrderExecutionError "Not enough orders for market buy")
      else mret tt);;
     oid ← add_order new_order';
     mret (oid, new_order'))
    (cancel_on_error new_order qty).

Definition create_limit_sell_order (ticker : string) (qty : Z)
    (lprice : option Z) (uid : UUID) (now : Z) : Sess (UUID * Order) :=
  orderbook ← read (λ st, get_orders st ticker BID (Z.to_nat qty) None);
  let new_order := mkOrder uid ticker qty 0 lprice ASK NEW now in
  try_except
    (new_order' ← sell_loop orderbook new_order uid ticker lprice;
     (if bool_decide (status new_order' ≠ EXECUTED) then
        if truthy lprice then _freeze_balance uid ticker (amount new_order')
        else raise (OrderExecutionError "Not enough orders for market sell")
      else mret tt);;
     oid ← add_order new_order';
     mret (oid, new_order'))
    (cancel_on_error new_order qty).

Definition create_market_buy_order (ticker : string) (qty : Z) (uid : UUID)
    (now : Z) : Sess (UUID * Order) :=
  create_limit_buy_order ticker qty None uid now.

Definition create_market_sell_order (ticker : string) (qty : Z) (uid : UUID)
    (now : Z) : Sess (UUID * Order) :=
  create_limit_sell_order ticker qty None uid now.

Definition cancel_order (order_id uid : UUID) : Sess Order :=
  order ← read (λ st, orders st !! order_id);
  match order with
  | None => raise (NotFoundError "Order")
  | Some order =>
      if bool_decide (user_id order ≠ uid) then
        raise (OrderExecutionError "Order does not belong to user")
      else if bool_decide (status order ∈ [PARTIALLY_EXECUTED; EXECUTED; CANCELLED]) then
        raise (OrderExecutionError "Order already executed/partially_executed/cancelled")
      else
        match price order with
        | None => raise (OrderExecutionError "Cannot cancel market order")
        | Some p =>
            match direction order with
            | ASK => _unfreeze_balance uid (instrument_ticker order) (amount order)
            | BID => _unfreeze_balance uid base_instrument_ticker (amount order * p)
            end;;
            let order' := with_amount order (amount order) (filled order) CANCELLED in
            modify (set_order order_id order');;
            mret order'
        end
  end.

End OrderService.

(** ** Balance query ([app/services/balance_service.py]) *)

Section BalanceService.

Variable base_instrument_ticker : string.

(** [UserRepository.get_user_inventory] without the optional ticker filter,
    as (ticker, quantity) pairs. *)
Definition get_user_inventory (st : Store) (uid : UUID) : list (string * Z) :=
  omap (λ row : UUID * string * Z,
          if bool_decide (row.1.1 = uid) then Some (row.1.2, row.2) else None)
       (map_to_list (inventories st)).

(** [UserRepository.get_user_orders]. *)
Definition get_user_orders (st : Store) (uid : UUID) : list Order :=
  List.filter (λ o, bool_decide (user_id o = uid))
              ((map_to_list (orders st)).*2).

(** The body of the loop over the user's orders.  [result] always holds the
    base ticker when the loop runs, so [+=] on it finds the key.  The values
    of [result] are floats: each addition rounds. *)
Definition add_frozen (result : gmap string Z) (order : Order) : gmap string Z :=
  if bool_decide (status order ∈ [NEW; PARTIALLY_EXECUTED]) then
    match direction order with
    | ASK =>
        let ticker := instrument_ticker order in
        <[ticker := float_add (default 0 (result !! ticker)) (amount order)]>
          result
    | BID =>
        if truthy (price order) then
          match result !! base_instrument_ticker with
          | Some b =>
              <[base_instrument_ticker :=
                  float_add b (amount order * default 0 (price order))]> result
          | None => result
          end
        else result
    end
  else result.

Definition get_user_balance (st : Store) (uid : UUID) : Result (gmap string Z) :=
  match users st !! uid with
  | None => Raise (NotFoundError "User")
  | Some user =>
      let inventory := get_user_inventory st uid in
      let result :=
        foldl (λ acc (item : string * Z), <[item.1 := item.2]> acc) ∅ inventory in
      let result := <[base_instrument_ticker := balance user]> result in
      Ok (foldl add_frozen result (get_user_orders st uid))
  end.

End BalanceService.

(** ** Order endpoints ([app/api/v1/order.py]) *)

(** The request direction after [validate_direction]. *)
Inductive Side := BUY | SELL.

(** Fields carry the prefix [rq_] for the same reason as [tx_] above. *)
Record CreateOrderRequest := mkCreateOrderRequest {
  rq_direction : Side;
  rq_ticker : string;
  rq_qty : Z;
  rq_price : option Z
}.

Definition is_upper (c : Ascii.ascii) : bool :=
  (65 <=? Ascii.nat_of_ascii c)%nat && (Ascii.nat_of_ascii c <=? 90)%nat.

Fixpoint all_upper (s : string) : bool :=
  match s with
  | EmptyString => true
  | String c s' => is_upper c && all_upper s'
  end.

(** [constr(min_length=2, max_length=10, pattern="^[A-Z]+$")],
    [conint(gt=0)] and [Optional[conint(gt=0)]]. *)
Definition valid_request (r : CreateOrderRequest) : bool :=
  (2 <=? String.length (rq_ticker r))%nat
  && (String.length (rq_ticker r) <=? 10)%nat
  && all_upper (rq_ticker r)
  && (0 <? rq_qty r)
  && match rq_price r with Some p => 0 <? p | None => true end.

Section OrderApi.

Variable base_instrument_ticker : string.

(** [uid] is the [id] claim of the verified token. *)
Definition get_current_user (uid : UUID) : Sess UUID :=
  user ← read (λ st, users st !! uid);
  match user with
  | None => raise (HTTPException 401 "User not found")
  | Some _ => mret uid
  end.

(** The handler of [except OrderExecutionError as e] with the given status;
    any other exception propagates. *)
Definition on_order_execution_error {A} (code : Z) (e : Exn) : Sess A :=
  match e with
  | OrderExecutionError _ => rollback;; raise (HTTPException code (str e))
  | _ => raise e
  end.

(** [POST /order].  A body that fails validation is answered 422 by the
    framework before the handler runs. *)
Definition create_order (order_data : CreateOrderRequest) (uid : UUID)
    (now : Z) : Sess UUID :=
  user ← get_current_user uid;
  if negb (valid_request order_data) then
    raise (HTTPException 422 "Unprocessable Entity")
  else
    instrument ← read (λ st, bool_decide (rq_ticker order_data ∈ instruments st));
    if negb instrument then
      raise (HTTPException 404
               (String.append "Instrument with ticker '"
                  (String.append (rq_ticker order_data) "' not found")))
    else
      try_except
        (order ←
           match rq_direction order_data with
           | BUY =>
               if truthy (rq_price order_data) then
                 create_limit_buy_order base_instrument_ticker
                   (rq_ticker order_data) (rq_qty order_data)
                   (rq_price order_data) user now
               else
                 create_market_buy_order base_instrument_ticker
                   (rq_ticker order_data) (rq_qty order_data) user now
           | SELL =>
               if truthy (rq_price order_data) then
                 create_limit_sell_order base_instrument_ticker
                   (rq_ticker order_data) (rq_qty order_data)
                   (rq_price order_data) user now
               else
                 create_market_sell_order base_instrument_ticker
                   (rq_ticker order_data) (rq_qty order_data) user now
           end;
         commit;;
         if bool_decide (status order.2 = CANCELLED) then
           raise (HTTPException 422 "ORDER CANCELLED")
         else mret order.1)
        (on_order_execution_error 422).

(** [DELETE /order/{order_id}]: the endpoint [cancel_order], renamed apart
    from the service routine it calls. *)
Definition cancel_order_endpoint (order_id uid : UUID) : Sess unit :=
  user ← get_current_user uid;
  try_except
    (cancel_order base_instrument_ticker order_id user;;
     commit;;
     mret tt)
    (on_order_execution_error 400).

End OrderApi.

(** A request runs in a session of its own, opened on the database and
    closed at the end: what was not committed is lost. *)
Definition run_request {A} (handler : Sess A) (db : Store) : Result A * Store :=
  let r := handler (mkSession db db) in (r.1, committed r.2).

(** ** Holdings: available plus frozen *)

(** Sum of [f] over the rows of a table. *)
Definition msum `{Countable K} {A} (f : K → A → Z) (m : gmap K A) : Z :=
  map_fold (λ k x acc, f k x + acc) 0 m.

Section Holdings.

Variable base_instrument_ticker : string.

(** What an order withholds of ticker [t]: the residue of an open ASK in
    its own ticker, the residue times the price of an open priced BID in
    the base ticker. *)
Definition frozen (t : string) (o : Order) : Z :=
  if bool_decide (status o ∈ [NEW; PARTIALLY_EXECUTED]) then
    match direction o with
    | ASK => if bool_decide (instrument_ticker o = t) then amount o else 0
    | BID =>
        if truthy (price o) && bool_decide (t = base_instrument_ticker)
        then amount o * default 0 (price o)
        else 0
    end
  else 0.

(** Available units of [t] over all users: cash for the base ticker,
    inventory rows otherwise. *)
Definition available_total (st : Store) (t : string) : Z :=
  if bool_decide (t = base_instrument_ticker)
  then msum (λ _ u, balance u) (users st)
  else msum (λ (k : UUID * string) q, if bool_decide (k.2 = t) then q else 0)
            (inventories st).

Definition frozen_total (st : Store) (t : string) : Z :=
  msum (λ _ o, frozen t o) (orders st).

Definition total (st : Store) (t : string) : Z :=
  available_total st t + frozen_total st t.

End Holdings.

(** ** Settlement as a function of the store *)

(** The postings of a successful [_execute_buy], in program order. *)
Definition settle_buy (seller_id buyer_id : UUID) (ticker : string) (p amt : Z)
    (st : Store) : Store :=
  credit_quantity buyer_id ticker amt
    (credit_balance buyer_id (- (amt * p))
       (credit_balance seller_id (amt * p)
          (add_transaction (mkTransaction seller_id buyer_id ticker amt p) st))).

(** The postings of a successful [_execute_sell], in program order. *)
Definition settle_sell (seller_id buyer_id : UUID) (ticker : string) (p amt : Z)
    (st : Store) : Store :=
  credit_quantity buyer_id ticker amt
    (credit_quantity seller_id ticker (- amt)
       (credit_balance seller_id (amt * p)
          (add_transaction (mkTransaction seller_id buyer_id ticker amt p) st))).

(** The rows a matching loop walks are distinct open orders of one side of
    one ticker, as loaded from the store. *)
Definition book_ok (st : Store) (book : list (UUID * Order))
    (d : DirectionEnum) (ticker : string) : Prop :=
  NoDup book.*1
  ∧ Forall (λ row : UUID * Order,
              orders st !! row.1 = Some row.2
              ∧ direction row.2 = d
              ∧ instrument_ticker row.2 = ticker
              ∧ status row.2 ∈ [NEW; PARTIALLY_EXECUTED]) book.

(** A routine that never commits leaves the committed snapshot alone. *)
Definition keeps_committed {A} (m : Sess A) : Prop :=
  ∀ s, committed (m s).2 = committed s.

(** What the loops keep of the incoming order. *)
Definition incoming_ok (d : DirectionEnum) (ticker : string) (lp : option Z)
    (uid : UUID) (q : Z) (n : Order) : Prop :=
  direction n = d ∧ instrument_ticker n = ticker ∧ price n = lp
  ∧ user_id n = uid ∧ amount n + filled n = q ∧ status n ≠ CANCELLED.

(** The four-way dispatch of [create_order], as one routine. *)
Definition submit (base_instrument_ticker : string)
    (order_data : CreateOrderRequest) (uid : UUID) (now : Z)
    : Sess (UUID * Order) :=
  match rq_direction order_data with
  | BUY =>
      if truthy (rq_price order_data) then
        create_limit_buy_order base_instrument_ticker
          (rq_ticker order_data) (rq_qty order_data)
          (rq_price order_data) uid now
      else
        create_market_buy_order base_instrument_ticker
          (rq_ticker order_data) (rq_qty order_data) uid now
  | SELL =>
      if truthy (rq_price order_data) then
        create_limit_sell_order base_instrument_ticker
          (rq_ticker order_data) (rq_qty order_data)
          (rq_price order_data) uid now
      else
        create_market_sell_order base_instrument_ticker
          (rq_ticker order_data) (rq_qty order_data) uid now
  end.

(** Available cash of a user. *)
Definition balance_of (st : Store) (uid : UUID) : option Z :=
  balance <$> users st !! uid.

(** ** The phases of a submission *)

(** The order a submission starts from. *)
Definition incoming (order_data : CreateOrderRequest) (uid : UUID) (now : Z)
    : Order :=
  mkOrder uid (rq_ticker order_data) (rq_qty order_data) 0
    (rq_price order_data)
    (match rq_direction order_data with BUY => BID | SELL => ASK end)
    NEW now.

(** The side of the book a submission is matched against. *)
Definition opposite (order_data : CreateOrderRequest) : DirectionEnum :=
  match rq_direction order_data with BUY => ASK | SELL => BID end.

(** The matching loop a submission with a limit price runs on a fresh
    session over [db]. *)
Definition match_phase (base_instrument_ticker : string)
    (order_data : CreateOrderRequest) (uid : UUID) (now : Z) (db : Store)
    : Result Order * Session :=
  let book :=
    get_orders db (rq_ticker order_data) (opposite order_data)
      (Z.to_nat (rq_qty order_data)) None in
  match rq_direction order_data with
  | BUY =>
      buy_loop base_instrument_ticker book (incoming order_data uid now) uid
        (rq_ticker order_data) (rq_price order_data) (mkSession db db)
  | SELL =>
      sell_loop book (incoming order_data uid now) uid
        (rq_ticker order_data) (rq_price order_data) (mkSession db db)
  end.

(** The freeze of the residue of a limit order after matching. *)
Definition residual_freeze (base_instrument_ticker : string)
    (order_data : CreateOrderRequest) (uid : UUID) (new_order : Order)
    : Sess unit :=
  match rq_direction order_data with
  | BUY =>
      _freeze_balance base_instrument_ticker uid base_instrument_ticker
        (amount new_order * default 0 (price new_order))
  | SELL =>
      _freeze_balance base_instrument_ticker uid (rq_ticker order_data)
        (amount new_order)
  end.

(** ** Scenario data: base ticker RUB, instrument MEMCOIN *)

Definition RUB : string := "RUB".
Definition MEMCOIN : string := "MEMCOIN".
Definition alice : UUID := 1%positive.
Definition bob : UUID := 2%positive.

(** Alice holds 10 MEMCOIN, Bob holds 1000 RUB. *)
Definition db_funded : Store :=
  mkStore {[ alice := mkUser "alice" USER 0; bob := mkUser "bob" USER 1000 ]}
          {[ (alice, MEMCOIN) := 10; (bob, MEMCOIN) := 0 ]}
          {[ MEMCOIN ]} ∅ [].

(** Alice's limit SELL of 5 at 100 rests. *)
Definition db_ask : Store :=
  (run_request
     (create_order RUB (mkCreateOrderRequest SELL MEMCOIN 5 (Some 100)) alice 1)
     db_funded).2.

(** Bob's limit BUY of 8 at 100 takes Alice's 5 and rests with 3. *)
Definition db_partial : Store :=
  (run_request
     (create_order RUB (mkCreateOrderRequest BUY MEMCOIN 8 (Some 100)) bob 2)
     db_ask).2.

(** Bob's limit BUY of 4 at 50 rests in an empty book. *)
Definition db_bid : Store :=
  (run_request
     (create_order RUB (mkCreateOrderRequest BUY MEMCOIN 4 (Some 50)) bob 1)
     db_funded).2.

(** [db_ask] with Alice's MEMCOIN inventory row removed. *)
Definition db_orphan : Store :=
  mkStore (users db_ask) (delete (alice, MEMCOIN) (inventories db_ask))
          (instruments db_ask) (orders db_ask) (transactions db_ask).

(** Holdings at the edge of what a Float column holds without rounding:
    Alice holds 2^53 RUB and 2^53 + 2 MEMCOIN, Bob holds 2^53 + 2 RUB. *)
Definition db_large : Store :=
  mkStore {[ alice := mkUser "alice" USER 9007199254740992;
             bob := mkUser "bob" USER 9007199254740994 ]}
          {[ (alice, MEMCOIN) := 9007199254740994; (bob, MEMCOIN) := 0 ]}
          {[ MEMCOIN ]} ∅ [].

(** Alice's limit SELL of 1 at 1 rests. *)
Definition db_large_ask : Store :=
  (run_request
     (create_order RUB (mkCreateOrderRequest SELL MEMCOIN 1 (Some 1)) alice 1)
     db_large).2.

(** The base ticker listed as an instrument: Alice and Bob hold 100 RUB
    each, and Alice's limit SELL of 5 RUB at 2 rests. *)
Definition db_base_ask : Store :=
  (run_request
     (create_order RUB (mkCreateOrderRequest SELL RUB 5 (Some 2)) alice 1)
     (mkStore {[ alice := mkUser "alice" USER 100; bob := mkUser "bob" USER 100 ]}
              {[ (alice, RUB) := 0; (bob, RUB) := 0 ]}
              {[ RUB ]} ∅ [])).2.

Definition carol : UUID := 3%positive.
Definition dave : UUID := 4%positive.
Definition eve : UUID := 5%positive.

(** Carol and Dave hold MEMCOIN, Eve holds RUB; Carol asks 100 for 5 at
    time 1, then Dave asks 100 for 10 at time 2. *)
Definition db_two_asks : Store :=
  let db :=
    mkStore {[ carol := mkUser "carol" USER 0; dave := mkUser "dave" USER 0;
               eve := mkUser "eve" USER 1000 ]}
            {[ (carol, MEMCOIN) := 5; (dave, MEMCOIN) := 10;
               (eve, MEMCOIN) := 0 ]}
            {[ MEMCOIN ]} ∅ [] in
  let db :=
    (run_request
       (create_order RUB (mkCreateOrderRequest SELL MEMCOIN 5 (Some 100)) carol 1)
       db).2 in
  (run_request
     (create_order RUB (mkCreateOrderRequest SELL MEMCOIN 10 (Some 100)) dave 2)
     db).2.

(** The trade [tr] records a fill of the order submitted by [uid] against
    the resting row [row]. *)
Definition fill_of (order_data : CreateOrderRequest) (uid : UUID)
    (tr : Transaction) (row : UUID * Order) : Prop :=
  price row.2 = Some (tx_price tr)
  ∧ tx_instrument_ticker tr = rq_ticker order_data
  ∧ match rq_direction order_data with
    | BUY => tx_user_from_id tr = user_id row.2 ∧ tx_user_to_id tr = uid
    | SELL => tx_user_from_id tr = uid ∧ tx_user_to_id tr = user_id row.2
    end.

(** The limit price a submission hands to the service routine: a falsy
    price selects the market routine, which passes [None]. *)
Definition effective_price (order_data : CreateOrderRequest) : option Z :=
  if truthy (rq_price order_data) then rq_price order_data else None.

(** ** Cancellation as a function of the store *)

(** What [_unfreeze_balance] posts for the residue of [order] when its
    owner exists: [credit_quantity] does nothing where the inventory row is
    missing. *)
Definition unfreeze_residue (base_instrument_ticker : string) (order : Order)
    (st : Store) : Store :=
  match direction order with
  | ASK =>
      if bool_decide (instrument_ticker order = base_instrument_ticker)
      then credit_balance (user_id order) (amount order) st
      else credit_quantity (user_id order) (instrument_ticker order)
             (amount order) st
  | BID =>
      credit_balance (user_id order)
        (amount order * default 0 (price order)) st
  end.

Definition cancelled (order : Order) : Order :=
  with_amount order (amount order) (filled order) CANCELLED.

(** ** Error kinds *)

(** The kinds [NotFound] (404) and [Forbidden] (403) of the error table, read
    off an exception or an HTTP answer. *)
Definition is_not_found (e : Exn) : Prop :=
  match e with
  | NotFoundError _ => True
  | HTTPException code _ => code = 404
  | _ => False
  end.

Definition is_forbidden (e : Exn) : Prop :=
  match e with
  | HTTPException code _ => code = 403
  | _ => False
  end.

(** ** Order responses ([_format_order_response]) *)

(** Fields carry the prefix [rs_]; the formatted timestamp is left out. *)
Record OrderResponse := mkOrderResponse {
  rs_id : UUID;
  rs_status : OrderStatusEnum;
  rs_user_id : UUID;
  rs_direction : Side;
  rs_ticker : string;
  rs_qty : Z;
  rs_price : option Z;
  rs_filled : Z
}.

Definition _format_order_response (oid : UUID) (order : Order) : OrderResponse :=
  mkOrderResponse oid (status order) (user_id order)
    (if bool_decide (direction order = BID) then BUY else SELL)
    (instrument_ticker order)
    (amount order + filled order)
    (price order)
    (filled order).

(** ** Order invariants *)

(** The invariant of one order whose submitted quantity was [qty]. *)
Definition order_inv (qty : Z) (o : Order) : Prop :=
  0 ≤ amount o ∧ 0 ≤ filled o ∧ amount o + filled o = qty
  ∧ (status o ∈ [NEW; PARTIALLY_EXECUTED] → 0 < amount o)
  ∧ (status o = EXECUTED → amount o = 0 ∧ filled o = qty).

(** [q] records, for every order, the quantity it was submitted with. *)
Definition orders_inv (q : gmap UUID Z) (st : Store) : Prop :=
  ∀ oid o, orders st !! oid = Some o →
    ∃ qty, q !! oid = Some qty ∧ order_inv qty o.

(** Databases reached from one without orders by committed requests:
    submissions, cancellations, and requests that write no order row
    (deposits, withdrawals, registrations) or only delete order rows (the
    cascade of a user or instrument deletion).  The second index is the
    record of submitted quantities. *)
Inductive reachable (base_instrument_ticker : string)
    : Store → gmap UUID Z → Prop :=
  | reach_init st :
      orders st = ∅ → reachable base_instrument_ticker st ∅
  | reach_create st q order_data uid now :
      reachable base_instrument_ticker st q →
      reachable base_instrument_ticker
        (run_request (create_order base_instrument_ticker order_data uid now) st).2
        (match (run_request
                  (create_order base_instrument_ticker order_data uid now) st).1
         with
         | Ok oid => <[oid := rq_qty order_data]> q
         | Raise _ => q
         end)
  | reach_cancel st q order_id uid :
      reachable base_instrument_ticker st q →
      reachable base_instrument_ticker
        (run_request
           (cancel_order_endpoint base_instrument_ticker order_id uid) st).2 q
  | reach_ledger st q st' :
      reachable base_instrument_ticker st q →
      orders st' ⊆ orders st →
      reachable base_instrument_ticker st' q.

(** ** The balance query, in closed form *)

(** The frozen part of ticker [t] over a list of orders. *)
Definition frozen_sum (base_instrument_ticker : string) (t : string)
    (l : list Order) : Z :=
  foldr (λ o acc, frozen base_instrument_ticker t o + acc) 0 l.

(** An open ASK on ticker [t]: the only kind of order that can bring a
    ticker into the result for which the user has no inventory row. *)
Definition open_ask_on (t : string) (o : Order) : bool :=
  bool_decide (status o ∈ [NEW; PARTIALLY_EXECUTED])
  && bool_decide (direction o = ASK)
  && bool_decide (instrument_ticker o = t).

(** What the open orders of [uid] withhold of ticker [t]. *)
Definition frozen_of (base_instrument_ticker : string) (t : string)
    (st : Store) (uid : UUID) : Z :=
  msum (λ _ o, if bool_decide (user_id o = uid)
               then frozen base_instrument_ticker t o else 0)
       (orders st).

(** [uid] has an open ASK on ticker [t]. *)
Definition has_open_ask (st : Store) (uid : UUID) (t : string) : bool :=
  bool_decide
    (map_Exists (λ _ o, user_id o = uid ∧ open_ask_on t o = true) (orders st)).

(** Available plus frozen holdings of [uid] in ticker [t], following the
    words of the specification and taken in the integers: the cash balance
    for the base ticker and the inventory quantity otherwise, plus what the
    user's open orders withhold of [t].  A ticker without a stored row is
    listed when an open ASK withholds units of it. *)
Definition holdings (base_instrument_ticker : string) (st : Store)
    (uid : UUID) (t : string) : option Z :=
  let fr := frozen_of base_instrument_ticker t st uid in
  match (if bool_decide (t = base_instrument_ticker)
         then balance <$> users st !! uid
         else inventories st !! (uid, t)) with
  | Some v => Some (v + fr)
  | None => if has_open_ask st uid t then Some fr else None
  end.

(** ** Balance changes ([BalanceService.change_balance]) *)

Section ChangeBalance.

Variable base_instrument_ticker : string.

(** The conversion of a Python integer in [x + n], [x] a float: it raises
    [OverflowError] when the nearest binary64 number is out of range. *)
Definition float_of_int (n : Z) : Result Z :=
  if Z.abs (to_float n) <? 2 ^ 1024 then Ok (to_float n)
  else Raise (OverflowError "int too large to convert to float").

(** [amt] is positive for a deposit and negative for a withdrawal; the
    refreshed user row is returned. *)
Definition change_balance (uid : UUID) (ticker : string) (amt : Z) : Sess User :=
  user ← read (λ st, users st !! uid);
  match user with
  | None => raise (NotFoundError "User")
  | Some user =>
      if bool_decide (ticker = base_instrument_ticker) then
        lift (float_of_int amt);;
        let new_balance := float_add (balance user) amt in
        if new_balance <? 0 then
          raise (InsufficientBalanceError ticker (Z.abs amt) (balance user))
        else
          add_balance uid amt;;
          mret (mkUser (name user) (role user) new_balance)
      else
        inventory ← read (λ st, inventories st !! (uid, ticker));
        match inventory with
        | None => raise (NotFoundError "Instrument")
        | Some q =>
            lift (float_of_int amt);;
            let new_quantity := float_add q amt in
            if new_quantity <? 0 then
              raise (InsufficientBalanceError ticker (Z.abs amt) q)
            else
              add_quantity uid ticker amt;;
              mret user
        end
  end.

End ChangeBalance.

(** ** Admin endpoints ([app/api/v1/admin.py]) *)

(** Fields carry the prefix [bc_]. *)
Record BalanceChangeRequest := mkBalanceChangeRequest {
  bc_user_id : UUID;
  bc_ticker : string;
  bc_amount : Z
}.

(** [constr(min_length=2, max_length=10, pattern="^[A-Z]+$")] and
    [amount: int, gt=0]. *)
Definition valid_balance_change (r : BalanceChangeRequest) : bool :=
  (2 <=? String.length (bc_ticker r))%nat
  && (String.length (bc_ticker r) <=? 10)%nat
  && all_upper (bc_ticker r)
  && (0 <? bc_amount r).

(** [get_current_admin]: the authenticated user must have the role ADMIN. *)
Definition get_current_admin (uid : UUID) : Sess UUID :=
  user ← get_current_user uid;
  row ← read (λ st, users st !! user);
  match row with
  | None => raise (HTTPException 401 "User not found")
  | Some u =>
      match role u with
      | ADMIN => mret user
      | USER => raise (HTTPException 403 "Permission denied. Admin access required.")
      end
  end.

Section AdminApi.

Variable base_instrument_ticker : string.

(** [POST /admin/balance/deposit].  The handler returns without a commit. *)
Definition deposit_balance (balance_change : BalanceChangeRequest)
    (admin_uid : UUID) : Sess unit :=
  admin ← get_current_admin admin_uid;
  if negb (valid_balance_change balance_change) then
    raise (HTTPException 422 "Unprocessable Entity")
  else
    change_balance base_instrument_ticker (bc_user_id balance_change)
      (bc_ticker balance_change) (bc_amount balance_change);;
    mret tt.

(** [POST /admin/balance/withdraw]. *)
Definition withdraw_balance (balance_change : BalanceChangeRequest)
    (admin_uid : UUID) : Sess unit :=
  admin ← get_current_admin admin_uid;
  if negb (valid_balance_change balance_change) then
    raise (HTTPException 422 "Unprocessable Entity")
  else
    change_balance base_instrument_ticker (bc_user_id balance_change)
      (bc_ticker balance_change) (- bc_amount balance_change);;
    mret tt.

End AdminApi.

(** ** Reading one order ([GET /order/{order_id}]) *)

Definition get_order (order_id uid : UUID) : Sess OrderResponse :=
  user ← get_current_user uid;
  order ← read (λ st, orders st !! order_id);
  match order with
  | None => raise (HTTPException 404 "Order not found")
  | Some order =>
      if bool_decide (user_id order ≠ user) then
        raise (HTTPException 403 "Order does not belong to user")
      else mret (_format_order_response order_id order)
  end.

(** ** Ledger invariant *)

(** Every cash balance and every inventory quantity is non-negative. *)
Definition ledger_nonneg (st : Store) : Prop :=
  (∀ uid u, users st !! uid = Some u → 0 ≤ balance u)
  ∧ (∀ k q, inventories st !! k = Some q → 0 ≤ q).

(** The total of every ticker is at most 2^52.  With no negative entry,
    every sum of two holdings is then at most 2^53 and is held by a Float
    column without rounding. *)
Definition ledger_exact (base_instrument_ticker : string) (st : Store) : Prop :=
  ∀ t, total base_instrument_ticker st t ≤ 2 ^ 52.

(** Two stores with the same user rows and the same inventory rows,
    whatever the values in them. *)
Definition same_rows (st0 st : Store) : Prop :=
  (∀ k, is_Some (users st !! k) ↔ is_Some (users st0 !! k))
  ∧ (∀ k, is_Some (inventories st !! k) ↔ is_Some (inventories st0 !! k)).

(** The units exchanged by a list of trades. *)
Definition tx_total (l : list Transaction) : Z :=
  foldr (λ tr acc, tx_amount tr + acc) 0 l.

(** Every open order has a positive residue and, if priced, a positive
    price. *)
Definition book_pos (st : Store) : Prop :=
  ∀ oid o, orders st !! oid = Some o →
    status o ∈ [NEW; PARTIALLY_EXECUTED] →
    0 < amount o ∧ ∀ p, price o = Some p → 0 < p.

(** ** How order rows change *)

(** [o'] is a later state of the row [o]: who placed it, on what, at what
    price and when are as before, amount plus filled is as before, and a
    row that was EXECUTED or CANCELLED is as it was. *)
Definition evolves (o o' : Order) : Prop :=
  user_id o' = user_id o ∧ instrument_ticker o' = instrument_ticker o
  ∧ price o' = price o ∧ direction o' = direction o
  ∧ created_at o' = created_at o
  ∧ amount o' + filled o' = amount o + filled o
  ∧ (status o ∈ [EXECUTED; CANCELLED] → o' = o).

(** The order table [st] holds the rows of [st0], each in a later state. *)
Definition orders_evolve (st0 st : Store) : Prop :=
  ∀ i, option_Forall2 evolves (orders st0 !! i) (orders st !! i).

(** No open priced BID is at or above an open priced ASK of its ticker. *)
Definition uncrossed (st : Store) : Prop :=
  ∀ ia a ib b pa pb,
    orders st !! ia = Some a → orders st !! ib = Some b →
    status a ∈ [NEW; PARTIALLY_EXECUTED] → status b ∈ [NEW; PARTIALLY_EXECUTED] →
    direction a = ASK → direction b = BID →
    instrument_ticker a = instrument_ticker b →
    price a = Some pa → price b = Some pb →
    pb < pa.

(** ** The published order book ([GET /orderbook/{ticker}]) *)

Record OrderbookLevel := mkOrderbookLevel {
  lv_price : Z;
  lv_qty : Z
}.

Record OrderbookResponse := mkOrderbookResponse {
  bid_levels : list OrderbookLevel;
  ask_levels : list OrderbookLevel
}.

(** [aggregated[order.price] += order.amount] on a [defaultdict(int)]. *)
Definition aggregate_step (aggregated : gmap (option Z) Z) (row : UUID * Order)
    : gmap (option Z) Z :=
  <[price row.2 := default 0 (aggregated !! price row.2) + amount row.2]>
    aggregated.

Definition aggregate (rows : list (UUID * Order)) : gmap (option Z) Z :=
  foldl aggregate_step ∅ rows.

(** [sorted(aggregated.items(), reverse=(direction == BID))]: the keys are
    distinct, so the prices alone decide the order. *)
Definition level_leb (d : DirectionEnum) (a b : OrderbookLevel) : bool :=
  match d with
  | BID => lv_price b <=? lv_price a
  | ASK => lv_price a <=? lv_price b
  end.

Definition level_le (d : DirectionEnum) (a b : OrderbookLevel) : Prop :=
  Is_true (level_leb d a b).

(** [OrderbookLevel(price=price, qty=qty)]: [price] is declared [int]. *)
Definition to_level (item : option Z * Z) : option OrderbookLevel :=
  p ← item.1; Some (mkOrderbookLevel p item.2).

(** The inner function [aggregate_orders] of [get_orderbook].  [None] stands
    for the request failing on a row without a price: [sorted] raises
    TypeError when it compares [None] with an integer, and a level whose
    only price is [None] is rejected by [OrderbookLevel]. *)
Definition aggregate_orders (st : Store) (ticker : string)
    (d : DirectionEnum) (limit : nat) : option (list OrderbookLevel) :=
  let orders := get_orders st ticker d limit None in
  let aggregated := aggregate orders in
  levels ← mapM to_level (map_to_list aggregated);
  Some (merge_sort (level_le d) levels).

(** [get_instrument_by_ticker]. *)
Definition get_instrument_by_ticker (ticker : string) : Sess string :=
  instrument ← read (λ st, bool_decide (ticker ∈ instruments st));
  if negb instrument then
    raise (HTTPException 404
             (String.append "Instrument with ticker '"
                (String.append ticker "' not found")))
  else mret ticker.

Definition get_orderbook (ticker : string) (limit : nat)
    : Sess (option OrderbookResponse) :=
  instrument ← get_instrument_by_ticker ticker;
  st ← read id;
  mret (bids ← aggregate_orders st instrument BID limit;
        asks ← aggregate_orders st instrument ASK limit;
        Some (mkOrderbookResponse bids asks)).

(** The amounts of the rows priced [p], added up. *)
Definition qty_at (p : option Z) (rows : list (UUID * Order)) : Z :=
  foldr (λ row acc,
           (if bool_decide (price row.2 = p) then amount row.2 else 0) + acc)
        0 rows.

(** Levels in strict price order: rising for ASK, falling for BID. *)
Definition level_lt (d : DirectionEnum) (a b : OrderbookLevel) : Prop :=
  match d with
  | BID => lv_price b < lv_price a
  | ASK => lv_price a < lv_price b
  end.

(** ** New users and new instruments *)

(** [UserInventory(user, instrument, quantity=0.0)]. *)
Definition add_inventory (uid : UUID) (ticker : string) (st : Store) : Store :=
  mkStore (users st) (<[(uid, ticker) := 0]> (inventories st))
          (instruments st) (orders st) (transactions st).

Definition add_user (uid : UUID) (u : User) (st : Store) : Store :=
  mkStore (<[uid := u]> (users st)) (inventories st) (instruments st)
          (orders st) (transactions st).

Definition add_instrument (ticker : string) (st : Store) : Store :=
  mkStore (users st) (inventories st) ({[ticker]} ∪ instruments st)
          (orders st) (transactions st).

(** [UserRepository.create_user].  The identifier is a new one; the balance
    column defaults to 0. *)
Definition create_user (name : string) (role : RoleEnum) : Sess (UUID * User) :=
  new_id ← read (λ st, fresh (dom (users st)));
  modify (add_user new_id (mkUser name role 0));;
  instruments ← read (λ st, elements (instruments st));
  modify (λ st, foldl (λ st ticker, add_inventory new_id ticker st) st instruments);;
  mret (new_id, mkUser name role 0).

(** [InstrumentRepository.create_instrument].  [name] is a [String(100)]
    column and [ticker] a [String(10)] column, the primary key: the flush
    of the new row fails on a longer value and on a ticker that is listed
    already.  Strings are read as sequences of characters. *)
Definition create_instrument (name ticker : string) : Sess string :=
  listed ← read (λ st, bool_decide (ticker ∈ instruments st));
  (if (100 <? String.length name)%nat || (10 <? String.length ticker)%nat
   then raise (DBAPIError "value too long for type character varying")
   else if (listed : bool)
   then raise (DBAPIError "duplicate key value violates unique constraint")
   else mret tt);;
  modify (add_instrument ticker);;
  users ← read (λ st, (map_to_list (users st)).*1);
  modify (λ st, foldl (λ st uid, add_inventory uid ticker st) st users);;
  mret ticker.

Record InstrumentCreateRequest := mkInstrumentCreateRequest {
  ic_name : string;
  ic_ticker : string
}.

(** [name: constr(min_length=1)], [ticker: constr(pattern="^[A-Z]{2,10}$")]. *)
Definition valid_instrument_create (r : InstrumentCreateRequest) : bool :=
  (1 <=? String.length (ic_name r))%nat
  && (2 <=? String.length (ic_ticker r))%nat
  && (String.length (ic_ticker r) <=? 10)%nat
  && all_upper (ic_ticker r).

(** [POST /admin/instrument]: the endpoint [create_instrument], renamed
    apart from the repository routine it calls.  The handler returns
    without a commit. *)
Definition create_instrument_endpoint (instrument_data : InstrumentCreateRequest)
    (admin_uid : UUID) : Sess unit :=
  admin ← get_current_admin admin_uid;
  if negb (valid_instrument_create instrument_data) then
    raise (HTTPException 422 "Unprocessable Entity")
  else
    existing ← read (λ st, bool_decide (ic_ticker instrument_data ∈ instruments st));
    if (existing : bool) then
      raise (HTTPException 422
               (String.append "Instrument with ticker '"
                  (String.append (ic_ticker instrument_data) "' already exists")))
    else
      create_instrument (ic_name instrument_data) (ic_ticker instrument_data);;
      mret tt.

(** Every user holds a row for every listed instrument. *)
Definition inventory_complete (st : Store) : Prop :=
  ∀ uid t, is_Some (users st !! uid) → t ∈ instruments st →
    is_Some (inventories st !! (uid, t)).

(** The foreign keys of an inventory row: its user and its instrument
    exist. *)
Definition inventory_fk (st : Store) : Prop :=
  ∀ uid t, is_Some (inventories st !! (uid, t)) →
    is_Some (users st !! uid) ∧ t ∈ instruments st.

(** ** Listing one's orders ([GET /order]) *)

(** [OrderRepository.get_user_orders]: the rows come with their
    identifiers, in table order. *)
Definition OrderRepository_get_user_orders (st : Store) (uid : UUID)
    : list (UUID * Order) :=
  filter (λ row : UUID * Order, user_id row.2 = uid) (map_to_list (orders st)).

(** [GET /order]: the endpoint [get_orders], renamed apart from the
    repository routine of that name. *)
Definition get_orders_endpoint (uid : UUID) : Sess (list OrderResponse) :=
  user ← get_current_user uid;
  orders ← read (λ st, OrderRepository_get_user_orders st user);
  mret ((λ row : UUID * Order, _format_order_response row.1 row.2) <$> orders).

(** * Properties *)

(** ** Binary64 rounding *)

Lemma ulp_pos m : 0 < ulp m.
Proof. unfold ulp. apply Z.pow_pos_nonneg; lia. Qed.

Lemma round_half_even_cases u m :
  0 < u →
  round_half_even u m = u * (m / u) ∨ round_half_even u m = u * (m / u + 1).
Proof.
  intros Hu. unfold round_half_even.
  destruct (2 * (m mod u) <? u); [by left|].
  destruct (u <? 2 * (m mod u)); [by right|].
  destruct (Z.even (m / u)); [by left|by right].
Qed.

Lemma round_half_even_multiple u k :
  0 < u → round_half_even u (u * k) = u * k.
Proof.
  intros Hu. unfold round_half_even.
  rewrite (Z.mul_comm u k), Z.mod_mul, Z.div_mul by lia.
  rewrite (proj2 (Z.ltb_lt _ _)) by lia. lia.
Qed.

Lemma round_half_even_mono u m m' :
  0 < u → m ≤ m' → round_half_even u m ≤ round_half_even u m'.
Proof.
  intros Hu Hle.
  pose proof (Z.div_le_mono m m' u Hu Hle) as Hq.
  pose proof (Z.mod_pos_bound m u Hu) as Hr.
  pose proof (Z.mod_pos_bound m' u Hu) as Hr'.
  pose proof (Z.div_mod m u ltac:(lia)) as Hm.
  pose proof (Z.div_mod m' u ltac:(lia)) as Hm'.
  destruct (decide (m / u = m' / u)) as [Heq|Hne].
  - assert (Hrr : m mod u ≤ m' mod u) by nia.
    unfold round_half_even. rewrite Heq.
    destruct (Z.ltb_spec (2 * (m mod u)) u), (Z.ltb_spec (2 * (m' mod u)) u);
      destruct (Z.ltb_spec u (2 * (m mod u))), (Z.ltb_spec u (2 * (m' mod u)));
      destruct (Z.even (m' / u)); nia.
  - destruct (round_half_even_cases u m Hu) as [->| ->],
      (round_half_even_cases u m' Hu) as [->| ->]; nia.
Qed.

Lemma round_half_even_0 u : 0 < u → round_half_even u 0 = 0.
Proof.
  intros Hu. pose proof (round_half_even_multiple u 0 Hu) as H.
  by rewrite Z.mul_0_r in H.
Qed.

Lemma round_half_even_nonneg u m : 0 < u → 0 ≤ m → 0 ≤ round_half_even u m.
Proof.
  intros Hu Hm. rewrite <-(round_half_even_0 u Hu).
  by apply round_half_even_mono.
Qed.

Lemma round_half_even_pow2 m k :
  0 ≤ k → Z.log2 m ≤ k → round_half_even (ulp m) (2 ^ k) = 2 ^ k.
Proof.
  intros Hk Hle. unfold ulp.
  assert (H : 2 ^ k = 2 ^ Z.max 0 (Z.log2 m - 52)
                      * 2 ^ (k - Z.max 0 (Z.log2 m - 52))).
  { rewrite <-Z.pow_add_r by lia. f_equal. lia. }
  rewrite H at 1. rewrite round_half_even_multiple; [lia|].
  apply Z.pow_pos_nonneg; lia.
Qed.

(** Rounding of magnitudes. *)
Lemma round_mag_mono m m' :
  0 ≤ m → m ≤ m' →
  round_half_even (ulp m) m ≤ round_half_even (ulp m') m'.
Proof.
  intros Hm Hle.
  destruct (decide (m = 0)) as [->|Hm0].
  { rewrite round_half_even_0 by apply ulp_pos.
    apply round_half_even_nonneg; [apply ulp_pos|lia]. }
  pose proof (Z.log2_le_mono m m' Hle) as Hlog.
  destruct (decide (Z.log2 m = Z.log2 m')) as [Heq|Hne].
  - unfold ulp. rewrite Heq. apply round_half_even_mono; [|done].
    apply Z.pow_pos_nonneg; lia.
  - pose proof (Z.log2_spec m ltac:(lia)) as [_ Hup].
    pose proof (Z.log2_spec m' ltac:(lia)) as [Hlow _].
    pose proof (Z.log2_nonneg m) as Hn. pose proof (Z.log2_nonneg m') as Hn'.
    assert (Hmid : 2 ^ Z.succ (Z.log2 m) ≤ 2 ^ Z.log2 m')
      by (apply Z.pow_le_mono_r; lia).
    trans (2 ^ Z.log2 m').
    + rewrite <-(round_half_even_pow2 m (Z.log2 m')) by lia.
      apply round_half_even_mono; [apply ulp_pos|lia].
    + rewrite <-(round_half_even_pow2 m' (Z.log2 m')) at 1 by lia.
      apply round_half_even_mono; [apply ulp_pos|lia].
Qed.

Lemma round_mag_idem m :
  0 ≤ m →
  round_half_even (ulp (round_half_even (ulp m) m)) (round_half_even (ulp m) m)
  = round_half_even (ulp m) m.
Proof.
  intros Hm.
  destruct (decide (m = 0)) as [->|Hm0].
  { by vm_compute. }
  set (r := round_half_even (ulp m) m).
  pose proof (Z.log2_spec m ltac:(lia)) as [Hlow Hup].
  pose proof (Z.log2_nonneg m) as Hn.
  assert (Hr1 : 2 ^ Z.log2 m ≤ r).
  { unfold r. rewrite <-(round_half_even_pow2 m (Z.log2 m)) by lia.
    apply round_half_even_mono; [apply ulp_pos|lia]. }
  assert (Hr2 : r ≤ 2 ^ Z.succ (Z.log2 m)).
  { unfold r. rewrite <-(round_half_even_pow2 m (Z.succ (Z.log2 m))) by lia.
    apply round_half_even_mono; [apply ulp_pos|lia]. }
  assert (Hpos : 0 < 2 ^ Z.log2 m) by (apply Z.pow_pos_nonneg; lia).
  destruct (decide (r = 2 ^ Z.succ (Z.log2 m))) as [Heq|Hne].
  - rewrite Heq. apply round_half_even_pow2; [lia|].
    rewrite Z.log2_pow2 by lia. lia.
  - assert (Hlog : Z.log2 r = Z.log2 m) by (apply Z.log2_unique; lia).
    unfold ulp at 1. rewrite Hlog. fold (ulp m).
    destruct (round_half_even_cases (ulp m) m (ulp_pos m)) as [Hk|Hk];
      fold r in Hk; rewrite Hk; apply round_half_even_multiple, ulp_pos.
Qed.

Lemma to_float_opp x : to_float (- x) = - to_float x.
Proof. unfold to_float. rewrite Z.sgn_opp, Z.abs_opp. lia. Qed.

Lemma to_float_nonneg x : 0 ≤ x → 0 ≤ to_float x.
Proof.
  intros Hx. unfold to_float. rewrite Z.abs_eq by done.
  pose proof (round_half_even_nonneg (ulp x) x (ulp_pos x) Hx).
  destruct (Z.sgn_spec x) as [[? ->]|[[? ->]|[? ->]]]; lia.
Qed.

Lemma to_float_0 : to_float 0 = 0.
Proof. reflexivity. Qed.

Lemma to_float_pos_eq x :
  0 ≤ x → to_float x = round_half_even (ulp x) x.
Proof.
  intros Hx. unfold to_float. rewrite Z.abs_eq by done.
  destruct (decide (x = 0)) as [->|Hne]; [reflexivity|].
  rewrite Z.sgn_pos by lia. lia.
Qed.

Lemma to_float_neg_eq x :
  x ≤ 0 → to_float x = - round_half_even (ulp (- x)) (- x).
Proof.
  intros Hx. rewrite <-(to_float_pos_eq (- x)) by lia.
  rewrite to_float_opp. lia.
Qed.

Lemma to_float_mono x y : x ≤ y → to_float x ≤ to_float y.
Proof.
  intros Hle.
  destruct (Z.le_gt_cases 0 x) as [Hx|Hx].
  - rewrite !to_float_pos_eq by lia. apply round_mag_mono; lia.
  - destruct (Z.le_gt_cases 0 y) as [Hy|Hy].
    + trans 0; [|by apply to_float_nonneg].
      rewrite to_float_neg_eq by lia.
      pose proof (round_half_even_nonneg (ulp (- x)) (- x) (ulp_pos _)). lia.
    + rewrite !to_float_neg_eq by lia.
      pose proof (round_mag_mono (- y) (- x) ltac:(lia) ltac:(lia)). lia.
Qed.

Lemma to_float_idem x : to_float (to_float x) = to_float x.
Proof.
  destruct (Z.le_gt_cases 0 x) as [Hx|Hx].
  - rewrite (to_float_pos_eq x) by done.
    rewrite to_float_pos_eq by (apply round_half_even_nonneg; [apply ulp_pos|done]).
    by apply round_mag_idem.
  - rewrite (to_float_neg_eq x) by lia.
    pose proof (round_half_even_nonneg (ulp (- x)) (- x) (ulp_pos _) ltac:(lia)).
    rewrite to_float_neg_eq by lia. rewrite Z.opp_involutive.
    f_equal. apply round_mag_idem. lia.
Qed.

Lemma to_float_exact x : Z.abs x ≤ 2 ^ 53 → to_float x = x.
Proof.
  intros Hx.
  assert (Hpos : ∀ m, 0 ≤ m ≤ 2 ^ 53 → round_half_even (ulp m) m = m).
  { intros m [Hm0 Hm].
    destruct (decide (m = 2 ^ 53)) as [->|Hne].
    - by vm_compute.
    - destruct (decide (m = 0)) as [->|Hm1]; [reflexivity|].
      assert (Hlog : Z.log2 m < 53) by (apply Z.log2_lt_pow2; lia).
      unfold ulp. rewrite Z.max_l by lia. change (2 ^ 0) with 1.
      pose proof (round_half_even_multiple 1 m ltac:(lia)) as H.
      by rewrite Z.mul_1_l in H. }
  destruct (Z.le_gt_cases 0 x) as [H0|H0].
  - rewrite to_float_pos_eq by done. apply Hpos. lia.
  - rewrite to_float_neg_eq by lia. rewrite Hpos by lia. lia.
Qed.

Lemma float_add_exact x y :
  Z.abs x ≤ 2 ^ 53 → Z.abs y ≤ 2 ^ 53 → Z.abs (x + y) ≤ 2 ^ 53 →
  float_add x y = x + y.
Proof.
  intros Hx Hy Hxy. unfold float_add.
  rewrite (to_float_exact x), (to_float_exact y) by done.
  by apply to_float_exact.
Qed.

Lemma float_add_nonneg x y : 0 ≤ x → 0 ≤ y → 0 ≤ float_add x y.
Proof.
  intros Hx Hy. unfold float_add. apply to_float_nonneg.
  pose proof (to_float_nonneg x Hx). pose proof (to_float_nonneg y Hy). lia.
Qed.

(** A debit that the guard [c ≤ x] let through leaves no negative value. *)
Lemma float_sub_nonneg x c : c ≤ x → 0 ≤ float_add x (- c).
Proof.
  intros Hle. unfold float_add. apply to_float_nonneg.
  rewrite to_float_opp. pose proof (to_float_mono c x Hle). lia.
Qed.

Lemma float_sub_exact b c :
  0 ≤ c ≤ b → b ≤ 2 ^ 53 → float_add b (- c) = b - c.
Proof. intros Hc Hb. rewrite float_add_exact; lia. Qed.

Lemma float_add_undo b c :
  0 ≤ c ≤ b → b ≤ 2 ^ 53 → float_add (float_add b (- c)) c = b.
Proof.
  intros Hc Hb. rewrite float_sub_exact by done.
  rewrite float_add_exact; lia.
Qed.

Lemma float_add_sub_nonneg b c :
  0 ≤ b → 0 ≤ float_add (float_add b c) (- c).
Proof.
  intros Hb. unfold float_add. rewrite to_float_idem, to_float_opp.
  apply to_float_nonneg.
  pose proof (to_float_nonneg b Hb).
  pose proof (to_float_mono (to_float c) (to_float b + to_float c)) as Hm.
  rewrite to_float_idem in Hm. lia.
Qed.

Lemma float_of_int_exact n : Z.abs n ≤ 2 ^ 53 → float_of_int n = Ok n.
Proof.
  intros Hn. unfold float_of_int. rewrite to_float_exact by done.
  assert (2 ^ 53 < 2 ^ 1024) by (by apply Z.pow_lt_mono_r).
  by rewrite (proj2 (Z.ltb_lt _ _)) by lia.
Qed.

Example to_float_tie_down : to_float (2 ^ 53 + 1) = 2 ^ 53.
Proof. by vm_compute. Qed.
Example to_float_tie_up : to_float (2 ^ 53 + 3) = 2 ^ 53 + 4.
Proof. by vm_compute. Qed.


(** ** Sums over tables *)

Section msum.
Context `{Countable K} {A : Type} (f : K → A → Z).

Lemma msum_empty : msum f (∅ : gmap K A) = 0.
Proof. unfold msum. apply map_fold_empty. Qed.

Lemma msum_insert_fresh (m : gmap K A) k v :
  m !! k = None → msum f (<[k := v]> m) = f k v + msum f m.
Proof.
  intros Hk. unfold msum. rewrite map_fold_insert_L; [done | | done].
  intros; lia.
Qed.

Lemma msum_delete (m : gmap K A) k v :
  m !! k = Some v → msum f m = f k v + msum f (delete k m).
Proof.
  intros Hk. unfold msum. rewrite (map_fold_delete_L _ _ k v m); [done | | done].
  intros; lia.
Qed.

Lemma msum_insert (m : gmap K A) k v v' :
  m !! k = Some v → msum f (<[k := v']> m) = msum f m - f k v + f k v'.
Proof.
  intros Hk. rewrite <-insert_delete_eq.
  rewrite msum_insert_fresh by apply lookup_delete_eq.
  rewrite (msum_delete m k v Hk). lia.
Qed.

End msum.

(** ** Unfolding the session monad *)

Ltac sess_unfold :=
  unfold mbind, mret, Sess_bind, Sess_ret, read, modify, raise, lift,
    add_balance, add_quantity, rollback, commit in *.

Ltac inv_pair H := injection H as H; subst.

(** ** How each row update moves the totals *)

Section Totals.

Variable base : string.

Lemma total_add_transaction tr st t :
  total base (add_transaction tr st) t = total base st t.
Proof. reflexivity. Qed.

Lemma total_credit_balance uid d st t u :
  users st !! uid = Some u →
  total base (credit_balance uid d st) t
  = total base st t
    + (if bool_decide (t = base) then float_add (balance u) d - balance u
       else 0).
Proof.
  intros Hu. unfold credit_balance. rewrite Hu.
  unfold total, available_total, frozen_total; simpl.
  case_bool_decide; [| lia].
  rewrite (msum_insert _ _ _ u) by done. simpl. lia.
Qed.

Lemma total_credit_quantity uid ticker d st t q :
  inventories st !! (uid, ticker) = Some q →
  ticker ≠ base →
  total base (credit_quantity uid ticker d st) t
  = total base st t
    + (if bool_decide (t = ticker) then float_add q d - q else 0).
Proof.
  intros Hq Hne. unfold credit_quantity. rewrite Hq.
  unfold total, available_total, frozen_total; simpl.
  case_bool_decide as Hb.
  - subst t. rewrite bool_decide_eq_false_2 by done. lia.
  - rewrite (msum_insert _ _ _ q) by done. simpl.
    destruct (decide (ticker = t)) as [->|Hn].
    + rewrite !bool_decide_eq_true_2 by done. lia.
    + rewrite !bool_decide_eq_false_2 by done. lia.
Qed.

Lemma total_set_order oid o o' st t :
  orders st !! oid = Some o →
  total base (set_order oid o' st) t
  = total base st t - frozen base t o + frozen base t o'.
Proof.
  intros Ho. unfold total, available_total, frozen_total; simpl.
  rewrite (msum_insert _ _ _ o) by done. lia.
Qed.

Lemma total_set_order_fresh oid o' st t :
  orders st !! oid = None →
  total base (set_order oid o' st) t = total base st t + frozen base t o'.
Proof.
  intros Ho. unfold total, available_total, frozen_total; simpl.
  rewrite msum_insert_fresh by done. lia.
Qed.

(** Row updates leave the other tables alone. *)
Lemma users_credit_balance_is_Some uid d st k :
  is_Some (users (credit_balance uid d st) !! k) ↔ is_Some (users st !! k).
Proof.
  unfold credit_balance. destruct (users st !! uid) as [u|] eqn:Hu; [|done].
  simpl. destruct (decide (uid = k)) as [->|Hne].
  - rewrite lookup_insert_eq, Hu. split; eauto.
  - by rewrite lookup_insert_ne.
Qed.

Lemma inventories_credit_balance uid d st :
  inventories (credit_balance uid d st) = inventories st.
Proof. unfold credit_balance. by destruct (users st !! uid). Qed.

Lemma orders_credit_balance uid d st :
  orders (credit_balance uid d st) = orders st.
Proof. unfold credit_balance. by destruct (users st !! uid). Qed.

Lemma transactions_credit_balance uid d st :
  transactions (credit_balance uid d st) = transactions st.
Proof. unfold credit_balance. by destruct (users st !! uid). Qed.

Lemma users_credit_quantity uid ticker d st :
  users (credit_quantity uid ticker d st) = users st.
Proof. unfold credit_quantity. by destruct (inventories st !! _). Qed.

Lemma orders_credit_quantity uid ticker d st :
  orders (credit_quantity uid ticker d st) = orders st.
Proof. unfold credit_quantity. by destruct (inventories st !! _). Qed.

Lemma transactions_credit_quantity uid ticker d st :
  transactions (credit_quantity uid ticker d st) = transactions st.
Proof. unfold credit_quantity. by destruct (inventories st !! _). Qed.

Lemma inventories_credit_quantity_is_Some uid ticker d st k :
  is_Some (inventories (credit_quantity uid ticker d st) !! k)
  ↔ is_Some (inventories st !! k).
Proof.
  unfold credit_quantity.
  destruct (inventories st !! (uid, ticker)) as [q|] eqn:Hq; [|done].
  simpl. destruct (decide ((uid, ticker) = k)) as [<-|Hne].
  - rewrite lookup_insert_eq, Hq. split; eauto.
  - by rewrite lookup_insert_ne.
Qed.

End Totals.

(** ** Settlement routines, inverted *)

Section Settlement.

Variable base : string.

Lemma _execute_buy_ok seller buyer ticker lp amt s tr s' :
  _execute_buy base seller buyer ticker lp amt s = (Ok tr, s') →
  ∃ p ub,
    lp = Some p
    ∧ users (working s) !! buyer = Some ub
    ∧ is_Some (users (working s) !! seller)
    ∧ is_Some (inventories (working s) !! (buyer, ticker))
    ∧ amt * p ≤ balance ub
    ∧ tr = mkTransaction seller buyer ticker amt p
    ∧ s' = mkSession (committed s) (settle_buy seller buyer ticker p amt (working s)).
Proof.
  unfold _execute_buy. sess_unfold. simpl.
  destruct (users (working s) !! buyer) as [ub|] eqn:Hb; [|done].
  destruct (users (working s) !! seller) as [us|] eqn:Hs; [|done].
  destruct (inventories (working s) !! (buyer, ticker)) as [q|] eqn:Hq; [|done].
  destruct lp as [p|]; [|done].
  destruct (balance ub <? amt * p) eqn:Hlt; [done|].
  intros Heq. inv_pair Heq.
  exists p, ub. repeat split; eauto. lia.
Qed.

Lemma _execute_sell_ok seller buyer ticker lp amt s tr s' :
  _execute_sell seller buyer ticker lp amt s = (Ok tr, s') →
  ∃ p q,
    lp = Some p
    ∧ is_Some (users (working s) !! seller)
    ∧ is_Some (users (working s) !! buyer)
    ∧ inventories (working s) !! (seller, ticker) = Some q
    ∧ is_Some (inventories (working s) !! (buyer, ticker))
    ∧ amt ≤ q
    ∧ tr = mkTransaction seller buyer ticker amt p
    ∧ s' = mkSession (committed s) (settle_sell seller buyer ticker p amt (working s)).
Proof.
  unfold _execute_sell. sess_unfold. simpl.
  destruct (users (working s) !! seller) as [us|] eqn:Hs; [|done].
  destruct (users (working s) !! buyer) as [ub|] eqn:Hb; [|done].
  destruct (inventories (working s) !! (seller, ticker)) as [q|] eqn:Hq; [|done].
  destruct (inventories (working s) !! (buyer, ticker)) as [q'|] eqn:Hq'; [|done].
  destruct (q <? amt) eqn:Hlt; [done|].
  destruct lp as [p|]; [|done].
  intros Heq. inv_pair Heq.
  exists p, q. repeat split; eauto. lia.
Qed.

Lemma orders_settle_buy seller buyer ticker p amt st :
  orders (settle_buy seller buyer ticker p amt st) = orders st.
Proof.
  unfold settle_buy.
  by rewrite orders_credit_quantity, !orders_credit_balance.
Qed.

Lemma orders_settle_sell seller buyer ticker p amt st :
  orders (settle_sell seller buyer ticker p amt st) = orders st.
Proof.
  unfold settle_sell.
  by rewrite !orders_credit_quantity, orders_credit_balance.
Qed.

End Settlement.

(** ** The matching loops, one iteration at a time *)

Lemma _partially_execute_order_ok o amt o1 :
  _partially_execute_order o amt = Ok o1 →
  amt ≤ amount o
  ∧ o1 = with_amount o (amount o - amt) (filled o + amt)
           (if amount o - amt =? 0 then EXECUTED else PARTIALLY_EXECUTED).
Proof.
  unfold _partially_execute_order.
  destruct (amount o <? amt) eqn:Hlt; [done|].
  intros [= <-]. split; [lia | done].
Qed.

Section Loops.

Variable base : string.

Lemma buy_loop_cons_ok oid o rest n uid ticker lp s n' s' :
  buy_loop base ((oid, o) :: rest) n uid ticker lp s = (Ok n', s') →
  (buy_break n lp o = Ok true ∧ n' = n ∧ s' = s)
  ∨ ∃ p ub o1 n1,
      buy_break n lp o = Ok false
      ∧ price o = Some p
      ∧ users (working s) !! uid = Some ub
      ∧ Z.min (amount o) (amount n) * p ≤ balance ub
      ∧ is_Some (users (working s) !! user_id o)
      ∧ is_Some (inventories (working s) !! (uid, ticker))
      ∧ _partially_execute_order o (Z.min (amount o) (amount n)) = Ok o1
      ∧ _partially_execute_order n (Z.min (amount o) (amount n)) = Ok n1
      ∧ buy_loop base rest n1 uid ticker lp
          (mkSession (committed s)
             (set_order oid o1
                (settle_buy (user_id o) uid ticker p
                   (Z.min (amount o) (amount n)) (working s))))
        = (Ok n', s').
Proof.
  simpl. unfold mbind at 1, Sess_bind at 1, lift at 1.
  destruct (buy_break n lp o) as [[|]|e] eqn:Hbrk; [| |done].
  - intros Heq. inv_pair Heq. by left.
  - unfold mbind at 1, Sess_bind at 1.
    destruct (_execute_buy _ _ _ _ _ _ s) as [[tr|e] s1] eqn:Hex; [|done].
    apply _execute_buy_ok in Hex as (p & ub & Hp & Hub & Hus & Hq & Hle & _ & ->).
    unfold mbind at 1, Sess_bind at 1, lift at 1.
    destruct (_partially_execute_order o _) as [o1|e] eqn:Ho1; [|done].
    unfold mbind at 1, Sess_bind at 1, lift at 1.
    destruct (flush_order o1) as [[]|e]; [|done].
    unfold mbind at 1, Sess_bind at 1, modify at 1. simpl.
    unfold mbind at 1, Sess_bind at 1, lift at 1.
    destruct (_partially_execute_order n _) as [n1|e] eqn:Hn1; [|done].
    intros Hrest. right. exists p, ub, o1, n1. by repeat split.
Qed.

Lemma sell_loop_cons_ok oid o rest n uid ticker lp s n' s' :
  sell_loop ((oid, o) :: rest) n uid ticker lp s = (Ok n', s') →
  (sell_break n lp o = Ok true ∧ n' = n ∧ s' = s)
  ∨ ∃ p q o1 n1,
      sell_break n lp o = Ok false
      ∧ price o = Some p
      ∧ inventories (working s) !! (uid, ticker) = Some q
      ∧ Z.min (amount o) (amount n) ≤ q
      ∧ is_Some (users (working s) !! uid)
      ∧ is_Some (users (working s) !! user_id o)
      ∧ is_Some (inventories (working s) !! (user_id o, ticker))
      ∧ _partially_execute_order o (Z.min (amount o) (amount n)) = Ok o1
      ∧ _partially_execute_order n (Z.min (amount o) (amount n)) = Ok n1
      ∧ sell_loop rest n1 uid ticker lp
          (mkSession (committed s)
             (set_order oid o1
                (settle_sell uid (user_id o) ticker p
                   (Z.min (amount o) (amount n)) (working s))))
        = (Ok n', s').
Proof.
  simpl. unfold mbind at 1, Sess_bind at 1, lift at 1.
  destruct (sell_break n lp o) as [[|]|e] eqn:Hbrk; [| |done].
  - intros Heq. inv_pair Heq. by left.
  - unfold mbind at 1, Sess_bind at 1.
    destruct (_execute_sell _ _ _ _ _ s) as [[tr|e] s1] eqn:Hex; [|done].
    apply _execute_sell_ok in Hex as (p & q & Hp & Hus & Hub & Hq & Hq' & Hle & _ & ->).
    unfold mbind at 1, Sess_bind at 1, lift at 1.
    destruct (_partially_execute_order o _) as [o1|e] eqn:Ho1; [|done].
    unfold mbind at 1, Sess_bind at 1, lift at 1.
    destruct (flush_order o1) as [[]|e]; [|done].
    unfold mbind at 1, Sess_bind at 1, modify at 1. simpl.
    unfold mbind at 1, Sess_bind at 1, lift at 1.
    destruct (_partially_execute_order n _) as [n1|e] eqn:Hn1; [|done].
    intros Hrest. right. exists p, q, o1, n1. by repeat split.
Qed.

(** A book stays a book of the store after its head was filled. *)
Lemma book_ok_tail st oid o o1 rest d ticker st' :
  book_ok st ((oid, o) :: rest) d ticker →
  orders st' = <[oid := o1]> (orders st) →
  book_ok st' rest d ticker.
Proof.
  intros [Hnd Hall] Hst'. simpl in Hnd.
  apply NoDup_cons in Hnd as [Hnotin Hnd].
  apply Forall_cons in Hall as [_ Hall].
  split; [done|].
  rewrite Forall_forall in Hall |- *. intros [oid' o'] Hin.
  destruct (Hall _ Hin) as (Hlk & Hrest). split; [|done]. simpl in *.
  rewrite Hst', lookup_insert_ne; [done|].
  intros ->. apply Hnotin. apply list_elem_of_fmap. by exists (oid', o').
Qed.

(** Invariants of the buy loop: [I] relates the working store to the
    incoming order and is kept by every fill. *)
Lemma buy_loop_invariant (I : Store → Order → Prop) uid ticker lp :
  (∀ st oid o n p ub o1 n1,
      I st n →
      orders st !! oid = Some o → direction o = ASK →
      instrument_ticker o = ticker → status o ∈ [NEW; PARTIALLY_EXECUTED] →
      buy_break n lp o = Ok false →
      price o = Some p →
      users st !! uid = Some ub →
      Z.min (amount o) (amount n) * p ≤ balance ub →
      is_Some (users st !! user_id o) →
      is_Some (inventories st !! (uid, ticker)) →
      _partially_execute_order o (Z.min (amount o) (amount n)) = Ok o1 →
      _partially_execute_order n (Z.min (amount o) (amount n)) = Ok n1 →
      I (set_order oid o1
           (settle_buy (user_id o) uid ticker p (Z.min (amount o) (amount n)) st))
        n1) →
  ∀ book n s n' s',
    book_ok (working s) book ASK ticker →
    I (working s) n →
    buy_loop base book n uid ticker lp s = (Ok n', s') →
    I (working s') n' ∧ committed s' = committed s.
Proof.
  intros Hstep book. induction book as [|[oid o] rest IH]; intros n s n' s' Hbook HI Hrun.
  - simpl in Hrun. inv_pair Hrun. done.
  - apply buy_loop_cons_ok in Hrun
      as [(_ & -> & ->)|(p & ub & o1 & n1 & Hbrk & Hp & Hub & Hle & Hus & Hq & Ho1 & Hn1 & Hrun)];
      [done|].
    pose proof Hbook as [_ Hhead]. apply Forall_cons in Hhead as [(Hlk & Hd & Ht & Hst) _].
    simpl in *.
    apply IH in Hrun; [done| |]; simpl.
    + eapply book_ok_tail; [done|]. simpl. by rewrite orders_settle_buy.
    + eapply Hstep; eauto.
Qed.

Lemma sell_loop_invariant (I : Store → Order → Prop) uid ticker lp :
  (∀ st oid o n p q o1 n1,
      I st n →
      orders st !! oid = Some o → direction o = BID →
      instrument_ticker o = ticker → status o ∈ [NEW; PARTIALLY_EXECUTED] →
      sell_break n lp o = Ok false →
      price o = Some p →
      inventories st !! (uid, ticker) = Some q →
      Z.min (amount o) (amount n) ≤ q →
      is_Some (users st !! uid) →
      is_Some (users st !! user_id o) →
      is_Some (inventories st !! (user_id o, ticker)) →
      _partially_execute_order o (Z.min (amount o) (amount n)) = Ok o1 →
      _partially_execute_order n (Z.min (amount o) (amount n)) = Ok n1 →
      I (set_order oid o1
           (settle_sell uid (user_id o) ticker p (Z.min (amount o) (amount n)) st))
        n1) →
  ∀ book n s n' s',
    book_ok (working s) book BID ticker →
    I (working s) n →
    sell_loop book n uid ticker lp s = (Ok n', s') →
    I (working s') n' ∧ committed s' = committed s.
Proof.
  intros Hstep book. induction book as [|[oid o] rest IH]; intros n s n' s' Hbook HI Hrun.
  - simpl in Hrun. inv_pair Hrun. done.
  - apply sell_loop_cons_ok in Hrun
      as [(_ & -> & ->)|(p & q & o1 & n1 & Hbrk & Hp & Hq & Hle & Hus & Hub & Hq' & Ho1 & Hn1 & Hrun)];
      [done|].
    pose proof Hbook as [_ Hhead]. apply Forall_cons in Hhead as [(Hlk & Hd & Ht & Hst) _].
    simpl in *.
    apply IH in Hrun; [done| |]; simpl.
    + eapply book_ok_tail; [done|]. simpl. by rewrite orders_settle_sell.
    + eapply Hstep; eauto.
Qed.

End Loops.

(** ** The book view feeds the loops well-formed books *)

Lemma book_where_spec ticker d statuses (row : UUID * Order) :
  book_where ticker d statuses row ↔
  instrument_ticker row.2 = ticker ∧ direction row.2 = d
  ∧ status row.2 ∈ statuses.
Proof.
  unfold book_where, status_in.
  rewrite !andb_True, !bool_decide_spec. tauto.
Qed.

Lemma get_orders_elem st ticker d limit statuses row :
  row ∈ get_orders st ticker d limit statuses →
  orders st !! row.1 = Some row.2
  ∧ instrument_ticker row.2 = ticker ∧ direction row.2 = d
  ∧ status row.2 ∈ default [NEW; PARTIALLY_EXECUTED] statuses.
Proof.
  unfold get_orders. intros Hin.
  apply elem_of_take in Hin as (i & Hi & _).
  apply list_elem_of_lookup_2 in Hi.
  rewrite merge_sort_Permutation in Hi.
  apply list_elem_of_filter in Hi as [Hw Hin].
  apply book_where_spec in Hw. split; [|done].
  destruct row as [oid o]. by apply elem_of_map_to_list.
Qed.

Lemma get_orders_NoDup st ticker d limit statuses :
  NoDup (get_orders st ticker d limit statuses).*1.
Proof.
  unfold get_orders.
  eapply sublist_NoDup; [|apply fmap_sublist, sublist_take].
  rewrite merge_sort_Permutation.
  eapply sublist_NoDup; [apply (NoDup_fst_map_to_list (orders st))|].
  apply fmap_sublist, sublist_filter.
Qed.

Lemma get_orders_book_ok st ticker d limit :
  book_ok st (get_orders st ticker d limit None) d ticker.
Proof.
  split; [apply get_orders_NoDup|].
  apply Forall_forall. intros row Hin.
  apply get_orders_elem in Hin as (? & ? & ? & ?). done.
Qed.

(** ** Only [commit] moves the committed snapshot *)

Lemma keeps_ret {A} (a : A) : keeps_committed (mret a).
Proof. done. Qed.

Lemma keeps_raise {A} e : keeps_committed (@raise A e).
Proof. done. Qed.

Lemma keeps_lift {A} (r : Result A) : keeps_committed (lift r).
Proof. done. Qed.

Lemma keeps_read {A} (f : Store → A) : keeps_committed (read f).
Proof. done. Qed.

Lemma keeps_modify f : keeps_committed (modify f).
Proof. done. Qed.

Lemma keeps_rollback : keeps_committed rollback.
Proof. done. Qed.

Lemma keeps_bind {A B} (m : Sess A) (k : A → Sess B) :
  keeps_committed m → (∀ a, keeps_committed (k a)) → keeps_committed (m ≫= k).
Proof.
  intros Hm Hk s. unfold mbind, Sess_bind.
  specialize (Hm s). destruct (m s) as [[a|e] s1]; simpl in *; [|done].
  by rewrite Hk.
Qed.

Lemma keeps_try_except {A} (m : Sess A) h :
  keeps_committed m → (∀ e, keeps_committed (h e)) →
  keeps_committed (try_except m h).
Proof.
  intros Hm Hh s. unfold try_except.
  specialize (Hm s). destruct (m s) as [[a|e] s1]; simpl in *; [done|].
  by rewrite Hh.
Qed.

Ltac keeps_step :=
  first
    [ apply keeps_ret | apply keeps_raise | apply keeps_lift | apply keeps_read
    | apply keeps_modify | apply keeps_rollback
    | apply keeps_bind; [|intros ?] | apply keeps_try_except; [|intros ?] ].

Ltac keeps_auto :=
  repeat first
    [ progress cbv zeta
    | keeps_step
    | match goal with
      | |- context [match ?x with _ => _ end] => destruct x
      end ].

Section Keeps.

Variable base : string.

Lemma keeps_execute_buy seller buyer ticker lp amt :
  keeps_committed (_execute_buy base seller buyer ticker lp amt).
Proof. unfold _execute_buy, add_balance, add_quantity. keeps_auto. Qed.

Lemma keeps_execute_sell seller buyer ticker lp amt :
  keeps_committed (_execute_sell seller buyer ticker lp amt).
Proof. unfold _execute_sell, add_balance, add_quantity. keeps_auto. Qed.

Lemma keeps_freeze_balance uid ticker amt :
  keeps_committed (_freeze_balance base uid ticker amt).
Proof. unfold _freeze_balance, add_balance, add_quantity. keeps_auto. Qed.

Lemma keeps_unfreeze_balance uid ticker amt :
  keeps_committed (_unfreeze_balance base uid ticker amt).
Proof. unfold _unfreeze_balance, add_balance, add_quantity. keeps_auto. Qed.

Lemma keeps_add_order o : keeps_committed (add_order o).
Proof. unfold add_order. keeps_auto. Qed.

Lemma keeps_buy_loop book n uid ticker lp :
  keeps_committed (buy_loop base book n uid ticker lp).
Proof.
  revert n. induction book as [|[oid o] rest IH]; intros n; simpl.
  - keeps_auto.
  - keeps_auto; auto using keeps_execute_buy.
Qed.

Lemma keeps_sell_loop book n uid ticker lp :
  keeps_committed (sell_loop book n uid ticker lp).
Proof.
  revert n. induction book as [|[oid o] rest IH]; intros n; simpl.
  - keeps_auto.
  - keeps_auto; auto using keeps_execute_sell.
Qed.

Lemma keeps_cancel_on_error n qty e : keeps_committed (cancel_on_error n qty e).
Proof. unfold cancel_on_error. keeps_auto; auto using keeps_add_order. Qed.

Lemma keeps_create_limit_buy_order ticker qty lp uid now :
  keeps_committed (create_limit_buy_order base ticker qty lp uid now).
Proof.
  unfold create_limit_buy_order.
  keeps_auto;
    auto using keeps_buy_loop, keeps_freeze_balance, keeps_add_order,
      keeps_cancel_on_error.
Qed.

Lemma keeps_create_limit_sell_order ticker qty lp uid now :
  keeps_committed (create_limit_sell_order base ticker qty lp uid now).
Proof.
  unfold create_limit_sell_order.
  keeps_auto;
    auto using keeps_sell_loop, keeps_freeze_balance, keeps_add_order,
      keeps_cancel_on_error.
Qed.

Lemma keeps_cancel_order oid uid :
  keeps_committed (cancel_order base oid uid).
Proof.
  unfold cancel_order.
  keeps_auto; auto using keeps_unfreeze_balance.
Qed.

End Keeps.

(** ** Freeze and insertion, inverted *)

Section Freeze.

Variable base : string.

Lemma _freeze_balance_ok uid ticker amt s u s' :
  _freeze_balance base uid ticker amt s = (Ok u, s') →
  if bool_decide (ticker = base) then
    ∃ usr, users (working s) !! uid = Some usr ∧ amt ≤ balance usr
      ∧ s' = mkSession (committed s) (credit_balance uid (- amt) (working s))
  else
    ∃ q, is_Some (users (working s) !! uid)
      ∧ inventories (working s) !! (uid, ticker) = Some q ∧ amt ≤ q
      ∧ s' = mkSession (committed s) (credit_quantity uid ticker (- amt) (working s)).
Proof.
  unfold _freeze_balance. sess_unfold. simpl.
  destruct (users (working s) !! uid) as [usr|] eqn:Hu; [|done].
  case_bool_decide.
  - destruct (balance usr <? amt) eqn:Hlt; [done|].
    intros Heq. inv_pair Heq. exists usr. repeat split; try done. lia.
  - destruct (inventories (working s) !! (uid, ticker)) as [q|] eqn:Hq; [|done].
    destruct (q <? amt) eqn:Hlt; [done|].
    intros Heq. inv_pair Heq. exists q. repeat split; eauto; try done. lia.
Qed.

Lemma add_order_eq o s :
  add_order o s
  = match flush_order o with
    | Ok _ =>
        (Ok (fresh (dom (orders (working s)))),
         mkSession (committed s)
           (set_order (fresh (dom (orders (working s)))) o (working s)))
    | Raise e => (Raise e, s)
    end.
Proof. unfold add_order. sess_unfold. by destruct (flush_order o). Qed.

Lemma flush_order_raise o e :
  flush_order o = Raise e → e = DBAPIError "value out of int32 range".
Proof. unfold flush_order. destruct (_ && _); [done|]. by intros [= <-]. Qed.

Lemma add_order_ok o s oid s' :
  add_order o s = (Ok oid, s') →
  flush_order o = Ok tt
  ∧ oid = fresh (dom (orders (working s)))
  ∧ s' = mkSession (committed s) (set_order oid o (working s)).
Proof.
  rewrite add_order_eq. destruct (flush_order o) as [[]|e]; [|done].
  by intros [= <- <-].
Qed.

Lemma fresh_order_id (st : Store) : orders st !! fresh (dom (orders st)) = None.
Proof. apply not_elem_of_dom, is_fresh. Qed.

End Freeze.

(** ** What an open order withholds *)

Ltac status_solver :=
  simpl; rewrite ?elem_of_cons, ?elem_of_nil; intuition congruence.

Section Frozen.

Variable base : string.

Lemma frozen_ask t o :
  direction o = ASK → status o ∈ [NEW; PARTIALLY_EXECUTED] →
  frozen base t o = if bool_decide (instrument_ticker o = t) then amount o else 0.
Proof.
  intros Hd Hs. unfold frozen. rewrite Hd.
  by rewrite bool_decide_eq_true_2.
Qed.

Lemma frozen_bid t o p :
  direction o = BID → status o ∈ [NEW; PARTIALLY_EXECUTED] →
  price o = Some p →
  frozen base t o = if bool_decide (t = base) then amount o * p else 0.
Proof.
  intros Hd Hs Hp. unfold frozen. rewrite Hd, Hp.
  rewrite bool_decide_eq_true_2 by done. simpl.
  destruct (p =? 0) eqn:Hz; simpl; case_bool_decide; lia.
Qed.

Lemma frozen_closed t o :
  status o ∉ [NEW; PARTIALLY_EXECUTED] → frozen base t o = 0.
Proof. intros Hs. unfold frozen. by rewrite bool_decide_eq_false_2. Qed.

(** After a fill the resting order withholds its new residue. *)
Lemma frozen_filled_ask t o a f :
  direction o = ASK →
  frozen base t (with_amount o a f (if a =? 0 then EXECUTED else PARTIALLY_EXECUTED))
  = if bool_decide (instrument_ticker o = t) then a else 0.
Proof.
  intros Hd. destruct (a =? 0) eqn:Hz.
  - rewrite frozen_closed; [case_bool_decide; lia|]. status_solver.
  - rewrite frozen_ask; simpl; [done|done|status_solver].
Qed.

Lemma frozen_filled_bid t o a f p :
  direction o = BID → price o = Some p →
  frozen base t (with_amount o a f (if a =? 0 then EXECUTED else PARTIALLY_EXECUTED))
  = if bool_decide (t = base) then a * p else 0.
Proof.
  intros Hd Hp. destruct (a =? 0) eqn:Hz.
  - rewrite frozen_closed; [case_bool_decide; lia|]. status_solver.
  - rewrite (frozen_bid _ _ p); simpl; [done|done|status_solver|done].
Qed.

End Frozen.

(** ** What the loops keep of the incoming order *)

Section Conservation.

Variable base : string.

Lemma incoming_ok_fill d ticker lp uid q n amt n1 :
  incoming_ok d ticker lp uid q n →
  _partially_execute_order n amt = Ok n1 →
  incoming_ok d ticker lp uid q n1.
Proof.
  intros (Hd & Ht & Hp & Hu & Hq & Hs) Hn1.
  apply _partially_execute_order_ok in Hn1 as [_ ->].
  repeat split; simpl; try done; [lia|].
  by destruct (_ =? 0).
Qed.

End Conservation.

(** ** The submission endpoint, case by case *)

Section Endpoint.

Variable base : string.

Lemma keeps_submit req uid now : keeps_committed (submit base req uid now).
Proof.
  unfold submit, create_market_buy_order, create_market_sell_order.
  destruct (rq_direction req), (truthy (rq_price req));
    auto using keeps_create_limit_buy_order, keeps_create_limit_sell_order.
Qed.

Lemma cancel_on_error_raises n qty e s r s' :
  cancel_on_error n qty e s = (r, s') →
  r = Raise (OrderExecutionError (str e))
  ∨ r = Raise (DBAPIError "value out of int32 range").
Proof.
  unfold cancel_on_error.
  unfold mbind at 1, Sess_bind at 1, rollback at 1.
  unfold mbind at 1, Sess_bind at 1. rewrite add_order_eq.
  destruct (flush_order _) as [[]|e0] eqn:Hfl.
  - intros [= <- _]. by left.
  - intros [= <- _]. right. by rewrite (flush_order_raise _ _ Hfl).
Qed.

Lemma submit_raises req uid now s e s' :
  submit base req uid now s = (Raise e, s') →
  (∃ m, e = OrderExecutionError m)
  ∨ e = DBAPIError "value out of int32 range".
Proof.
  unfold submit, create_market_buy_order, create_market_sell_order,
    create_limit_buy_order, create_limit_sell_order.
  destruct (rq_direction req), (truthy (rq_price req));
    unfold mbind at 1, Sess_bind at 1, read at 1, try_except;
    match goal with |- (let (_, _) := ?b in _) = _ → _ =>
      destruct b as [[?|e0] ?] end;
    try done; intros Hc; apply cancel_on_error_raises in Hc as [Hc|Hc];
    injection Hc as ->; eauto.
Qed.

Lemma create_order_session req uid now db :
  create_order base req uid now (mkSession db db)
  = match users db !! uid with
    | None => (Raise (HTTPException 401 "User not found"), mkSession db db)
    | Some _ =>
        if negb (valid_request req) then
          (Raise (HTTPException 422 "Unprocessable Entity"), mkSession db db)
        else if negb (bool_decide (rq_ticker req ∈ instruments db)) then
          (Raise (HTTPException 404
                    (String.append "Instrument with ticker '"
                       (String.append (rq_ticker req) "' not found"))),
           mkSession db db)
        else
          match submit base req uid now (mkSession db db) with
          | (Ok order, s1) =>
              (if bool_decide (status order.2 = CANCELLED)
               then Raise (HTTPException 422 "ORDER CANCELLED")
               else Ok order.1,
               mkSession (working s1) (working s1))
          | (Raise e, s1) =>
              (Raise (match e with
                      | OrderExecutionError _ => HTTPException 422 (str e)
                      | _ => e
                      end),
               match e with
               | OrderExecutionError _ => mkSession db db
               | _ => s1
               end)
          end
    end.
Proof.
  unfold create_order, get_current_user.
  unfold mbind at 1, Sess_bind at 1.
  unfold mbind at 1, Sess_bind at 1, read at 1. simpl.
  destruct (users db !! uid) as [u|]; [|done].
  unfold mret at 1, Sess_ret at 1.
  destruct (negb (valid_request req)); [done|].
  unfold mbind at 1, Sess_bind at 1, read at 1. simpl.
  destruct (negb _); [done|].
  unfold try_except. unfold mbind at 1, Sess_bind at 1.
  change (match rq_direction req with
          | BUY => _ | SELL => _ end (mkSession db db))
    with (submit base req uid now (mkSession db db)).
  pose proof (keeps_submit req uid now (mkSession db db)) as Hk.
  destruct (submit base req uid now _) as [[order|e] s1] eqn:Hsub; simpl in *.
  - sess_unfold. simpl. by case_bool_decide.
  - destruct e; simpl; try done. sess_unfold. simpl. by rewrite Hk.
Qed.

Lemma create_order_run req uid now db :
  run_request (create_order base req uid now) db
  = match users db !! uid with
    | None => (Raise (HTTPException 401 "User not found"), db)
    | Some _ =>
        if negb (valid_request req) then
          (Raise (HTTPException 422 "Unprocessable Entity"), db)
        else if negb (bool_decide (rq_ticker req ∈ instruments db)) then
          (Raise (HTTPException 404
                    (String.append "Instrument with ticker '"
                       (String.append (rq_ticker req) "' not found"))), db)
        else
          match submit base req uid now (mkSession db db) with
          | (Ok order, s1) =>
              (if bool_decide (status order.2 = CANCELLED)
               then Raise (HTTPException 422 "ORDER CANCELLED")
               else Ok order.1,
               working s1)
          | (Raise e, s1) =>
              (Raise (match e with
                      | OrderExecutionError _ => HTTPException 422 (str e)
                      | _ => e
                      end), db)
          end
    end.
Proof.
  unfold run_request. rewrite create_order_session.
  destruct (users db !! uid); [|done].
  destruct (negb (valid_request req)); [done|].
  destruct (negb _); [done|].
  pose proof (keeps_submit req uid now (mkSession db db)) as Hk.
  destruct (submit base req uid now _) as [[order|e] s1]; [done|].
  simpl in *. f_equal. by destruct e.
Qed.

End Endpoint.

(** ** Postings of one fill *)

Lemma balance_of_credit_balance uid d st k :
  balance_of (credit_balance uid d st) k
  = if decide (k = uid) then (λ b, float_add b d) <$> balance_of st k
    else balance_of st k.
Proof.
  unfold balance_of, credit_balance.
  destruct (users st !! uid) as [u|] eqn:Hu; simpl.
  - case_decide as Hk.
    + subst k. by rewrite lookup_insert_eq, Hu.
    + by rewrite lookup_insert_ne.
  - case_decide as Hk; [|done]. subst k. by rewrite Hu.
Qed.

Lemma balance_of_credit_quantity uid ticker d st k :
  balance_of (credit_quantity uid ticker d st) k = balance_of st k.
Proof. unfold balance_of. by rewrite users_credit_quantity. Qed.

Lemma inventories_credit_quantity uid ticker d st k :
  inventories (credit_quantity uid ticker d st) !! k
  = if decide (k = (uid, ticker))
    then (λ q, float_add q d) <$> inventories st !! k
    else inventories st !! k.
Proof.
  unfold credit_quantity.
  destruct (inventories st !! (uid, ticker)) as [q|] eqn:Hq; simpl.
  - case_decide as Hk.
    + subst k. by rewrite lookup_insert_eq, Hq.
    + by rewrite lookup_insert_ne.
  - case_decide as Hk; [|done]. subst k. by rewrite Hq.
Qed.

Lemma settle_buy_postings seller buyer ticker p amt st :
  seller ≠ buyer →
  balance_of (settle_buy seller buyer ticker p amt st) seller
    = (λ b, float_add b (amt * p)) <$> balance_of st seller
  ∧ balance_of (settle_buy seller buyer ticker p amt st) buyer
    = (λ b, float_add b (- (amt * p))) <$> balance_of st buyer
  ∧ inventories (settle_buy seller buyer ticker p amt st) !! (buyer, ticker)
    = (λ q, float_add q amt) <$> inventories st !! (buyer, ticker)
  ∧ inventories (settle_buy seller buyer ticker p amt st) !! (seller, ticker)
    = inventories st !! (seller, ticker).
Proof.
  intros Hne. unfold settle_buy.
  rewrite !balance_of_credit_quantity, !balance_of_credit_balance.
  rewrite !inventories_credit_quantity, !inventories_credit_balance.
  repeat first
    [rewrite decide_True by congruence | rewrite decide_False by congruence].
  unfold balance_of; simpl. by repeat split.
Qed.

Lemma settle_sell_postings seller buyer ticker p amt st :
  seller ≠ buyer →
  balance_of (settle_sell seller buyer ticker p amt st) seller
    = (λ b, float_add b (amt * p)) <$> balance_of st seller
  ∧ balance_of (settle_sell seller buyer ticker p amt st) buyer
    = balance_of st buyer
  ∧ inventories (settle_sell seller buyer ticker p amt st) !! (seller, ticker)
    = (λ q, float_add q (- amt)) <$> inventories st !! (seller, ticker)
  ∧ inventories (settle_sell seller buyer ticker p amt st) !! (buyer, ticker)
    = (λ q, float_add q amt) <$> inventories st !! (buyer, ticker).
Proof.
  intros Hne. unfold settle_sell.
  rewrite !balance_of_credit_quantity, !balance_of_credit_balance.
  rewrite !inventories_credit_quantity, !inventories_credit_balance.
  repeat first
    [rewrite decide_True by congruence | rewrite decide_False by congruence].
  unfold balance_of; simpl. by repeat split.
Qed.

(** ** C3 *)

Lemma cancel_on_error_eq n qty e s :
  cancel_on_error n qty e s
  = match flush_order (with_amount n qty 0 CANCELLED) with
    | Ok _ =>
        (Raise (OrderExecutionError (str e)),
         mkSession (committed s)
           (set_order (fresh (dom (orders (committed s))))
              (with_amount n qty 0 CANCELLED) (committed s)))
    | Raise e' => (Raise e', mkSession (committed s) (committed s))
    end.
Proof.
  unfold cancel_on_error.
  unfold mbind at 1, Sess_bind at 1, rollback at 1.
  unfold mbind at 1, Sess_bind at 1. rewrite add_order_eq.
  by destruct (flush_order _) as [[]|e0].
Qed.

Lemma flush_order_incoming uid ticker qty p d st now :
  flush_order
    (with_amount (mkOrder uid ticker qty 0 (Some p) d st now) qty 0 CANCELLED)
  = if int32 qty && int32 p then Ok tt
    else Raise (DBAPIError "value out of int32 range").
Proof.
  unfold flush_order. simpl. change (int32 0) with true.
  by rewrite andb_true_r.
Qed.

Lemma valid_limit_truthy req :
  valid_request req = true → is_Some (rq_price req) → truthy (rq_price req) = true.
Proof.
  unfold valid_request. intros Hv [p Hp]. rewrite Hp in *. simpl.
  apply andb_true_iff in Hv as [_ Hv]. apply Z.ltb_lt in Hv.
  apply negb_true_iff, Z.eqb_neq. lia.
Qed.

(** C3.  A limit order whose matching went through and whose residue could
    not be frozen for want of balance or inventory.  The handler of the
    service routine rolls back and inserts the order again as CANCELLED
    before it raises [OrderExecutionError].  When quantity and price fit the
    32-bit columns of the order table, that insertion goes through: the
    routine fails with [OrderExecutionError], the endpoint answers 422, and
    the database after the request is the database before it -- no order
    record in any status, no trade, no posting of the fills made before the
    freeze.  When one of them does not fit (the request schema bounds
    neither from above), the insertion itself fails: the routine ends with
    the driver's [DBAPIError] in place of [OrderExecutionError], which the
    endpoint does not handle; the database is again left as it was. *)
Theorem failed_residual_freeze_rolls_back
    (base : string) (req : CreateOrderRequest) (uid : UUID) (now : Z)
    (db : Store) (p : Z) (n' : Order) (s1 : Session) (t : string) (a b : Z) :
  is_Some (users db !! uid) →
  valid_request req = true →
  rq_ticker req ∈ instruments db →
  rq_price req = Some p →
  match_phase base req uid now db = (Ok n', s1) →
  status n' ≠ EXECUTED →
  (residual_freeze base req uid n' s1).1 = Raise (InsufficientBalanceError t a b) →
  (submit base req uid now (mkSession db db)).1
    = Raise (if int32 (rq_qty req) && int32 p
             then OrderExecutionError "Insufficient balance"
             else DBAPIError "value out of int32 range")
  ∧ run_request (create_order base req uid now) db
    = (Raise (if int32 (rq_qty req) && int32 p
              then HTTPException 422 "Insufficient balance"
              else DBAPIError "value out of int32 range"), db).
Proof.
  intros [u Hu] Hv Hi Hp Hm Hs Hf.
  assert (Hp' : is_Some (rq_price req)) by (by eexists).
  assert (Hsub : (submit base req uid now (mkSession db db)).1
                 = Raise (if int32 (rq_qty req) && int32 p
                          then OrderExecutionError "Insufficient balance"
                          else DBAPIError "value out of int32 range")).
  { unfold submit. rewrite (valid_limit_truthy _ Hv Hp').
    unfold match_phase, residual_freeze, incoming, opposite in *.
    unfold create_limit_buy_order, create_limit_sell_order.
    destruct (rq_direction req);
      unfold mbind at 1, Sess_bind at 1, read at 1, try_except;
      unfold mbind at 1, Sess_bind at 1; simpl working; rewrite Hm;
      unfold mbind at 1, Sess_bind at 1;
      rewrite bool_decide_eq_true_2 by done;
      rewrite (valid_limit_truthy _ Hv Hp');
      match type of Hf with (?f ?x).1 = _ =>
        destruct (f x) as [r s2] eqn:Hfr end;
      simpl in Hf; subst r; rewrite cancel_on_error_eq, Hp,
        flush_order_incoming; by destruct (_ && _). }
  split; [done|].
  rewrite create_order_run, Hu, Hv. simpl.
  rewrite bool_decide_eq_true_2 by done. simpl.
  destruct (submit base req uid now _) as [[order|e] s2]; simpl in Hsub; [done|].
  injection Hsub as ->. by destruct (_ && _).
Qed.

(** Bob bids 12 at 3000000000 with 1000 RUB: 5 fill against Alice for 500,
    the residue of 7 cannot be frozen, and the price does not fit the
    column when the handler inserts the CANCELLED record. *)
Lemma failed_residual_freeze_rolls_back_witness :
  run_request
    (create_order RUB (mkCreateOrderRequest BUY MEMCOIN 12 (Some 3000000000))
       bob 3)
    db_ask
  = (Raise (DBAPIError "value out of int32 range"), db_ask).
Proof.
  eapply (failed_residual_freeze_rolls_back RUB
            (mkCreateOrderRequest BUY MEMCOIN 12 (Some 3000000000)) bob 3
            db_ask 3000000000).
  - vm_compute. eauto.
  - reflexivity.
  - apply (bool_decide_unpack _). by vm_compute.
  - reflexivity.
  - vm_compute. reflexivity.
  - vm_compute. discriminate.
  - vm_compute. reflexivity.
Defined.

(** The same bid at 100: the residue of 7 would need 700 of the 500 left,
    and the handler's insertion goes through. *)
Example failed_freeze_within_column_range :
  run_request
    (create_order RUB (mkCreateOrderRequest BUY MEMCOIN 12 (Some 100)) bob 3)
    db_ask
  = (Raise (HTTPException 422 "Insufficient balance"), db_ask).
Proof. vm_compute. reflexivity. Qed.

(** ** Trades follow the book *)

Section Trades.

Variable base : string.

Lemma transactions_settle_buy seller buyer ticker p amt st :
  transactions (settle_buy seller buyer ticker p amt st)
  = transactions st ++ [mkTransaction seller buyer ticker amt p].
Proof.
  unfold settle_buy.
  by rewrite transactions_credit_quantity, !transactions_credit_balance.
Qed.

Lemma transactions_settle_sell seller buyer ticker p amt st :
  transactions (settle_sell seller buyer ticker p amt st)
  = transactions st ++ [mkTransaction seller buyer ticker amt p].
Proof.
  unfold settle_sell.
  by rewrite !transactions_credit_quantity, transactions_credit_balance.
Qed.

Lemma buy_loop_trades book n uid ticker lp s n' s' :
  buy_loop base book n uid ticker lp s = (Ok n', s') →
  ∃ k trades,
    transactions (working s') = transactions (working s) ++ trades
    ∧ Forall2 (λ tr (row : UUID * Order),
                 price row.2 = Some (tx_price tr)
                 ∧ tx_instrument_ticker tr = ticker
                 ∧ tx_user_from_id tr = user_id row.2
                 ∧ tx_user_to_id tr = uid)
              trades (take k book).
Proof.
  revert n s. induction book as [|[oid o] rest IH]; intros n s Hrun.
  - simpl in Hrun. inv_pair Hrun. exists 0%nat, []. by rewrite app_nil_r.
  - apply buy_loop_cons_ok in Hrun
      as [(_ & -> & ->)|(p & ub & o1 & n1 & _ & Hp & _ & _ & _ & _ & _ & _ & Hrun)].
    + exists 0%nat, []. by rewrite app_nil_r.
    + apply IH in Hrun as (k & trades & Htr & Hall). simpl in Htr.
      rewrite transactions_settle_buy, <-app_assoc in Htr.
      exists (S k), (mkTransaction (user_id o) uid ticker
                       (Z.min (amount o) (amount n)) p :: trades).
      split; [done|]. simpl. by constructor.
Qed.

Lemma sell_loop_trades book n uid ticker lp s n' s' :
  sell_loop book n uid ticker lp s = (Ok n', s') →
  ∃ k trades,
    transactions (working s') = transactions (working s) ++ trades
    ∧ Forall2 (λ tr (row : UUID * Order),
                 price row.2 = Some (tx_price tr)
                 ∧ tx_instrument_ticker tr = ticker
                 ∧ tx_user_from_id tr = uid
                 ∧ tx_user_to_id tr = user_id row.2)
              trades (take k book).
Proof.
  revert n s. induction book as [|[oid o] rest IH]; intros n s Hrun.
  - simpl in Hrun. inv_pair Hrun. exists 0%nat, []. by rewrite app_nil_r.
  - apply sell_loop_cons_ok in Hrun
      as [(_ & -> & ->)|(p & q & o1 & n1 & _ & Hp & _ & _ & _ & _ & _ & _ & _ & Hrun)].
    + exists 0%nat, []. by rewrite app_nil_r.
    + apply IH in Hrun as (k & trades & Htr & Hall). simpl in Htr.
      rewrite transactions_settle_sell, <-app_assoc in Htr.
      exists (S k), (mkTransaction uid (user_id o) ticker
                       (Z.min (amount o) (amount n)) p :: trades).
      split; [done|]. simpl. by constructor.
Qed.

(** Neither the freeze nor the insertion of the order records a trade. *)
Lemma _freeze_balance_transactions uid ticker amt s u s' :
  _freeze_balance base uid ticker amt s = (Ok u, s') →
  transactions (working s') = transactions (working s).
Proof.
  intros Hfr. apply _freeze_balance_ok in Hfr. case_bool_decide.
  - destruct Hfr as (? & _ & _ & ->). simpl.
    apply transactions_credit_balance.
  - destruct Hfr as (? & _ & _ & _ & ->). simpl.
    apply transactions_credit_quantity.
Qed.

(** A successful submission routine, phase by phase. *)
Ltac no_ok :=
  let Hc := fresh in
  intros Hc; apply cancel_on_error_raises in Hc as [Hc|Hc]; discriminate Hc.

Lemma create_limit_buy_order_ok ticker qty lp uid now s oid n' s' :
  create_limit_buy_order base ticker qty lp uid now s = (Ok (oid, n'), s') →
  ∃ s1 s2,
    buy_loop base (get_orders (working s) ticker ASK (Z.to_nat qty) None)
      (mkOrder uid ticker qty 0 lp BID NEW now) uid ticker lp s = (Ok n', s1)
    ∧ (if bool_decide (status n' ≠ EXECUTED) then
         truthy lp = true
         ∧ _freeze_balance base uid base (amount n' * default 0 (price n')) s1
           = (Ok tt, s2)
       else s2 = s1)
    ∧ oid = fresh (dom (orders (working s2)))
    ∧ s' = mkSession (committed s2) (set_order oid n' (working s2)).
Proof.
  unfold create_limit_buy_order.
  unfold mbind at 1, Sess_bind at 1, read at 1, try_except.
  unfold mbind at 1, Sess_bind at 1.
  destruct (buy_loop _ _ _ _ _ _ s) as [[n1|e] s1] eqn:Hloop; [|by no_ok].
  unfold mbind at 1, Sess_bind at 1.
  case_bool_decide as Hex.
  - destruct (truthy lp) eqn:Htr; [|by no_ok].
    destruct (_freeze_balance _ _ _ _ s1) as [[[]|e] s2] eqn:Hfr; [|by no_ok].
    unfold mbind at 1, Sess_bind at 1.
    destruct (add_order n1 s2) as [[oid1|e] s3] eqn:Hadd; [|by no_ok].
    apply add_order_ok in Hadd as (_ & -> & ->).
    sess_unfold. intros [= <- <- <-].
    exists s1, s2. rewrite bool_decide_eq_true_2 by done. done.
  - unfold mbind at 1, Sess_bind at 1, mret at 1, Sess_ret at 1.
    destruct (add_order n1 s1) as [[oid1|e] s3] eqn:Hadd; [|by no_ok].
    apply add_order_ok in Hadd as (_ & -> & ->).
    sess_unfold. intros [= <- <- <-].
    exists s1, s1. rewrite bool_decide_eq_false_2 by auto. done.
Qed.

Lemma create_limit_sell_order_ok ticker qty lp uid now s oid n' s' :
  create_limit_sell_order base ticker qty lp uid now s = (Ok (oid, n'), s') →
  ∃ s1 s2,
    sell_loop (get_orders (working s) ticker BID (Z.to_nat qty) None)
      (mkOrder uid ticker qty 0 lp ASK NEW now) uid ticker lp s = (Ok n', s1)
    ∧ (if bool_decide (status n' ≠ EXECUTED) then
         truthy lp = true
         ∧ _freeze_balance base uid ticker (amount n') s1 = (Ok tt, s2)
       else s2 = s1)
    ∧ oid = fresh (dom (orders (working s2)))
    ∧ s' = mkSession (committed s2) (set_order oid n' (working s2)).
Proof.
  unfold create_limit_sell_order.
  unfold mbind at 1, Sess_bind at 1, read at 1, try_except.
  unfold mbind at 1, Sess_bind at 1.
  destruct (sell_loop _ _ _ _ _ s) as [[n1|e] s1] eqn:Hloop; [|by no_ok].
  unfold mbind at 1, Sess_bind at 1.
  case_bool_decide as Hex.
  - destruct (truthy lp) eqn:Htr; [|by no_ok].
    destruct (_freeze_balance _ _ _ _ s1) as [[[]|e] s2] eqn:Hfr; [|by no_ok].
    unfold mbind at 1, Sess_bind at 1.
    destruct (add_order n1 s2) as [[oid1|e] s3] eqn:Hadd; [|by no_ok].
    apply add_order_ok in Hadd as (_ & -> & ->).
    sess_unfold. intros [= <- <- <-].
    exists s1, s2. rewrite bool_decide_eq_true_2 by done. done.
  - unfold mbind at 1, Sess_bind at 1, mret at 1, Sess_ret at 1.
    destruct (add_order n1 s1) as [[oid1|e] s3] eqn:Hadd; [|by no_ok].
    apply add_order_ok in Hadd as (_ & -> & ->).
    sess_unfold. intros [= <- <- <-].
    exists s1, s1. rewrite bool_decide_eq_false_2 by auto. done.
Qed.

Lemma submit_eq req uid now :
  submit base req uid now
  = match rq_direction req with
    | BUY =>
        create_limit_buy_order base (rq_ticker req) (rq_qty req)
          (effective_price req) uid now
    | SELL =>
        create_limit_sell_order base (rq_ticker req) (rq_qty req)
          (effective_price req) uid now
    end.
Proof.
  unfold submit, effective_price, create_market_buy_order,
    create_market_sell_order.
  by destruct (rq_direction req), (truthy (rq_price req)).
Qed.

Lemma effective_price_Some req p :
  effective_price req = Some p → rq_price req = Some p.
Proof. unfold effective_price. by destruct (truthy _). Qed.

Lemma submit_trades req uid now db r s1 :
  submit base req uid now (mkSession db db) = (Ok r, s1) →
  ∃ k trades,
    transactions (working s1) = transactions db ++ trades
    ∧ Forall2 (fill_of req uid) trades
        (take k (get_orders db (rq_ticker req) (opposite req)
                   (Z.to_nat (rq_qty req)) None)).
Proof.
  rewrite submit_eq. unfold opposite, fill_of. destruct r as [oid n'].
  destruct (rq_direction req); intros Hsub.
  - apply create_limit_buy_order_ok in Hsub as (s2 & s3 & Hloop & Hfr & _ & ->).
    apply buy_loop_trades in Hloop as (k & trades & Htx & Hall).
    exists k, trades. split; [|done]. simpl in *. rewrite <-Htx.
    case_bool_decide; [|by subst].
    destruct Hfr as [_ Hfr]. by apply _freeze_balance_transactions in Hfr.
  - apply create_limit_sell_order_ok in Hsub as (s2 & s3 & Hloop & Hfr & _ & ->).
    apply sell_loop_trades in Hloop as (k & trades & Htx & Hall).
    exists k, trades. split; [|done]. simpl in *. rewrite <-Htx.
    case_bool_decide; [|by subst].
    destruct Hfr as [_ Hfr]. by apply _freeze_balance_transactions in Hfr.
Qed.

End Trades.

(** ** C4 *)

Lemma create_order_trades base req uid now db :
  ∃ k trades,
    transactions (run_request (create_order base req uid now) db).2
    = transactions db ++ trades
    ∧ Forall2 (fill_of req uid) trades
        (take k (get_orders db (rq_ticker req) (opposite req)
                   (Z.to_nat (rq_qty req)) None)).
Proof.
  rewrite create_order_run.
  assert (Hnone :
    ∃ k trades,
      transactions db = transactions db ++ trades
      ∧ Forall2 (fill_of req uid) trades
          (take k (get_orders db (rq_ticker req) (opposite req)
                     (Z.to_nat (rq_qty req)) None))).
  { exists 0%nat, []. by rewrite app_nil_r. }
  destruct (users db !! uid); [|done].
  destruct (negb (valid_request req)); [done|].
  destruct (negb _); [done|].
  destruct (submit base req uid now _) as [[order|e] s1] eqn:Hsub; [|done].
  simpl. by eapply submit_trades.
Qed.


(** Bob bids 120 for 5 against Alice's ask at 100: the trade is at 100. *)
Example trade_at_maker_price :
  transactions
    (run_request
       (create_order RUB (mkCreateOrderRequest BUY MEMCOIN 5 (Some 120)) bob 2)
       db_ask).2
  = [mkTransaction alice bob MEMCOIN 5 100].
Proof. by vm_compute. Qed.

(** ** C5 *)

Ltac leb_cases :=
  repeat match goal with
         | |- context [?x <=? ?y] => destruct (Z.leb_spec x y)
         | H : context [?x <=? ?y] |- _ => destruct (Z.leb_spec x y)
         end.

Global Instance book_le_total d : Total (book_le d).
Proof.
  intros [ia a] [ib b]. unfold book_le, book_leb, price_key_leb, price_asc_leb.
  simpl. destruct d, (price a), (price b); simpl; leb_cases; simpl;
    tauto || lia.
Qed.

Global Instance book_le_trans d : Transitive (book_le d).
Proof.
  intros [ia a] [ib b] [ic c].
  unfold book_le, book_leb, price_key_leb, price_asc_leb. simpl.
  destruct d, (price a), (price b), (price c); simpl; leb_cases; simpl;
    tauto || lia.
Qed.

Lemma StronglySorted_lookup_lt {A} (R : relation A) l i j a b :
  StronglySorted R l → (i < j)%nat → l !! i = Some a → l !! j = Some b → R a b.
Proof.
  intros Hs. revert i j. induction Hs as [|x l Hs IH Hall]; intros i j Hij Hi Hj.
  - done.
  - destruct j as [|j]; [lia|]. simpl in Hj. destruct i as [|i].
    + simpl in Hi. injection Hi as ->.
      rewrite Forall_forall in Hall. by eapply Hall, list_elem_of_lookup_2.
    + simpl in Hi. eapply (IH i j); [lia|done|done].
Qed.

Lemma book_le_priced d (a b : UUID * Order) pa pb :
  book_le d a b → price a.2 = Some pa → price b.2 = Some pb →
  match d with ASK => pa ≤ pb | BID => pb ≤ pa end
  ∧ (pa = pb → created_at a.2 ≤ created_at b.2).
Proof.
  unfold book_le, book_leb, price_key_leb, price_asc_leb.
  intros Hle Ha Hb. rewrite Ha, Hb in Hle.
  destruct d; simpl in Hle; leb_cases; simpl in Hle; try done; split; lia.
Qed.

Lemma get_orders_sorted st ticker d limit statuses :
  StronglySorted (book_le d) (get_orders st ticker d limit statuses).
Proof.
  unfold get_orders.
  set (l := merge_sort _ _).
  assert (Hl : StronglySorted (book_le d) l)
    by (apply StronglySorted_merge_sort; apply _).
  rewrite <-(take_drop limit l) in Hl. by apply StronglySorted_app_1_l in Hl.
Qed.

(** C5.  The book view holds only resting orders (NEW or
    PARTIALLY_EXECUTED) of the requested ticker and side; of two priced rows
    the earlier one has the better price (lower for ASK, higher for BID) or
    the same price and a creation time not later; a resting order left out
    of a full view is no better than any row in it; and the trades of a
    submission pair off in order with a prefix of the view, so the better
    price fills first and, at equal price, the older order. *)
Theorem book_view_price_time_priority
    (st : Store) (ticker : string) (d : DirectionEnum) (limit : nat) :
  let book := get_orders st ticker d limit None in
  (∀ row, row ∈ book →
     orders st !! row.1 = Some row.2
     ∧ instrument_ticker row.2 = ticker ∧ direction row.2 = d
     ∧ status row.2 ∈ [NEW; PARTIALLY_EXECUTED])
  ∧ (∀ i j a b pa pb,
       (i < j)%nat → book !! i = Some a → book !! j = Some b →
       price a.2 = Some pa → price b.2 = Some pb →
       match d with ASK => pa ≤ pb | BID => pb ≤ pa end
       ∧ (pa = pb → created_at a.2 ≤ created_at b.2))
  ∧ (∀ oid o,
       orders st !! oid = Some o →
       instrument_ticker o = ticker → direction o = d →
       status o ∈ [NEW; PARTIALLY_EXECUTED] →
       (oid, o) ∈ book
       ∨ (length book = limit ∧ ∀ row, row ∈ book → book_le d row (oid, o)))
  ∧ (∀ base req uid now,
       rq_ticker req = ticker → opposite req = d →
       Z.to_nat (rq_qty req) = limit →
       ∃ k trades,
         transactions (run_request (create_order base req uid now) st).2
         = transactions st ++ trades
         ∧ Forall2 (fill_of req uid) trades (take k book)).
Proof.
  intros book. split; [|split; [|split]].
  - intros row Hin. by apply get_orders_elem in Hin.
  - intros i j a b pa pb Hij Hi Hj Hpa Hpb.
    eapply book_le_priced; [|done|done].
    eapply StronglySorted_lookup_lt; [apply get_orders_sorted|done..].
  - intros oid o Ho Ht Hd Hs. subst book. unfold get_orders. simpl.
    set (l := merge_sort _ _).
    assert (Hin : (oid, o) ∈ l).
    { unfold l. rewrite merge_sort_Permutation.
      apply list_elem_of_filter. split.
      - by apply book_where_spec.
      - by apply elem_of_map_to_list. }
    assert (Hl : StronglySorted (book_le d) l)
      by (apply StronglySorted_merge_sort; apply _).
    rewrite <-(take_drop limit l) in Hin, Hl.
    apply elem_of_app in Hin as [Hin|Hin]; [by left|right]. split.
    + rewrite length_take. apply Nat.min_l.
      destruct (decide (limit ≤ length l)%nat) as [|Hn]; [done|].
      rewrite drop_ge in Hin by lia. by apply elem_of_nil in Hin.
    + intros row Hrow. by eapply StronglySorted_app_1_elem_of.
  - intros base req uid now <- <- <-. apply create_order_trades.
Qed.

(** Eve bids 100 for 7: Carol's older ask fills first and in full, Dave's
    fills for the remaining 2. *)
Example price_time_priority_scenario :
  (λ row : UUID * Order, user_id row.2) <$> get_orders db_two_asks MEMCOIN ASK 7 None
    = [carol; dave]
  ∧ transactions
      (run_request
         (create_order RUB (mkCreateOrderRequest BUY MEMCOIN 7 (Some 100)) eve 3)
         db_two_asks).2
    = [mkTransaction carol eve MEMCOIN 5 100;
       mkTransaction dave eve MEMCOIN 2 100].
Proof. by vm_compute. Qed.

Lemma book_view_price_time_priority_witness :
  ∃ a b,
    get_orders db_two_asks MEMCOIN ASK 7 None !! 0%nat = Some a
    ∧ get_orders db_two_asks MEMCOIN ASK 7 None !! 1%nat = Some b
    ∧ 100 ≤ 100 ∧ (100 = 100 → created_at a.2 ≤ created_at b.2).
Proof.
  eexists _, _.
  assert (H0 : get_orders db_two_asks MEMCOIN ASK 7 None !! 0%nat
               = Some (1%positive,
                       mkOrder carol MEMCOIN 5 0 (Some 100) ASK NEW 1))
    by (vm_compute; reflexivity).
  assert (H1 : get_orders db_two_asks MEMCOIN ASK 7 None !! 1%nat
               = Some (2%positive,
                       mkOrder dave MEMCOIN 10 0 (Some 100) ASK NEW 2))
    by (vm_compute; reflexivity).
  split; [exact H0|]. split; [exact H1|].
  apply (proj1 (proj2 (book_view_price_time_priority db_two_asks MEMCOIN ASK 7))
           0%nat 1%nat _ _ 100 100); [lia|exact H0|exact H1|done|done].
Defined.

(** ** The cancellation endpoint, case by case *)

Section CancelEndpoint.

Variable base : string.

Lemma cancel_order_session order_id uid s :
  is_Some (users (working s) !! uid) →
  cancel_order base order_id uid s
  = match orders (working s) !! order_id with
    | None => (Raise (NotFoundError "Order"), s)
    | Some order =>
        if bool_decide (user_id order ≠ uid) then
          (Raise (OrderExecutionError "Order does not belong to user"), s)
        else if bool_decide (status order ∈ [PARTIALLY_EXECUTED; EXECUTED; CANCELLED])
        then
          (Raise (OrderExecutionError
                    "Order already executed/partially_executed/cancelled"), s)
        else
          match price order with
          | None => (Raise (OrderExecutionError "Cannot cancel market order"), s)
          | Some _ =>
              (Ok (cancelled order),
               mkSession (committed s)
                 (set_order order_id (cancelled order)
                    (unfreeze_residue base order (working s))))
          end
    end.
Proof.
  intros [u Hu]. unfold cancel_order.
  unfold mbind at 1, Sess_bind at 1, read at 1.
  destruct (orders (working s) !! order_id) as [order|]; [|done].
  case_bool_decide as Hown; [done|].
  case_bool_decide as Hst; [done|].
  destruct (price order) as [p|] eqn:Hp; [|done].
  unfold unfreeze_residue, _unfreeze_balance. rewrite Hown, Hp.
  destruct (direction order); sess_unfold; simpl; rewrite Hu.
  - case_bool_decide; simpl; [done|].
    unfold credit_quantity.
    destruct (inventories (working s) !! (uid, instrument_ticker order))
      eqn:Hq; unfold modify; simpl; by rewrite ?Hq.
  - by rewrite bool_decide_eq_true_2.
Qed.

Lemma cancel_order_endpoint_run order_id uid db :
  run_request (cancel_order_endpoint base order_id uid) db
  = match users db !! uid with
    | None => (Raise (HTTPException 401 "User not found"), db)
    | Some _ =>
        match orders db !! order_id with
        | None => (Raise (NotFoundError "Order"), db)
        | Some order =>
            if bool_decide (user_id order ≠ uid) then
              (Raise (HTTPException 400 "Order does not belong to user"), db)
            else if bool_decide (status order ∈ [PARTIALLY_EXECUTED; EXECUTED; CANCELLED])
            then
              (Raise (HTTPException 400
                        "Order already executed/partially_executed/cancelled"), db)
            else
              match price order with
              | None =>
                  (Raise (HTTPException 400 "Cannot cancel market order"), db)
              | Some _ =>
                  (Ok tt,
                   set_order order_id (cancelled order)
                     (unfreeze_residue base order db))
              end
        end
    end.
Proof.
  unfold run_request, cancel_order_endpoint, get_current_user.
  unfold mbind, Sess_bind, read, try_except. simpl.
  destruct (users db !! uid) as [u|] eqn:Hu; [|done].
  unfold mret, Sess_ret.
  rewrite cancel_order_session by (simpl; eauto). simpl.
  destruct (orders db !! order_id) as [order|]; [|done].
  case_bool_decide; [done|].
  case_bool_decide; [done|].
  by destruct (price order).
Qed.

End CancelEndpoint.

(** ** C9 *)

(** Bob asks to cancel Alice's resting order.  The service routine raises
    [OrderExecutionError] and the endpoint answers 400: neither is of kind
    NotFound or Forbidden.  [GET /order/{id}] answers the same caller and
    order with 403. *)
Example cancel_by_non_owner_answer :
  user_id <$> orders db_ask !! 1%positive = Some alice
  ∧ alice ≠ bob
  ∧ (cancel_order RUB 1%positive bob (mkSession db_ask db_ask)).1
    = Raise (OrderExecutionError "Order does not belong to user")
  ∧ (run_request (cancel_order_endpoint RUB 1%positive bob) db_ask).1
    = Raise (HTTPException 400 "Order does not belong to user")
  ∧ ¬ (is_not_found (OrderExecutionError "Order does not belong to user")
       ∨ is_forbidden (OrderExecutionError "Order does not belong to user"))
  ∧ ¬ (is_not_found (HTTPException 400 "Order does not belong to user")
       ∨ is_forbidden (HTTPException 400 "Order does not belong to user"))
  ∧ (run_request (get_order 1%positive bob) db_ask).1
    = Raise (HTTPException 403 "Order does not belong to user").
Proof.
  repeat split; try by vm_compute.
  - intros [[]|[]].
  - intros [H|H]; simpl in H; lia.
Qed.

(** C9.  What a cancellation request by an authenticated caller who is not
    the owner of the order does: it fails and leaves the database -- the
    order and every balance -- as it was.  When no such order exists it
    fails with [NotFoundError].  When the order exists and is another
    user's, it fails with [OrderExecutionError] "Order does not belong to
    user", which the endpoint answers with status 400: an error of neither
    of the two kinds, NotFound and Forbidden, that the error table gives
    for this case. *)
Theorem cancel_by_non_owner_rejected
    (base : string) (db : Store) (order_id uid : UUID) :
  is_Some (users db !! uid) →
  (∀ o, orders db !! order_id = Some o → user_id o ≠ uid) →
  (cancel_order base order_id uid (mkSession db db)).1
    = Raise (match orders db !! order_id with
             | None => NotFoundError "Order"
             | Some _ => OrderExecutionError "Order does not belong to user"
             end)
  ∧ run_request (cancel_order_endpoint base order_id uid) db
    = (Raise (match orders db !! order_id with
              | None => NotFoundError "Order"
              | Some _ => HTTPException 400 "Order does not belong to user"
              end), db).
Proof.
  intros Hu Hown.
  rewrite cancel_order_session by done.
  rewrite cancel_order_endpoint_run. destruct Hu as [u ->]. simpl.
  destruct (orders db !! order_id) as [o|]; [|done].
  by rewrite bool_decide_eq_true_2 by auto.
Qed.

Lemma cancel_by_non_owner_rejected_witness :
  run_request (cancel_order_endpoint RUB 1%positive bob) db_ask
  = (Raise (HTTPException 400 "Order does not belong to user"), db_ask).
Proof.
  refine (proj2 (cancel_by_non_owner_rejected RUB db_ask 1%positive bob _ _)).
  - vm_compute. eauto.
  - intros o Ho. vm_compute in Ho. injection Ho as <-. by vm_compute.
Defined.

(** ** C10 *)

Lemma credit_quantity_missing uid ticker d st :
  inventories st !! (uid, ticker) = None → credit_quantity uid ticker d st = st.
Proof. intros H. unfold credit_quantity. by rewrite H. Qed.

(** C10.  Cancelling a NEW ASK limit order on a traded (non-base) ticker
    whose owner has no inventory row for that ticker succeeds: the order
    becomes CANCELLED, no balance and no inventory row changes, so the total
    of the ticker drops by the residue that was frozen.  The freeze of the
    same quantity on the same missing row raises [NotFoundError]. *)
Theorem cancel_ask_without_inventory_row
    (base : string) (db : Store) (order_id uid : UUID) (o : Order) :
  is_Some (users db !! uid) →
  orders db !! order_id = Some o →
  user_id o = uid → status o = NEW → direction o = ASK →
  is_Some (price o) →
  instrument_ticker o ≠ base →
  inventories db !! (uid, instrument_ticker o) = None →
  let r := run_request (cancel_order_endpoint base order_id uid) db in
  r.1 = Ok tt
  ∧ orders r.2 = <[order_id := cancelled o]> (orders db)
  ∧ status (cancelled o) = CANCELLED
  ∧ users r.2 = users db
  ∧ inventories r.2 = inventories db
  ∧ (∀ t, total base r.2 t
          = total base db t
            - (if bool_decide (instrument_ticker o = t) then amount o else 0))
  ∧ (_freeze_balance base uid (instrument_ticker o) (amount o)
       (mkSession db db)).1
    = Raise (NotFoundError "Inventory").
Proof.
  intros [u Hu] Ho Hown Hst Hd [p Hp] Hne Hinv r. subst r.
  rewrite cancel_order_endpoint_run, Hu, Ho.
  rewrite bool_decide_eq_false_2 by auto.
  rewrite bool_decide_eq_false_2 by (rewrite Hst; status_solver).
  rewrite Hp. unfold unfreeze_residue. rewrite Hd.
  rewrite bool_decide_eq_false_2 by done.
  rewrite credit_quantity_missing by (by rewrite Hown). simpl.
  repeat split.
  - intros t. rewrite (total_set_order _ _ o) by done.
    rewrite frozen_ask by (done || rewrite Hst; status_solver).
    rewrite frozen_closed by status_solver. lia.
  - unfold _freeze_balance. sess_unfold. simpl. rewrite Hu.
    rewrite bool_decide_eq_false_2 by done. simpl. by rewrite Hinv.
Qed.

Lemma cancel_ask_without_inventory_row_witness :
  (run_request (cancel_order_endpoint RUB 1%positive alice) db_orphan).1 = Ok tt
  ∧ inventories
      (run_request (cancel_order_endpoint RUB 1%positive alice) db_orphan).2
    = inventories db_orphan.
Proof.
  pose proof (cancel_ask_without_inventory_row RUB db_orphan 1%positive alice
                (mkOrder alice MEMCOIN 5 0 (Some 100) ASK NEW 1)) as H.
  simpl in H. destruct H as (H1 & _ & _ & _ & H2 & _); done.
Defined.

(** ** C6 *)

Lemma order_inv_fill qty o amt o1 :
  order_inv qty o → 0 < amt →
  _partially_execute_order o amt = Ok o1 →
  order_inv qty o1.
Proof.
  intros (Ha & Hf & Hq & Hopen & Hex) Hamt Ho1.
  apply _partially_execute_order_ok in Ho1 as [Hle ->].
  unfold order_inv. simpl.
  destruct (amount o - amt =? 0) eqn:Hz; [apply Z.eqb_eq in Hz|apply Z.eqb_neq in Hz].
  - repeat split; try lia. intros H. exfalso. revert H. status_solver.
  - repeat split; try lia; try done.
Qed.

Lemma order_inv_fill_status o amt o1 :
  status o ≠ CANCELLED →
  _partially_execute_order o amt = Ok o1 →
  status o1 ≠ CANCELLED.
Proof.
  intros _ Ho1. apply _partially_execute_order_ok in Ho1 as [_ ->].
  simpl. by destruct (_ =? 0).
Qed.

Lemma orders_inv_set_order q st oid (o1 : Order) qty :
  orders_inv q st → q !! oid = Some qty → order_inv qty o1 →
  orders_inv q (set_order oid o1 st).
Proof.
  intros Hinv Hq Ho1 oid' o' Hlk. simpl in Hlk.
  destruct (decide (oid = oid')) as [<-|Hne].
  - rewrite lookup_insert_eq in Hlk. injection Hlk as <-. eauto.
  - rewrite lookup_insert_ne in Hlk by done. eauto.
Qed.

Lemma orders_inv_same_orders q st st' :
  orders st' = orders st → orders_inv q st → orders_inv q st'.
Proof. intros Heq Hinv oid o. rewrite Heq. apply Hinv. Qed.

Lemma orders_inv_add q st oid (o : Order) qty :
  orders_inv q st → orders st !! oid = None → order_inv qty o →
  orders_inv (<[oid := qty]> q) (set_order oid o st).
Proof.
  intros Hinv Hfresh Ho oid' o' Hlk. simpl in Hlk.
  destruct (decide (oid = oid')) as [<-|Hne].
  - rewrite lookup_insert_eq in Hlk. injection Hlk as <-.
    exists qty. by rewrite lookup_insert_eq.
  - rewrite lookup_insert_ne in Hlk by done.
    rewrite lookup_insert_ne by done. eauto.
Qed.

Lemma buy_break_false n lp o : buy_break n lp o = Ok false → amount n ≠ 0.
Proof.
  unfold buy_break. destruct (amount n =? 0) eqn:Hz; [done|].
  intros _. by apply Z.eqb_neq.
Qed.

Lemma sell_break_false n lp o : sell_break n lp o = Ok false → amount n ≠ 0.
Proof.
  unfold sell_break. destruct (amount n =? 0) eqn:Hz; [done|].
  intros _. by apply Z.eqb_neq.
Qed.

Section OrderInvariants.

Variable base : string.

(** One fill keeps the invariant of the resting order, of the incoming
    order and of every other order. *)
Lemma fill_keeps_orders_inv q st st0 oid o n qty o1 n1 :
  orders_inv q st ∧ order_inv qty n ∧ status n ≠ CANCELLED →
  orders st !! oid = Some o →
  status o ∈ [NEW; PARTIALLY_EXECUTED] →
  amount n ≠ 0 →
  orders st0 = orders st →
  _partially_execute_order o (Z.min (amount o) (amount n)) = Ok o1 →
  _partially_execute_order n (Z.min (amount o) (amount n)) = Ok n1 →
  orders_inv q (set_order oid o1 st0) ∧ order_inv qty n1 ∧ status n1 ≠ CANCELLED.
Proof.
  intros (Hinv & Hn & Hs) Hlk Hst Hnz Hst0 Ho1 Hn1.
  destruct (Hinv _ _ Hlk) as (qo & Hqo & Ho).
  assert (0 < Z.min (amount o) (amount n)).
  { destruct Ho as (_ & _ & _ & Hopen & _). destruct Hn as (? & _).
    specialize (Hopen Hst). lia. }
  split; [|split].
  - eapply orders_inv_set_order; [|done|by eapply order_inv_fill].
    by eapply orders_inv_same_orders.
  - by eapply order_inv_fill.
  - by eapply order_inv_fill_status.
Qed.

Lemma buy_loop_orders_inv q book n uid ticker lp qty s n' s' :
  book_ok (working s) book ASK ticker →
  orders_inv q (working s) → order_inv qty n → status n ≠ CANCELLED →
  buy_loop base book n uid ticker lp s = (Ok n', s') →
  orders_inv q (working s') ∧ order_inv qty n' ∧ status n' ≠ CANCELLED.
Proof.
  intros Hbook Hinv Hn Hs Hrun.
  eapply (buy_loop_invariant base
            (λ st m, orders_inv q st ∧ order_inv qty m ∧ status m ≠ CANCELLED))
    in Hrun; [by destruct Hrun| |done|done].
  clear. intros st oid o m p ub o1 n1 HI Hlk _ _ Hst Hbrk _ _ _ _ _ Ho1 Hn1.
  eapply fill_keeps_orders_inv; eauto using buy_break_false.
  apply orders_settle_buy.
Qed.

Lemma sell_loop_orders_inv q book n uid ticker lp qty s n' s' :
  book_ok (working s) book BID ticker →
  orders_inv q (working s) → order_inv qty n → status n ≠ CANCELLED →
  sell_loop book n uid ticker lp s = (Ok n', s') →
  orders_inv q (working s') ∧ order_inv qty n' ∧ status n' ≠ CANCELLED.
Proof.
  intros Hbook Hinv Hn Hs Hrun.
  eapply (sell_loop_invariant
            (λ st m, orders_inv q st ∧ order_inv qty m ∧ status m ≠ CANCELLED))
    in Hrun; [by destruct Hrun| |done|done].
  clear. intros st oid o m p q0 o1 n1 HI Hlk _ _ Hst Hbrk _ _ _ _ _ _ Ho1 Hn1.
  eapply fill_keeps_orders_inv; eauto using sell_break_false.
  apply orders_settle_sell.
Qed.

Lemma _freeze_balance_orders uid ticker amt s u s' :
  _freeze_balance base uid ticker amt s = (Ok u, s') →
  orders (working s') = orders (working s).
Proof.
  intros Hfr. apply _freeze_balance_ok in Hfr. case_bool_decide.
  - destruct Hfr as (? & _ & _ & ->). apply orders_credit_balance.
  - destruct Hfr as (? & _ & _ & _ & ->). apply orders_credit_quantity.
Qed.

Lemma order_inv_incoming uid ticker qty lp d now :
  0 < qty → order_inv qty (mkOrder uid ticker qty 0 lp d NEW now).
Proof. intros Hq. unfold order_inv. simpl. repeat split; try lia; done. Qed.

Lemma submit_orders_inv req uid now db q oid n' s1 :
  valid_request req = true →
  orders_inv q db →
  submit base req uid now (mkSession db db) = (Ok (oid, n'), s1) →
  orders_inv (<[oid := rq_qty req]> q) (working s1) ∧ status n' ≠ CANCELLED.
Proof.
  intros Hv Hinv. rewrite submit_eq.
  assert (Hq : 0 < rq_qty req).
  { unfold valid_request in Hv. apply andb_true_iff in Hv as [Hv _].
    apply andb_true_iff in Hv as [_ Hv]. by apply Z.ltb_lt. }
  destruct (rq_direction req); intros Hsub.
  - apply create_limit_buy_order_ok in Hsub as (s2 & s3 & Hloop & Hfr & -> & ->).
    eapply buy_loop_orders_inv in Hloop as (Hinv2 & Hn' & Hs');
      [|apply get_orders_book_ok|done|by apply order_inv_incoming|done].
    split; [|done]. simpl.
    assert (Horders : orders (working s3) = orders (working s2)).
    { case_bool_decide; [|by subst].
      destruct Hfr as [_ Hfr]. by apply _freeze_balance_orders in Hfr. }
    apply orders_inv_add; [by eapply orders_inv_same_orders| |done].
    apply fresh_order_id.
  - apply create_limit_sell_order_ok in Hsub as (s2 & s3 & Hloop & Hfr & -> & ->).
    eapply sell_loop_orders_inv in Hloop as (Hinv2 & Hn' & Hs');
      [|apply get_orders_book_ok|done|by apply order_inv_incoming|done].
    split; [|done]. simpl.
    assert (Horders : orders (working s3) = orders (working s2)).
    { case_bool_decide; [|by subst].
      destruct Hfr as [_ Hfr]. by apply _freeze_balance_orders in Hfr. }
    apply orders_inv_add; [by eapply orders_inv_same_orders| |done].
    apply fresh_order_id.
Qed.

Lemma create_order_orders_inv req uid now db q :
  orders_inv q db →
  orders_inv
    (match (run_request (create_order base req uid now) db).1 with
     | Ok oid => <[oid := rq_qty req]> q
     | Raise _ => q
     end)
    (run_request (create_order base req uid now) db).2.
Proof.
  intros Hinv. rewrite create_order_run.
  destruct (users db !! uid); [|done].
  destruct (valid_request req) eqn:Hv; [|done]. simpl.
  destruct (negb _); [done|].
  destruct (submit base req uid now _) as [[[oid n']|e] s1] eqn:Hsub; [|done].
  apply (submit_orders_inv _ _ _ _ q) in Hsub as [Hinv' Hs]; [|done..].
  simpl. by rewrite bool_decide_eq_false_2.
Qed.

Lemma unfreeze_residue_orders o st :
  orders (unfreeze_residue base o st) = orders st.
Proof.
  unfold unfreeze_residue. destruct (direction o); [case_bool_decide|];
    auto using orders_credit_balance, orders_credit_quantity.
Qed.

Lemma order_inv_cancelled qty o : order_inv qty o → order_inv qty (cancelled o).
Proof.
  intros (Ha & Hf & Hq & _ & _). unfold order_inv, cancelled. simpl.
  repeat split; try done. intros H. exfalso. revert H. status_solver.
Qed.

Lemma cancel_order_orders_inv order_id uid db q :
  orders_inv q db →
  orders_inv q (run_request (cancel_order_endpoint base order_id uid) db).2.
Proof.
  intros Hinv. rewrite cancel_order_endpoint_run.
  destruct (users db !! uid); [|done].
  destruct (orders db !! order_id) as [o|] eqn:Ho; [|done].
  case_bool_decide; [done|]. case_bool_decide; [done|].
  destruct (price o); [|done]. simpl.
  destruct (Hinv _ _ Ho) as (qty & Hq & Hoi).
  eapply orders_inv_set_order; [|done|by apply order_inv_cancelled].
  eapply orders_inv_same_orders; [apply unfreeze_residue_orders|done].
Qed.

End OrderInvariants.

(** C6.  In every database reached by committed requests, every order has
    amount ≥ 0, filled ≥ 0 and amount + filled equal to the quantity it was
    submitted with (the [qty] the order response reports); a NEW or
    PARTIALLY_EXECUTED order has amount > 0 and an EXECUTED order has
    amount = 0 and filled = qty. *)
Theorem committed_orders_satisfy_invariants
    (base : string) (st : Store) (q : gmap UUID Z) :
  reachable base st q →
  ∀ oid o, orders st !! oid = Some o →
    ∃ qty, q !! oid = Some qty
      ∧ 0 ≤ amount o ∧ 0 ≤ filled o ∧ amount o + filled o = qty
      ∧ rs_qty (_format_order_response oid o) = qty
      ∧ (status o = NEW ∨ status o = PARTIALLY_EXECUTED → 0 < amount o)
      ∧ (status o = EXECUTED → amount o = 0 ∧ filled o = qty).
Proof.
  intros Hreach.
  assert (Hinv : orders_inv q st).
  { induction Hreach as [st Hempty|st q req uid now _ IH|st q oid uid _ IH
                         |st q st' _ IH Heq].
    - intros oid o. by rewrite Hempty, lookup_empty.
    - by apply create_order_orders_inv.
    - by apply cancel_order_orders_inv.
    - intros oid o Ho. apply IH. by eapply lookup_weaken. }
  intros oid o Ho. destruct (Hinv _ _ Ho) as (qty & Hq & Ha & Hf & Hsum & Hopen & Hex).
  exists qty. repeat split; try done.
  - intros Hs. apply Hopen. destruct Hs as [-> | ->]; status_solver.
  - by apply Hex.
  - by apply Hex.
Qed.

Lemma db_partial_reachable :
  reachable RUB db_partial (<[2%positive := 8]> (<[1%positive := 5]> ∅)).
Proof.
  pose proof (reach_init RUB db_funded eq_refl) as H0.
  pose proof (reach_create RUB _ _
                (mkCreateOrderRequest SELL MEMCOIN 5 (Some 100)) alice 1 H0) as H1.
  pose proof (reach_create RUB _ _
                (mkCreateOrderRequest BUY MEMCOIN 8 (Some 100)) bob 2 H1) as H2.
  exact H2.
Defined.

(** Bob's resting bid after the partial fill: amount 3, filled 5, qty 8. *)
Lemma committed_orders_satisfy_invariants_witness :
  ∃ qty, (<[2%positive := 8]> (<[1%positive := 5]> ∅) : gmap UUID Z) !! 2%positive
         = Some qty
    ∧ 0 ≤ 3 ∧ 0 ≤ 5 ∧ 3 + 5 = qty ∧ 3 + 5 = qty
    ∧ (PARTIALLY_EXECUTED = NEW ∨ PARTIALLY_EXECUTED = PARTIALLY_EXECUTED → 0 < 3)
    ∧ (PARTIALLY_EXECUTED = EXECUTED → 3 = 0 ∧ 5 = qty).
Proof.
  exact (committed_orders_satisfy_invariants RUB db_partial _ db_partial_reachable
           2%positive (mkOrder bob MEMCOIN 3 5 (Some 100) BID PARTIALLY_EXECUTED 2)
           eq_refl).
Defined.

(** ** C7 *)

Lemma filled_not_new o amt o1 :
  _partially_execute_order o amt = Ok o1 → status o1 ≠ NEW.
Proof.
  intros Ho1. apply _partially_execute_order_ok in Ho1 as [_ ->].
  simpl. by destruct (_ =? 0).
Qed.

Section PlaceCancel.

Variable base : string.

Lemma buy_loop_not_new book n uid ticker lp s n' s' :
  status n ≠ NEW →
  buy_loop base book n uid ticker lp s = (Ok n', s') → status n' ≠ NEW.
Proof.
  revert n s. induction book as [|[oid o] rest IH]; intros n s Hn Hrun.
  - simpl in Hrun. by inv_pair Hrun.
  - apply buy_loop_cons_ok in Hrun
      as [(_ & -> & ->)|(p & ub & o1 & n1 & _ & _ & _ & _ & _ & _ & _ & Hn1 & Hrun)];
      [done|].
    eapply IH; [|done]. by eapply filled_not_new.
Qed.

Lemma sell_loop_not_new book n uid ticker lp s n' s' :
  status n ≠ NEW →
  sell_loop book n uid ticker lp s = (Ok n', s') → status n' ≠ NEW.
Proof.
  revert n s. induction book as [|[oid o] rest IH]; intros n s Hn Hrun.
  - simpl in Hrun. by inv_pair Hrun.
  - apply sell_loop_cons_ok in Hrun
      as [(_ & -> & ->)|(p & q & o1 & n1 & _ & _ & _ & _ & _ & _ & _ & _ & Hn1 & Hrun)];
      [done|].
    eapply IH; [|done]. by eapply filled_not_new.
Qed.

(** An incoming order that comes out of the loop NEW matched nothing. *)
Lemma buy_loop_new book n uid ticker lp s n' s' :
  buy_loop base book n uid ticker lp s = (Ok n', s') →
  status n' = NEW → n' = n ∧ s' = s.
Proof.
  destruct book as [|[oid o] rest]; intros Hrun Hnew.
  - simpl in Hrun. by inv_pair Hrun.
  - apply buy_loop_cons_ok in Hrun
      as [(_ & -> & ->)|(p & ub & o1 & n1 & _ & _ & _ & _ & _ & _ & _ & Hn1 & Hrun)];
      [done|].
    apply buy_loop_not_new in Hrun; [done|]. by eapply filled_not_new.
Qed.

Lemma sell_loop_new book n uid ticker lp s n' s' :
  sell_loop book n uid ticker lp s = (Ok n', s') →
  status n' = NEW → n' = n ∧ s' = s.
Proof.
  destruct book as [|[oid o] rest]; intros Hrun Hnew.
  - simpl in Hrun. by inv_pair Hrun.
  - apply sell_loop_cons_ok in Hrun
      as [(_ & -> & ->)|(p & q & o1 & n1 & _ & _ & _ & _ & _ & _ & _ & _ & Hn1 & Hrun)];
      [done|].
    apply sell_loop_not_new in Hrun; [done|]. by eapply filled_not_new.
Qed.

(** Crediting back what was debited restores the row, where the sums are
    not rounded. *)
Lemma credit_balance_undo uid d oid o st :
  (∀ u, users st !! uid = Some u → 0 ≤ d ≤ balance u ∧ balance u ≤ 2 ^ 53) →
  users (credit_balance uid d (set_order oid o (credit_balance uid (- d) st)))
  = users st.
Proof.
  intros Hx. unfold credit_balance at 2.
  destruct (users st !! uid) as [u|] eqn:Hu.
  - destruct (Hx u eq_refl) as [Hd Hb].
    unfold credit_balance. simpl. rewrite lookup_insert_eq. simpl.
    rewrite insert_insert_eq. apply insert_id. rewrite Hu. f_equal.
    destruct u. simpl in *. f_equal. symmetry. by apply float_add_undo.
  - unfold credit_balance. simpl. by rewrite Hu.
Qed.

Lemma credit_quantity_undo uid ticker d oid o st :
  (∀ q, inventories st !! (uid, ticker) = Some q → 0 ≤ d ≤ q ∧ q ≤ 2 ^ 53) →
  inventories
    (credit_quantity uid ticker d
       (set_order oid o (credit_quantity uid ticker (- d) st)))
  = inventories st.
Proof.
  intros Hx. unfold credit_quantity at 2.
  destruct (inventories st !! (uid, ticker)) as [q|] eqn:Hq.
  - destruct (Hx q eq_refl) as [Hd Hb].
    unfold credit_quantity. simpl. rewrite lookup_insert_eq. simpl.
    rewrite insert_insert_eq. apply insert_id. rewrite Hq. f_equal.
    symmetry. by apply float_add_undo.
  - unfold credit_quantity. simpl. by rewrite Hq.
Qed.

End PlaceCancel.

Lemma balance_of_set_order oid o st k :
  balance_of (set_order oid o st) k = balance_of st k.
Proof. reflexivity. Qed.

Lemma inventories_set_order oid o st :
  inventories (set_order oid o st) = inventories st.
Proof. reflexivity. Qed.

Lemma users_set_order oid o st : users (set_order oid o st) = users st.
Proof. reflexivity. Qed.

Lemma truthy_Some lp : truthy lp = true → ∃ p, lp = Some p ∧ p ≠ 0.
Proof.
  destruct lp as [p|]; [|done]. simpl. intros Hp. exists p. split; [done|].
  by apply negb_true_iff, Z.eqb_neq in Hp.
Qed.

Lemma valid_request_pos req :
  valid_request req = true →
  0 < rq_qty req ∧ ∀ p, rq_price req = Some p → 0 < p.
Proof.
  unfold valid_request. intros Hv.
  apply andb_true_iff in Hv as [Hv Hp].
  apply andb_true_iff in Hv as [_ Hq]. apply Z.ltb_lt in Hq.
  split; [done|]. intros p Hpp. rewrite Hpp in Hp. by apply Z.ltb_lt.
Qed.

(** C7, as stated, at the edge of the Float range: Bob holds 2^53 + 2 RUB
    and bids 1 for 1 MEMCOIN in an empty book.  The order rests NEW and is
    cancelled with success, and Bob is left with 2^53 RUB: the freeze rounds
    2^53 + 1 to 2^53 and the credit of the cancellation rounds again. *)
Lemma place_then_cancel_counterexample :
  let placed :=
    run_request
      (create_order RUB (mkCreateOrderRequest BUY MEMCOIN 1 (Some 1)) bob 1)
      db_large in
  let cancel := run_request (cancel_order_endpoint RUB 1%positive bob) placed.2 in
  placed.1 = Ok 1%positive
  ∧ status <$> orders placed.2 !! 1%positive = Some NEW
  ∧ cancel.1 = Ok tt
  ∧ status <$> orders cancel.2 !! 1%positive = Some CANCELLED
  ∧ balance_of db_large bob = Some 9007199254740994
  ∧ balance_of cancel.2 bob = Some 9007199254740992.
Proof. vm_compute. by repeat split. Qed.

(** C7, amended.  A limit order that comes to rest NEW matched nothing: its
    freeze debited [qty × price] of cash for a BUY and [qty] units of the
    ticker for a SELL, and nothing else changed.  Where the owner's cash
    balance and quantity of the ticker are at most 2^53 at placement (the
    integers up to 2^53 are held by a Float column without rounding),
    cancelling the order right away succeeds, leaves the order CANCELLED,
    and the tables of cash balances and of inventories are again those
    before the placement. *)
Theorem place_then_cancel_restores_balances
    (base : string) (req : CreateOrderRequest) (uid : UUID) (now : Z)
    (db : Store) (oid : UUID) (db1 : Store) (o : Order) :
  (∀ b, balance_of db uid = Some b → b ≤ 2 ^ 53) →
  (∀ q, inventories db !! (uid, rq_ticker req) = Some q → q ≤ 2 ^ 53) →
  run_request (create_order base req uid now) db = (Ok oid, db1) →
  orders db1 !! oid = Some o →
  status o = NEW →
  ∃ p, rq_price req = Some p
    ∧ o = incoming req uid now
    ∧ match rq_direction req with
      | BUY =>
          balance_of db1 uid = (λ b, b - rq_qty req * p) <$> balance_of db uid
          ∧ inventories db1 = inventories db
      | SELL =>
          rq_ticker req ≠ base →
          inventories db1 !! (uid, rq_ticker req)
            = (λ q, q - rq_qty req) <$> inventories db !! (uid, rq_ticker req)
          ∧ users db1 = users db
      end
    ∧ (run_request (cancel_order_endpoint base oid uid) db1).1 = Ok tt
    ∧ users (run_request (cancel_order_endpoint base oid uid) db1).2 = users db
    ∧ inventories (run_request (cancel_order_endpoint base oid uid) db1).2
      = inventories db
    ∧ orders (run_request (cancel_order_endpoint base oid uid) db1).2 !! oid
      = Some (cancelled o)
    ∧ status (cancelled o) = CANCELLED.
Proof.
  intros Hbal Hqty Hrun Ho Hnew. rewrite create_order_run in Hrun.
  destruct (users db !! uid) as [u|] eqn:Hu; [|done].
  destruct (valid_request req) eqn:Hv; [|done]. simpl in Hrun.
  apply valid_request_pos in Hv as [Hqpos Hppos].
  destruct (negb _); [done|].
  destruct (submit base req uid now _) as [[[oid' n']|e] s1] eqn:Hsub; [|done].
  simpl in Hrun. case_bool_decide; [done|]. injection Hrun as -> <-.
  rewrite submit_eq in Hsub. unfold incoming.
  rewrite cancel_order_endpoint_run.
  assert (Hbu : balance u ≤ 2 ^ 53).
  { apply Hbal. unfold balance_of. by rewrite Hu. }
  destruct (rq_direction req).
  - apply create_limit_buy_order_ok in Hsub as (s2 & s3 & Hloop & Hfr & -> & ->).
    revert Ho. generalize (fresh (dom (orders (working s3)))). intros oid Ho.
    cbn [working set_order orders users inventories] in *.
    rewrite lookup_insert_eq in Ho. injection Ho as <-.
    apply buy_loop_new in Hloop as [-> ->]; [|done].
    rewrite bool_decide_eq_true_2 in Hfr by done.
    destruct Hfr as [Htr Hfr].
    apply truthy_Some in Htr as (p & Hp & _).
    apply _freeze_balance_ok in Hfr. rewrite bool_decide_eq_true_2 in Hfr by done.
    destruct Hfr as (usr & Husr & Hle & ->).
    cbn [working amount price] in *. rewrite Hp in *.
    cbn [default from_option id] in *.
    assert (usr = u) as -> by congruence.
    pose proof (Hppos p (effective_price_Some _ _ Hp)) as Hp0.
    assert (Hc : 0 ≤ rq_qty req * p) by nia.
    exists p. split; [by apply effective_price_Some|].
    split; [by rewrite (effective_price_Some _ _ Hp)|].
    split.
    { rewrite inventories_credit_balance. split; [|done].
      rewrite balance_of_set_order.
      rewrite balance_of_credit_balance, decide_True by done.
      unfold balance_of. rewrite Hu. simpl. f_equal.
      by apply float_sub_exact. }
    assert (Hex : is_Some (users (credit_balance uid (- (rq_qty req * p)) db) !! uid))
      by (apply users_credit_balance_is_Some; eauto).
    destruct Hex as [u' ->].
    rewrite lookup_insert_eq. cbn [user_id status price].
    rewrite bool_decide_eq_false_2 by auto.
    rewrite bool_decide_eq_false_2 by status_solver.
    unfold unfreeze_residue. cbn [direction user_id amount price default from_option id].
    cbn [fst snd users inventories orders set_order].
    split; [done|]. split.
    { apply credit_balance_undo. intros u0 Hu0.
      assert (u0 = u) as -> by congruence. done. }
    split;
      [by rewrite inventories_credit_balance, inventories_set_order,
         inventories_credit_balance|].
    split; [by rewrite lookup_insert_eq|done].
  - apply create_limit_sell_order_ok in Hsub as (s2 & s3 & Hloop & Hfr & -> & ->).
    revert Ho. generalize (fresh (dom (orders (working s3)))). intros oid Ho.
    cbn [working set_order orders users inventories] in *.
    rewrite lookup_insert_eq in Ho. injection Ho as <-.
    apply sell_loop_new in Hloop as [-> ->]; [|done].
    rewrite bool_decide_eq_true_2 in Hfr by done.
    destruct Hfr as [Htr Hfr].
    apply truthy_Some in Htr as (p & Hp & _).
    apply _freeze_balance_ok in Hfr.
    cbn [working amount price] in *. rewrite Hp in *.
    exists p. split; [by apply effective_price_Some|].
    split; [by rewrite (effective_price_Some _ _ Hp)|].
    case_bool_decide as Hb.
    + destruct Hfr as (usr & Husr & Hle & ->).
      assert (usr = u) as -> by congruence.
      cbn [working users inventories orders set_order].
      split; [done|].
      assert (Hex : is_Some (users (credit_balance uid (- rq_qty req) db) !! uid))
        by (apply users_credit_balance_is_Some; eauto).
      destruct Hex as [u' ->].
      rewrite lookup_insert_eq. cbn [user_id status price].
      rewrite bool_decide_eq_false_2 by auto.
      rewrite bool_decide_eq_false_2 by status_solver.
      unfold unfreeze_residue.
      cbn [direction user_id amount price instrument_ticker].
      rewrite bool_decide_eq_true_2 by done.
      cbn [fst snd users inventories orders set_order].
      split; [done|]. split.
      { apply credit_balance_undo. intros u0 Hu0.
        assert (u0 = u) as -> by congruence. lia. }
      split;
      [by rewrite inventories_credit_balance, inventories_set_order,
         inventories_credit_balance|].
      split; [by rewrite lookup_insert_eq|done].
    + destruct Hfr as (q & Husr & Hq & Hle & ->).
      pose proof (Hqty q Hq) as Hq53.
      cbn [working users inventories orders set_order].
      split.
      { intros _. rewrite inventories_credit_quantity, decide_True by done.
        rewrite users_credit_quantity. split; [|done].
        rewrite Hq. simpl. f_equal. apply float_sub_exact; lia. }
      rewrite users_credit_quantity, Hu.
      rewrite lookup_insert_eq. cbn [user_id status price].
      rewrite bool_decide_eq_false_2 by auto.
      rewrite bool_decide_eq_false_2 by status_solver.
      unfold unfreeze_residue.
      cbn [direction user_id amount price instrument_ticker].
      rewrite bool_decide_eq_false_2 by done.
      cbn [fst snd users inventories orders set_order].
      split; [done|].
      split;
        [by rewrite users_credit_quantity, users_set_order,
           users_credit_quantity|].
      split.
      { apply credit_quantity_undo. intros q0 Hq0.
        assert (q0 = q) as -> by congruence. lia. }
      split; [by rewrite lookup_insert_eq|done].
Qed.

(** Bob has 1000 RUB, bids 50 for 4 (800 left available) and cancels. *)
Lemma place_then_cancel_restores_balances_witness :
  balance_of db_funded bob = Some 1000
  ∧ balance_of db_bid bob = Some 800
  ∧ users (run_request (cancel_order_endpoint RUB 1%positive bob) db_bid).2
    = users db_funded
  ∧ inventories (run_request (cancel_order_endpoint RUB 1%positive bob) db_bid).2
    = inventories db_funded.
Proof.
  assert (Hrun :
    run_request
      (create_order RUB (mkCreateOrderRequest BUY MEMCOIN 4 (Some 50)) bob 1)
      db_funded
    = (Ok 1%positive, db_bid)) by (vm_compute; reflexivity).
  assert (Ho : orders db_bid !! 1%positive
               = Some (mkOrder bob MEMCOIN 4 0 (Some 50) BID NEW 1))
    by (vm_compute; reflexivity).
  assert (Hb : ∀ b, balance_of db_funded bob = Some b → b ≤ 2 ^ 53)
    by (intros b [= <-]; by vm_compute).
  assert (Hq : ∀ q, inventories db_funded !! (bob, MEMCOIN) = Some q → q ≤ 2 ^ 53)
    by (intros q [= <-]; by vm_compute).
  destruct (place_then_cancel_restores_balances RUB
              (mkCreateOrderRequest BUY MEMCOIN 4 (Some 50)) bob 1 db_funded
              1%positive db_bid _ Hb Hq Hrun Ho eq_refl)
    as (p & Hp & _ & [Hdeb _] & _ & Hu & Hi & _).
  injection Hp as <-.
  split; [by vm_compute|]. split; [|by split].
  rewrite Hdeb. by vm_compute.
Defined.

(** ** C8 *)

Section BalanceQuery.

Variable base : string.

Lemma frozen_nonneg t o :
  (status o ∈ [NEW; PARTIALLY_EXECUTED] →
   0 < amount o ∧ ∀ p, price o = Some p → 0 < p) →
  0 ≤ frozen base t o.
Proof.
  intros Hpos. unfold frozen. case_bool_decide as Hopen; [|done].
  destruct (Hpos Hopen) as [Ha Hp].
  destruct (direction o).
  - case_bool_decide; lia.
  - destruct (price o) as [p|]; simpl; [|done].
    specialize (Hp p eq_refl). destruct (_ && _); nia.
Qed.

Lemma add_frozen_lookup (r : gmap string Z) o t :
  is_Some (r !! base) →
  0 ≤ frozen base t o →
  match r !! t with
  | Some v => 0 ≤ v ∧ v + frozen base t o ≤ 2 ^ 53
  | None => frozen base t o ≤ 2 ^ 53
  end →
  add_frozen base r o !! t
  = match r !! t with
    | Some v => Some (v + frozen base t o)
    | None => if open_ask_on t o then Some (frozen base t o) else None
    end.
Proof.
  intros [b Hb] Hf. unfold add_frozen, frozen, open_ask_on in *.
  case_bool_decide as Hopen; simpl.
  2:{ intros _. destruct (r !! t); [f_equal; lia|done]. }
  destruct (direction o) eqn:Hd; simpl.
  - case_bool_decide as Ht.
    + subst t. rewrite lookup_insert_eq.
      destruct (r !! instrument_ticker o); simpl; intros Hx; f_equal;
        apply float_add_exact; lia.
    + rewrite lookup_insert_ne by done. intros _.
      destruct (r !! t); [f_equal; lia|done].
  - rewrite Hb. destruct (truthy (price o)) eqn:Htr; simpl in *.
    + case_bool_decide as Ht.
      * subst t. rewrite lookup_insert_eq, Hb. intros Hx. f_equal.
        apply float_add_exact; lia.
      * rewrite lookup_insert_ne by done. intros _.
        destruct (r !! t); [f_equal; lia|done].
    + intros _. destruct (r !! t); [f_equal; lia|done].
Qed.

Lemma add_frozen_base (r : gmap string Z) o :
  is_Some (r !! base) → is_Some (add_frozen base r o !! base).
Proof.
  intros [b Hb]. unfold add_frozen.
  case_bool_decide; [|by eauto].
  destruct (direction o).
  - destruct (decide (instrument_ticker o = base)) as [->|Hne].
    + rewrite lookup_insert_eq. eauto.
    + rewrite lookup_insert_ne by done. eauto.
  - destruct (truthy (price o)); [|by eauto].
    rewrite Hb, lookup_insert_eq. eauto.
Qed.

Lemma frozen_off_base t o :
  open_ask_on t o = false → t ≠ base → frozen base t o = 0.
Proof.
  unfold open_ask_on, frozen. intros Hoff Hne.
  case_bool_decide; [|done]. simpl in Hoff.
  destruct (direction o); simpl in Hoff.
  - by rewrite Hoff.
  - rewrite (bool_decide_eq_false_2 (t = base)) by done.
    by rewrite andb_false_r.
Qed.

Lemma frozen_sum_nonneg t l :
  Forall (λ o, 0 ≤ frozen base t o) l → 0 ≤ frozen_sum base t l.
Proof. induction 1; simpl; lia. Qed.

Lemma foldl_add_frozen_lookup l (r : gmap string Z) t :
  is_Some (r !! base) →
  Forall (λ o, 0 ≤ frozen base t o) l →
  match r !! t with
  | Some v => 0 ≤ v ∧ v + frozen_sum base t l ≤ 2 ^ 53
  | None => frozen_sum base t l ≤ 2 ^ 53
  end →
  foldl (add_frozen base) r l !! t
  = match r !! t with
    | Some v => Some (v + frozen_sum base t l)
    | None => if existsb (open_ask_on t) l then Some (frozen_sum base t l) else None
    end.
Proof.
  revert r. induction l as [|o l IH]; intros r Hb Hall Hx; simpl.
  - destruct (r !! t); [f_equal; lia|done].
  - apply Forall_cons in Hall as [Ho Hall].
    pose proof (frozen_sum_nonneg t l Hall) as Hl. simpl in Hx.
    assert (Hstep : add_frozen base r o !! t
                    = match r !! t with
                      | Some v => Some (v + frozen base t o)
                      | None => if open_ask_on t o
                                then Some (frozen base t o) else None
                      end).
    { apply add_frozen_lookup; [done|done|]. destruct (r !! t); lia. }
    rewrite IH; [|by apply add_frozen_base|done|].
    + rewrite Hstep.
      destruct (r !! t) as [v|] eqn:Hr; [f_equal; lia|].
      destruct (open_ask_on t o) eqn:Hoff; simpl; [f_equal; lia|].
      rewrite frozen_off_base; [done|done|].
      intros ->. destruct Hb as [b Hb]. congruence.
    + rewrite Hstep. destruct (r !! t) as [v|] eqn:Hr; [lia|].
      destruct (open_ask_on t o); lia.
Qed.

(** The sum over the orders of a user, as a sum over the order table. *)
Lemma frozen_sum_user_rows t uid (l : list (UUID * Order)) :
  frozen_sum base t (List.filter (λ o, bool_decide (user_id o = uid)) l.*2)
  = foldr (λ (row : UUID * Order) acc,
             (if bool_decide (user_id row.2 = uid)
              then frozen base t row.2 else 0) + acc) 0 l.
Proof.
  induction l as [|[i o] l IH]; simpl; [done|].
  rewrite <-IH. by case_bool_decide.
Qed.

Lemma frozen_sum_get_user_orders st uid t :
  frozen_sum base t (get_user_orders st uid) = frozen_of base t st uid.
Proof.
  unfold get_user_orders, frozen_of, msum.
  rewrite frozen_sum_user_rows, map_fold_foldr.
  generalize (map_to_list (orders st)).
  induction l as [|[i o] l IH]; simpl; [done|]. by rewrite IH.
Qed.

Lemma existsb_get_user_orders st uid t :
  existsb (open_ask_on t) (get_user_orders st uid) = has_open_ask st uid t.
Proof.
  unfold has_open_ask, get_user_orders.
  destruct (existsb _ _) eqn:Hex; symmetry.
  - apply bool_decide_eq_true_2. apply existsb_exists in Hex as (o & Hin & Ho).
    apply filter_In in Hin as [Hin Hu]. apply bool_decide_eq_true_1 in Hu.
    apply list_elem_of_In, list_elem_of_fmap in Hin as ([i o'] & -> & Hin).
    apply elem_of_map_to_list in Hin.
    by apply (map_Exists_lookup_2 _ _ i o').
  - apply bool_decide_eq_false_2. intros (i & o & Hlk & Hu & Ho)%map_Exists_lookup.
    apply not_true_iff_false in Hex. apply Hex, existsb_exists.
    exists o. split; [|done]. apply filter_In. split.
    + apply list_elem_of_In, list_elem_of_fmap. exists (i, o).
      split; [done|]. by apply elem_of_map_to_list.
    + by apply bool_decide_eq_true_2.
Qed.

Lemma foldl_insert_notin (l : list (string * Z)) (m : gmap string Z) t :
  t ∉ l.*1 →
  foldl (λ acc (item : string * Z), <[item.1 := item.2]> acc) m l !! t = m !! t.
Proof.
  revert m. induction l as [|[k x] l IH]; intros m Hnotin; simpl; [done|].
  simpl in Hnotin. apply not_elem_of_cons in Hnotin as [Hne Hnotin].
  rewrite IH by done. by rewrite lookup_insert_ne.
Qed.

Lemma foldl_insert_in (l : list (string * Z)) (m : gmap string Z) t v :
  NoDup l.*1 → (t, v) ∈ l →
  foldl (λ acc (item : string * Z), <[item.1 := item.2]> acc) m l !! t = Some v.
Proof.
  revert m. induction l as [|[k x] l IH]; intros m Hnd Hin; simpl.
  - by apply elem_of_nil in Hin.
  - simpl in Hnd. apply NoDup_cons in Hnd as [Hk Hnd].
    apply elem_of_cons in Hin as [[= <- <-]|Hin].
    + rewrite foldl_insert_notin by done. apply lookup_insert_eq.
    + by apply IH.
Qed.

Lemma get_user_inventory_elem st uid t v :
  (t, v) ∈ get_user_inventory st uid ↔ inventories st !! (uid, t) = Some v.
Proof.
  unfold get_user_inventory. rewrite list_elem_of_omap. split.
  - intros ([[u t'] v'] & Hin & Hf). simpl in Hf.
    case_bool_decide; [|done]. injection Hf as -> ->. subst u.
    by apply elem_of_map_to_list.
  - intros Hlk. exists ((uid, t), v). split; [by apply elem_of_map_to_list|].
    simpl. by rewrite bool_decide_eq_true_2.
Qed.

Lemma NoDup_user_rows uid (l : list (UUID * string * Z)) :
  NoDup l.*1 →
  NoDup (omap (λ row : UUID * string * Z,
                 if bool_decide (row.1.1 = uid) then Some (row.1.2, row.2)
                 else None) l).*1.
Proof.
  induction l as [|[[u t] v] l IH]; intros Hnd; simpl; [constructor|].
  simpl in Hnd. apply NoDup_cons in Hnd as [Hk Hnd].
  case_bool_decide as Hu; simpl; [|by apply IH].
  apply NoDup_cons. split; [|by apply IH].
  intros Hin. apply Hk.
  apply list_elem_of_fmap in Hin as ([t' v'] & Ht & Hin). simpl in Ht. subst t'.
  apply list_elem_of_omap in Hin as ([[u' t''] v''] & Hin & Hf). simpl in Hf.
  case_bool_decide as Hu'; [|done]. injection Hf as Ht Hv. simpl in *.
  apply list_elem_of_fmap. exists (u', t'', v''). split; [|done].
  simpl. congruence.
Qed.

Lemma inventory_dict_lookup st uid t :
  foldl (λ acc (item : string * Z), <[item.1 := item.2]> acc)
    (∅ : gmap string Z) (get_user_inventory st uid) !! t
  = inventories st !! (uid, t).
Proof.
  destruct (inventories st !! (uid, t)) as [v|] eqn:Hlk.
  - apply foldl_insert_in.
    + apply NoDup_user_rows, NoDup_fst_map_to_list.
    + by apply get_user_inventory_elem.
  - rewrite foldl_insert_notin; [done|].
    intros Hin. apply list_elem_of_fmap in Hin as ([t' v] & Ht & Hin).
    simpl in Ht. subst t'. apply get_user_inventory_elem in Hin. congruence.
Qed.

Lemma frozen_sum_no_ask t l :
  existsb (open_ask_on t) l = false → t ≠ base → frozen_sum base t l = 0.
Proof.
  intros Hex Hne. induction l as [|o l IH]; simpl in *; [done|].
  apply orb_false_iff in Hex as [Ho Hex].
  rewrite frozen_off_base, IH by done. done.
Qed.

Lemma get_user_orders_elem st uid o :
  o ∈ get_user_orders st uid → ∃ oid, orders st !! oid = Some o.
Proof.
  unfold get_user_orders. intros Hin.
  apply list_elem_of_In, filter_In in Hin as [Hin _].
  apply list_elem_of_In, list_elem_of_fmap in Hin as ([i o'] & -> & Hin).
  exists i. by apply elem_of_map_to_list.
Qed.

End BalanceQuery.

(** C8, as stated, at the edge of the Float range: after her SELL of 1
    Alice has 2^53 MEMCOIN stored and 1 withheld by the open order, and the
    query answers 2^53, the sum 2^53 + 1 rounded. *)
Lemma balance_query_counterexample :
  ∃ result,
    get_user_balance RUB db_large_ask alice = Ok result
    ∧ result !! MEMCOIN = Some 9007199254740992
    ∧ inventories db_large_ask !! (alice, MEMCOIN) = Some 9007199254740992
    ∧ frozen_of RUB MEMCOIN db_large_ask alice = 1
    ∧ holdings RUB db_large_ask alice MEMCOIN = Some 9007199254740993.
Proof. eexists. split; [reflexivity|]. by vm_compute. Qed.

(** C8, amended.  The balance query fails for an unknown user; otherwise,
    where no stored balance or quantity is negative, open orders have
    positive residues and prices, and the user's holdings of every ticker
    are at most 2^53 (so that no sum is rounded), its result holds, for
    every ticker, the stored inventory quantity (the cash balance for the
    base ticker) plus what the user's NEW and PARTIALLY_EXECUTED orders
    withhold of it: [amount] of its own ticker for an ASK,
    [amount × price] of the base ticker for a BID with a price, nothing for
    an order in another status. *)
Theorem balance_query_is_available_plus_frozen
    (base : string) (st : Store) (uid : UUID) :
  ledger_nonneg st →
  book_pos st →
  (∀ t v, holdings base st uid t = Some v → v ≤ 2 ^ 53) →
  match users st !! uid with
  | None => get_user_balance base st uid = Raise (NotFoundError "User")
  | Some u =>
      ∃ result,
        get_user_balance base st uid = Ok result
        ∧ ∀ t, result !! t = holdings base st uid t
  end
  ∧ (∀ t o,
       frozen base t o
       = if bool_decide (status o = NEW ∨ status o = PARTIALLY_EXECUTED) then
           match direction o, price o with
           | ASK, _ => if bool_decide (instrument_ticker o = t) then amount o else 0
           | BID, Some p => if bool_decide (t = base) then amount o * p else 0
           | BID, None => 0
           end
         else 0).
Proof.
  intros [Hbal Hinv] Hpos Hbound. split.
  - unfold get_user_balance.
    destruct (users st !! uid) as [u|] eqn:Hu; [|done].
    eexists. split; [done|]. intros t.
    specialize (Hbound t). unfold holdings in *. rewrite Hu in *.
    rewrite <-frozen_sum_get_user_orders, <-existsb_get_user_orders in *.
    rewrite foldl_add_frozen_lookup.
    + case_bool_decide as Ht.
      * subst t. by rewrite lookup_insert_eq.
      * rewrite lookup_insert_ne by done. by rewrite inventory_dict_lookup.
    + rewrite lookup_insert_eq. eauto.
    + apply Forall_forall. intros o [oid Ho]%get_user_orders_elem.
      apply frozen_nonneg. by apply (Hpos oid).
    + case_bool_decide as Ht.
      * subst t. rewrite lookup_insert_eq. simpl in Hbound.
        split; [by apply (Hbal uid)|by apply Hbound].
      * rewrite lookup_insert_ne by done. rewrite inventory_dict_lookup.
        destruct (inventories st !! (uid, t)) as [q|] eqn:Hq.
        -- split; [by apply (Hinv (uid, t))|by apply Hbound].
        -- destruct (existsb _ _) eqn:Hex; [by apply Hbound|].
           rewrite frozen_sum_no_ask by done. lia.
  - intros t o. unfold frozen.
    rewrite (bool_decide_ext (status o ∈ [NEW; PARTIALLY_EXECUTED])
               (status o = NEW ∨ status o = PARTIALLY_EXECUTED))
      by status_solver.
    case_bool_decide; [|done].
    destruct (direction o); [done|].
    destruct (price o) as [p|]; simpl; [|done].
    destruct (p =? 0) eqn:Hz; simpl; case_bool_decide; lia.
Qed.

(** After the partial fill Bob holds 200 RUB available plus 300 frozen, and
    5 MEMCOIN. *)
Example balance_after_partial_fill :
  ∃ result,
    get_user_balance RUB db_partial bob = Ok result
    ∧ result !! RUB = Some 500 ∧ result !! MEMCOIN = Some 5
    ∧ balance_of db_partial bob = Some 200.
Proof. eexists. split; [reflexivity|]. by vm_compute. Qed.

(** ** C2 *)

Section Outcome.

Variable base : string.

Lemma buy_loop_keeps (P : Order → Prop) book n uid ticker lp s n' s' :
  (∀ m amt m1, P m → _partially_execute_order m amt = Ok m1 → P m1) →
  P n → buy_loop base book n uid ticker lp s = (Ok n', s') → P n'.
Proof.
  intros Hfill. revert n s. induction book as [|[oid o] rest IH]; intros n s Hn Hrun.
  - simpl in Hrun. by inv_pair Hrun.
  - apply buy_loop_cons_ok in Hrun
      as [(_ & -> & ->)|(p & ub & o1 & n1 & _ & _ & _ & _ & _ & _ & _ & Hn1 & Hrun)];
      [done|].
    eapply IH; [|done]. by eapply Hfill.
Qed.

Lemma sell_loop_keeps (P : Order → Prop) book n uid ticker lp s n' s' :
  (∀ m amt m1, P m → _partially_execute_order m amt = Ok m1 → P m1) →
  P n → sell_loop book n uid ticker lp s = (Ok n', s') → P n'.
Proof.
  intros Hfill. revert n s. induction book as [|[oid o] rest IH]; intros n s Hn Hrun.
  - simpl in Hrun. by inv_pair Hrun.
  - apply sell_loop_cons_ok in Hrun
      as [(_ & -> & ->)|(p & q & o1 & n1 & _ & _ & _ & _ & _ & _ & _ & _ & Hn1 & Hrun)];
      [done|].
    eapply IH; [|done]. by eapply Hfill.
Qed.

Lemma fill_keeps_owner_and_status uid m amt m1 :
  user_id m = uid ∧ status m ≠ CANCELLED →
  _partially_execute_order m amt = Ok m1 →
  user_id m1 = uid ∧ status m1 ≠ CANCELLED.
Proof.
  intros [Hu Hs] Hm1. split; [|by eapply order_inv_fill_status].
  by apply _partially_execute_order_ok in Hm1 as [_ ->].
Qed.

(** The order a submission routine returns is stored under the returned
    key, belongs to the caller and is not CANCELLED. *)
Lemma submit_returns req uid now s oid n' s1 :
  submit base req uid now s = (Ok (oid, n'), s1) →
  orders (working s1) !! oid = Some n'
  ∧ user_id n' = uid ∧ status n' ≠ CANCELLED.
Proof.
  rewrite submit_eq. destruct (rq_direction req); intros Hsub.
  - apply create_limit_buy_order_ok in Hsub as (s2 & s3 & Hloop & _ & -> & ->).
    split; [apply lookup_insert_eq|].
    eapply (buy_loop_keeps (λ m, user_id m = uid ∧ status m ≠ CANCELLED));
      [apply fill_keeps_owner_and_status| |done]. done.
  - apply create_limit_sell_order_ok in Hsub as (s2 & s3 & Hloop & _ & -> & ->).
    split; [apply lookup_insert_eq|].
    eapply (sell_loop_keeps (λ m, user_id m = uid ∧ status m ≠ CANCELLED));
      [apply fill_keeps_owner_and_status| |done]. done.
Qed.

Lemma create_order_stores_no_cancelled req uid now db :
  match (run_request (create_order base req uid now) db).1 with
  | Ok oid =>
      ∃ o, orders (run_request (create_order base req uid now) db).2 !! oid
           = Some o
        ∧ user_id o = uid ∧ status o ≠ CANCELLED
  | Raise _ => (run_request (create_order base req uid now) db).2 = db
  end.
Proof.
  rewrite create_order_run.
  destruct (users db !! uid); [|done].
  destruct (negb (valid_request req)); [done|].
  destruct (negb _); [done|].
  destruct (submit base req uid now _) as [[[oid n']|e] s1] eqn:Hsub; [|done].
  apply submit_returns in Hsub as (Hlk & Hu & Hs). simpl.
  rewrite bool_decide_eq_false_2 by done. eauto.
Qed.

End Outcome.

(** C2.  Bob's market BUY of 10 against a book holding only Alice's SELL of
    5: the service routine rolls the fills back and flushes a CANCELLED
    record (filled 0, amount 10), then raises; the endpoint answers the
    raise with a second rollback.  The response is 422 with the detail
    "Not enough orders for market buy", and the database is the one before
    the request: no order of Bob's is stored.  In general a submission that
    is answered with an error leaves the database as it was, and one that
    succeeds stores an order that is not CANCELLED. *)
Theorem market_residue_outcome :
  (∃ oid o s1,
      create_market_buy_order RUB MEMCOIN 10 bob 2 (mkSession db_ask db_ask)
      = (Raise (OrderExecutionError "Not enough orders for market buy"), s1)
      ∧ committed s1 = db_ask
      ∧ orders (working s1) !! oid = Some o
      ∧ user_id o = bob ∧ status o = CANCELLED ∧ filled o = 0 ∧ amount o = 10)
  ∧ run_request
      (create_order RUB (mkCreateOrderRequest BUY MEMCOIN 10 None) bob 2) db_ask
    = (Raise (HTTPException 422 "Not enough orders for market buy"), db_ask)
  ∧ (∀ oid o, orders db_ask !! oid = Some o → user_id o = alice)
  ∧ (∀ base req uid now db,
       match (run_request (create_order base req uid now) db).1 with
       | Ok oid =>
           ∃ o, orders (run_request (create_order base req uid now) db).2 !! oid
                = Some o
             ∧ user_id o = uid ∧ status o ≠ CANCELLED
       | Raise _ => (run_request (create_order base req uid now) db).2 = db
       end).
Proof.
  split; [|split; [|split]].
  - eexists 2%positive, _, _. split; [vm_compute; reflexivity|].
    by vm_compute.
  - by vm_compute.
  - intros oid o Ho.
    assert (Hin : (oid, o) ∈ map_to_list (orders db_ask))
      by by apply elem_of_map_to_list.
    vm_compute in Hin. apply list_elem_of_singleton in Hin.
    by injection Hin as -> ->.
  - apply create_order_stores_no_cancelled.
Qed.

(** * Further properties *)

(** ** Balance changes *)

Section ChangeBalanceFacts.

Variable base : string.

Lemma change_balance_ok uid ticker amt s u s' :
  change_balance base uid ticker amt s = (Ok u, s') →
  if bool_decide (ticker = base) then
    ∃ usr, users (working s) !! uid = Some usr
      ∧ 0 ≤ float_add (balance usr) amt
      ∧ u = mkUser (name usr) (role usr) (float_add (balance usr) amt)
      ∧ s' = mkSession (committed s) (credit_balance uid amt (working s))
  else
    ∃ q, users (working s) !! uid = Some u
      ∧ inventories (working s) !! (uid, ticker) = Some q
      ∧ 0 ≤ float_add q amt
      ∧ s' = mkSession (committed s) (credit_quantity uid ticker amt (working s)).
Proof.
  unfold change_balance. sess_unfold. simpl.
  destruct (users (working s) !! uid) as [usr|] eqn:Hu; [|done].
  case_bool_decide.
  - destruct (float_of_int amt) as [fa|e]; [|done].
    destruct (float_add (balance usr) amt <? 0) eqn:Hlt; [done|].
    intros Heq. inv_pair Heq. exists usr. repeat split; try done. lia.
  - destruct (inventories (working s) !! (uid, ticker)) as [q|] eqn:Hq; [|done].
    destruct (float_of_int amt) as [fa|e]; [|done].
    destruct (float_add q amt <? 0) eqn:Hlt; [done|].
    intros Heq. inv_pair Heq. exists q. repeat split; try done. lia.
Qed.

Lemma change_balance_raise uid ticker amt s e s' :
  change_balance base uid ticker amt s = (Raise e, s') → s' = s.
Proof.
  unfold change_balance. sess_unfold. simpl.
  destruct (users (working s) !! uid) as [usr|]; [|by intros [= _ <-]].
  case_bool_decide.
  - destruct (float_of_int amt) as [fa|e0]; [|by intros [= _ <-]].
    destruct (float_add (balance usr) amt <? 0); [by intros [= _ <-]|done].
  - destruct (inventories (working s) !! (uid, ticker)) as [q|];
      [|by intros [= _ <-]].
    destruct (float_of_int amt) as [fa|e0]; [|by intros [= _ <-]].
    destruct (float_add q amt <? 0); [by intros [= _ <-]|done].
Qed.

End ChangeBalanceFacts.

Lemma ledger_nonneg_db_funded : ledger_nonneg db_funded.
Proof.
  split.
  - intros uid u Hu.
    assert (Hin : (uid, u) ∈ map_to_list (users db_funded))
      by by apply elem_of_map_to_list.
    vm_compute in Hin.
    repeat (apply elem_of_cons in Hin as [[= -> ->]|Hin]; [simpl; lia|]).
    by apply elem_of_nil in Hin.
  - intros k q Hq.
    assert (Hin : (k, q) ∈ map_to_list (inventories db_funded))
      by by apply elem_of_map_to_list.
    vm_compute in Hin.
    repeat (apply elem_of_cons in Hin as [[= -> ->]|Hin]; [lia|]).
    by apply elem_of_nil in Hin.
Qed.

(** X1.  A balance change that succeeds, where the amount, the value it is
    added to and their sum are within 2^53 in absolute value (so that the
    Float column holds the sum itself), moves the total of available plus
    frozen holdings of the named ticker by the signed amount and the total
    of every other ticker not at all; it touches no order and records no
    trade. *)
Theorem change_balance_moves_one_total
    (base : string) (uid : UUID) (ticker : string) (amt : Z)
    (s : Session) (u : User) (s' : Session) :
  Z.abs amt ≤ 2 ^ 53 →
  (∀ v, (if bool_decide (ticker = base) then balance_of (working s) uid
         else inventories (working s) !! (uid, ticker)) = Some v →
        Z.abs v ≤ 2 ^ 53 ∧ Z.abs (v + amt) ≤ 2 ^ 53) →
  change_balance base uid ticker amt s = (Ok u, s') →
  committed s' = committed s
  ∧ orders (working s') = orders (working s)
  ∧ transactions (working s') = transactions (working s)
  ∧ ∀ t, total base (working s') t
         = total base (working s) t + (if bool_decide (t = ticker) then amt else 0).
Proof.
  intros Hamt Hx Hrun. apply change_balance_ok in Hrun. case_bool_decide as Hb.
  - destruct Hrun as (usr & Hu & _ & _ & ->). simpl.
    rewrite orders_credit_balance, transactions_credit_balance.
    repeat split. intros t. rewrite (total_credit_balance _ _ _ _ _ usr) by done.
    destruct (Hx (balance usr)) as [Hv Hs].
    { unfold balance_of. by rewrite Hu. }
    rewrite float_add_exact by done. subst ticker.
    case_bool_decide; [|done]. lia.
  - destruct Hrun as (q & Hu & Hq & _ & ->). simpl.
    rewrite orders_credit_quantity, transactions_credit_quantity.
    repeat split. intros t. rewrite (total_credit_quantity _ _ _ _ _ _ q) by done.
    destruct (Hx q Hq) as [Hv Hs].
    rewrite float_add_exact by done.
    case_bool_decide; [|done]. lia.
Qed.

Lemma change_balance_moves_one_total_witness :
  ∃ s',
    (change_balance RUB bob RUB 250 (mkSession db_funded db_funded)).2 = s'
    ∧ total RUB (working s') RUB = total RUB db_funded RUB + 250
    ∧ total RUB (working s') MEMCOIN = total RUB db_funded MEMCOIN + 0.
Proof.
  destruct (change_balance RUB bob RUB 250 (mkSession db_funded db_funded))
    as [r s'] eqn:Hrun.
  assert (Hr : r = Ok (mkUser "bob" USER 1250)).
  { apply (f_equal fst) in Hrun. simpl in Hrun. rewrite <-Hrun. by vm_compute. }
  subst r. exists s'. split; [done|].
  assert (Hamt : Z.abs 250 ≤ 2 ^ 53) by (by vm_compute).
  assert (Hx : ∀ v, (if bool_decide (RUB = RUB)
                     then balance_of (working (mkSession db_funded db_funded)) bob
                     else inventories (working (mkSession db_funded db_funded))
                            !! (bob, RUB)) = Some v →
                    Z.abs v ≤ 2 ^ 53 ∧ Z.abs (v + 250) ≤ 2 ^ 53).
  { intros v [= <-]. by vm_compute. }
  destruct (change_balance_moves_one_total RUB bob RUB 250 _ _ _ Hamt Hx Hrun)
    as (_ & _ & _ & Ht).
  split; [apply (Ht RUB)|apply (Ht MEMCOIN)].
Defined.

(** X2.  A balance change never overdraws: from a ledger without negative
    entries it either succeeds and leaves a ledger without negative entries,
    or raises and leaves the session as it was; for a change of at least
    -2^53 (which the Float arithmetic takes without rounding) it raises
    [InsufficientBalanceError] with the amount asked and the amount
    available whenever the available amount plus the change is negative. *)
Theorem change_balance_never_overdraws
    (base : string) (uid : UUID) (ticker : string) (amt : Z) (s : Session) :
  ledger_nonneg (working s) →
  match (change_balance base uid ticker amt s).1 with
  | Ok _ => ledger_nonneg (working (change_balance base uid ticker amt s).2)
  | Raise _ => (change_balance base uid ticker amt s).2 = s
  end
  ∧ ∀ v,
      is_Some (users (working s) !! uid) →
      (if bool_decide (ticker = base) then balance_of (working s) uid
       else inventories (working s) !! (uid, ticker)) = Some v →
      - 2 ^ 53 ≤ amt →
      v + amt < 0 →
      change_balance base uid ticker amt s
      = (Raise (InsufficientBalanceError ticker (Z.abs amt) v), s).
Proof.
  intros [Hbal Hinv]. split.
  - destruct (change_balance base uid ticker amt s) as [[u|e] s'] eqn:Hrun; simpl.
    2:{ by eapply change_balance_raise. }
    apply change_balance_ok in Hrun. case_bool_decide.
    + destruct Hrun as (usr & Hu & Hle & _ & ->). simpl.
      unfold credit_balance. rewrite Hu. split; simpl; [|done].
      intros k u' Hk. destruct (decide (uid = k)) as [<-|Hne].
      * rewrite lookup_insert_eq in Hk. by injection Hk as <-.
      * rewrite lookup_insert_ne in Hk by done. eauto.
    + destruct Hrun as (q & Hu & Hq & Hle & ->). simpl.
      unfold credit_quantity. rewrite Hq. split; simpl; [done|].
      intros k q' Hk. destruct (decide ((uid, ticker) = k)) as [<-|Hne].
      * rewrite lookup_insert_eq in Hk. by injection Hk as <-.
      * rewrite lookup_insert_ne in Hk by done. eauto.
  - intros v [usr Hu] Hv Hamt Hlt. unfold change_balance. sess_unfold. simpl.
    rewrite Hu.
    assert (Hneg : 0 ≤ v → (float_add v amt <? 0) = true
                           ∧ float_of_int amt = Ok amt).
    { intros Hv0. split; [|apply float_of_int_exact; lia].
      apply Z.ltb_lt. rewrite float_add_exact; lia. }
    case_bool_decide.
    + unfold balance_of in Hv. rewrite Hu in Hv. injection Hv as <-.
      destruct Hneg as [-> ->]; [by apply (Hbal uid)|done].
    + rewrite Hv.
      destruct Hneg as [-> ->]; [by apply (Hinv (uid, ticker))|done].
Qed.

(** Withdrawing 1500 RUB from Bob's 1000. *)
Lemma change_balance_never_overdraws_witness :
  change_balance RUB bob RUB (-1500) (mkSession db_funded db_funded)
  = (Raise (InsufficientBalanceError RUB 1500 1000), mkSession db_funded db_funded).
Proof.
  apply (proj2 (change_balance_never_overdraws RUB bob RUB (-1500)
                  (mkSession db_funded db_funded) ledger_nonneg_db_funded) 1000).
  - vm_compute. eauto.
  - by vm_compute.
  - by vm_compute.
  - lia.
Defined.

Lemma credit_balance_inverse uid d st :
  (∀ u, users st !! uid = Some u →
        float_add (float_add (balance u) d) (- d) = balance u) →
  credit_balance uid (- d) (credit_balance uid d st) = st.
Proof.
  intros Hx. unfold credit_balance at 2.
  destruct (users st !! uid) as [u|] eqn:Hu.
  - unfold credit_balance. simpl. rewrite lookup_insert_eq, insert_insert_eq.
    simpl. rewrite insert_id; [by destruct st|].
    rewrite Hu. f_equal. rewrite (Hx u eq_refl). by destruct u.
  - unfold credit_balance. by rewrite Hu.
Qed.

Lemma credit_quantity_inverse uid ticker d st :
  (∀ q, inventories st !! (uid, ticker) = Some q →
        float_add (float_add q d) (- d) = q) →
  credit_quantity uid ticker (- d) (credit_quantity uid ticker d st) = st.
Proof.
  intros Hx. unfold credit_quantity at 2.
  destruct (inventories st !! (uid, ticker)) as [q|] eqn:Hq.
  - unfold credit_quantity. simpl. rewrite lookup_insert_eq, insert_insert_eq.
    rewrite insert_id; [by destruct st|].
    rewrite Hq. f_equal. by rewrite (Hx q eq_refl).
  - unfold credit_quantity. by rewrite Hq.
Qed.

(** X3.  A balance change that succeeds on a ledger without negative
    entries, where the amount, the value it is added to and their sum are
    within 2^53 in absolute value (so that neither sum is rounded), is
    undone by the opposite change: the second call succeeds and the session
    is again the one before the first. *)
Theorem change_balance_round_trip
    (base : string) (uid : UUID) (ticker : string) (amt : Z)
    (s : Session) (u1 : User) (s1 : Session) :
  ledger_nonneg (working s) →
  Z.abs amt ≤ 2 ^ 53 →
  (∀ v, (if bool_decide (ticker = base) then balance_of (working s) uid
         else inventories (working s) !! (uid, ticker)) = Some v →
        v ≤ 2 ^ 53 ∧ v + amt ≤ 2 ^ 53) →
  change_balance base uid ticker amt s = (Ok u1, s1) →
  ∃ u2, change_balance base uid ticker (- amt) s1 = (Ok u2, s).
Proof.
  intros [Hbal Hinv] Hamt Hx Hrun. apply change_balance_ok in Hrun.
  unfold change_balance. sess_unfold.
  assert (Hrt : ∀ v, 0 ≤ v → v ≤ 2 ^ 53 → v + amt ≤ 2 ^ 53 →
                  0 ≤ float_add v amt →
                  float_add (float_add v amt) (- amt) = v).
  { intros v Hv0 Hv Hs Hok.
    rewrite (float_add_exact v amt) in * by lia.
    rewrite float_add_exact; lia. }
  case_bool_decide as Hb.
  - destruct Hrun as (usr & Hu & Hle & _ & ->). cbn [working committed].
    destruct (Hx (balance usr)) as [Hv Hs].
    { unfold balance_of. by rewrite Hu. }
    specialize (Hbal _ _ Hu).
    assert (Hu' : users (credit_balance uid amt (working s)) !! uid
                  = Some (mkUser (name usr) (role usr)
                            (float_add (balance usr) amt))).
    { unfold credit_balance. rewrite Hu. simpl. apply lookup_insert_eq. }
    rewrite Hu'. cbn [balance name role].
    rewrite float_of_int_exact by (rewrite Z.abs_opp; done).
    rewrite (Hrt (balance usr)) by done.
    assert (Hge : (balance usr <? 0) = false) by (by apply Z.ltb_ge).
    rewrite Hge. simpl. rewrite credit_balance_inverse.
    + eexists. by destruct s.
    + intros u0 Hu0. assert (u0 = usr) as -> by congruence. by apply Hrt.
  - destruct Hrun as (q & Hu & Hq & Hle & ->). cbn [working committed].
    destruct (Hx q Hq) as [Hv Hs].
    specialize (Hinv _ _ Hq).
    rewrite users_credit_quantity, Hu.
    assert (Hq' : inventories (credit_quantity uid ticker amt (working s))
                    !! (uid, ticker) = Some (float_add q amt)).
    { unfold credit_quantity. rewrite Hq. simpl. apply lookup_insert_eq. }
    cbv beta iota. cbn [working committed]. rewrite Hq'.
    rewrite float_of_int_exact by (rewrite Z.abs_opp; done).
    rewrite (Hrt q) by done.
    assert (Hge : (q <? 0) = false) by (by apply Z.ltb_ge).
    rewrite Hge. simpl. rewrite credit_quantity_inverse.
    + eexists. by destruct s.
    + intros q0 Hq0. assert (q0 = q) as -> by congruence. by apply Hrt.
Qed.

(** Bob is credited 250 RUB and debited 250 RUB. *)
Lemma change_balance_round_trip_witness :
  ∃ u1 s1 u2,
    change_balance RUB bob RUB 250 (mkSession db_funded db_funded) = (Ok u1, s1)
    ∧ change_balance RUB bob RUB (-250) s1 = (Ok u2, mkSession db_funded db_funded).
Proof.
  destruct (change_balance RUB bob RUB 250 (mkSession db_funded db_funded))
    as [r s1] eqn:Hrun.
  assert (Hr : r = Ok (mkUser "bob" USER 1250)).
  { apply (f_equal fst) in Hrun. simpl in Hrun. rewrite <-Hrun. by vm_compute. }
  subst r.
  assert (Hamt : Z.abs 250 ≤ 2 ^ 53) by (by vm_compute).
  assert (Hx : ∀ v, (if bool_decide (RUB = RUB)
                     then balance_of (working (mkSession db_funded db_funded)) bob
                     else inventories (working (mkSession db_funded db_funded))
                            !! (bob, RUB)) = Some v →
                    v ≤ 2 ^ 53 ∧ v + 250 ≤ 2 ^ 53).
  { intros v [= <-]. by vm_compute. }
  destruct (change_balance_round_trip RUB bob RUB 250
              (mkSession db_funded db_funded) _ _ ledger_nonneg_db_funded
              Hamt Hx Hrun) as [u2 H2].
  by exists (mkUser "bob" USER 1250), s1, u2.
Defined.

(** ** Admin balance endpoints *)

Section AdminFacts.

Variable base : string.

Lemma keeps_change_balance uid ticker amt :
  keeps_committed (change_balance base uid ticker amt).
Proof. unfold change_balance, add_balance, add_quantity. keeps_auto. Qed.

Lemma keeps_get_current_user uid : keeps_committed (get_current_user uid).
Proof. unfold get_current_user. keeps_auto. Qed.

Lemma keeps_get_current_admin uid : keeps_committed (get_current_admin uid).
Proof.
  unfold get_current_admin. keeps_auto; auto using keeps_get_current_user.
Qed.

Lemma keeps_deposit_balance req admin :
  keeps_committed (deposit_balance base req admin).
Proof.
  unfold deposit_balance.
  keeps_auto; auto using keeps_get_current_admin, keeps_change_balance.
Qed.

Lemma keeps_withdraw_balance req admin :
  keeps_committed (withdraw_balance base req admin).
Proof.
  unfold withdraw_balance.
  keeps_auto; auto using keeps_get_current_admin, keeps_change_balance.
Qed.

Lemma get_current_admin_ok admin a s :
  users (working s) !! admin = Some a → role a = ADMIN →
  get_current_admin admin s = (Ok admin, s).
Proof.
  intros Ha Hr. unfold get_current_admin, get_current_user. sess_unfold.
  simpl. rewrite Ha. simpl. rewrite Ha. by rewrite Hr.
Qed.

End AdminFacts.

(** X4.  The deposit and withdraw endpoints never commit: whatever they
    answer, the database after the request is the database before it.  In
    particular a deposit by an admin to an existing user with a well-formed
    body stores nothing; it is answered with success, unless the amount is
    so large that its conversion to a float fails (from 2^1024 - 2^970 on),
    where the request ends with [OverflowError]. *)
Theorem admin_balance_endpoints_store_nothing
    (base : string) (req : BalanceChangeRequest) (admin : UUID) (db : Store) :
  (run_request (deposit_balance base req admin) db).2 = db
  ∧ (run_request (withdraw_balance base req admin) db).2 = db
  ∧ (∀ a v,
       users db !! admin = Some a → role a = ADMIN →
       valid_balance_change req = true →
       is_Some (users db !! bc_user_id req) →
       (if bool_decide (bc_ticker req = base) then balance_of db (bc_user_id req)
        else inventories db !! (bc_user_id req, bc_ticker req)) = Some v →
       0 ≤ v →
       run_request (deposit_balance base req admin) db
       = (if Z.abs (to_float (bc_amount req)) <? 2 ^ 1024 then Ok tt
          else Raise (OverflowError "int too large to convert to float"),
          db)).
Proof.
  assert (Hd : (run_request (deposit_balance base req admin) db).2 = db)
    by apply (keeps_deposit_balance base req admin (mkSession db db)).
  split; [done|]. split.
  { apply (keeps_withdraw_balance base req admin (mkSession db db)). }
  intros a v Ha Hr Hv [usr Hu] Havail Hge.
  destruct (run_request (deposit_balance base req admin) db) as [r db'] eqn:Hrun.
  simpl in Hd. subst db'. f_equal.
  apply (f_equal fst) in Hrun. simpl in Hrun. rewrite <-Hrun.
  unfold deposit_balance. unfold mbind at 1, Sess_bind at 1.
  rewrite (get_current_admin_ok admin a) by done.
  rewrite Hv. simpl negb. cbv iota.
  unfold valid_balance_change in Hv. apply andb_true_iff in Hv as [_ Hpos].
  apply Z.ltb_lt in Hpos.
  unfold change_balance, float_of_int. sess_unfold. simpl. rewrite Hu.
  case_bool_decide.
  - unfold balance_of in Havail. rewrite Hu in Havail. injection Havail as <-.
    destruct (_ <? 2 ^ 1024); [|done].
    rewrite (proj2 (Z.ltb_ge _ _)) by (apply float_add_nonneg; lia). done.
  - simpl. rewrite Havail.
    destruct (_ <? 2 ^ 1024); [|done].
    rewrite (proj2 (Z.ltb_ge _ _)) by (apply float_add_nonneg; lia). done.
Qed.

(** An admin deposits 10 MEMCOIN to Alice: the answer is a success, the
    stored quantity is still 10. *)
Example deposit_answers_success_and_stores_nothing :
  let db := mkStore (<[eve := mkUser "root" ADMIN 0]> (users db_funded))
              (inventories db_funded) (instruments db_funded)
              (orders db_funded) (transactions db_funded) in
  run_request
    (deposit_balance RUB (mkBalanceChangeRequest alice MEMCOIN 10) eve) db
  = (Ok tt, db).
Proof. by vm_compute. Qed.

(** A deposit of 2^1024 units: the amount cannot be converted to a float. *)
Example deposit_of_an_unconvertible_amount :
  let db := mkStore (<[eve := mkUser "root" ADMIN 0]> (users db_funded))
              (inventories db_funded) (instruments db_funded)
              (orders db_funded) (transactions db_funded) in
  run_request
    (deposit_balance RUB (mkBalanceChangeRequest alice MEMCOIN (2 ^ 1024)) eve)
    db
  = (Raise (OverflowError "int too large to convert to float"), db).
Proof. by vm_compute. Qed.

(** ** Reading one order *)

Lemma get_order_run order_id uid db :
  is_Some (users db !! uid) →
  run_request (get_order order_id uid) db
  = (match orders db !! order_id with
     | None => Raise (HTTPException 404 "Order not found")
     | Some o =>
         if bool_decide (user_id o = uid)
         then Ok (_format_order_response order_id o)
         else Raise (HTTPException 403 "Order does not belong to user")
     end, db).
Proof.
  intros [u Hu]. unfold run_request, get_order, get_current_user.
  sess_unfold. simpl. rewrite Hu. simpl.
  destruct (orders db !! order_id) as [o|]; [|done].
  by repeat case_bool_decide.
Qed.


Lemma same_rows_refl st : same_rows st st.
Proof. by split. Qed.

Lemma same_rows_credit_balance st0 st uid d :
  same_rows st0 st → same_rows st0 (credit_balance uid d st).
Proof.
  intros [Hu Hi]. split; intros k.
  - by rewrite users_credit_balance_is_Some.
  - by rewrite inventories_credit_balance.
Qed.

Lemma same_rows_credit_quantity st0 st uid ticker d :
  same_rows st0 st → same_rows st0 (credit_quantity uid ticker d st).
Proof.
  intros [Hu Hi]. split; intros k.
  - by rewrite users_credit_quantity.
  - by rewrite inventories_credit_quantity_is_Some.
Qed.

Lemma same_rows_set_order st0 st oid o :
  same_rows st0 st → same_rows st0 (set_order oid o st).
Proof. done. Qed.

Lemma same_rows_add_transaction st0 st tr :
  same_rows st0 st → same_rows st0 (add_transaction tr st).
Proof. done. Qed.

Section RoundTrip.

Variable base : string.

Lemma buy_loop_same_rows st0 book n uid ticker lp s n' s' :
  book_ok (working s) book ASK ticker →
  same_rows st0 (working s) →
  buy_loop base book n uid ticker lp s = (Ok n', s') →
  same_rows st0 (working s').
Proof.
  intros Hbook Hrows Hrun.
  eapply (buy_loop_invariant base (λ st _, same_rows st0 st)) in Hrun;
    [by destruct Hrun| |done|done].
  clear. intros st oid o m p ub o1 n1 HI _ _ _ _ _ _ _ _ _ _ _ _.
  apply same_rows_set_order. unfold settle_buy.
  by apply same_rows_credit_quantity, same_rows_credit_balance,
    same_rows_credit_balance, same_rows_add_transaction.
Qed.

Lemma sell_loop_same_rows st0 book n uid ticker lp s n' s' :
  book_ok (working s) book BID ticker →
  same_rows st0 (working s) →
  sell_loop book n uid ticker lp s = (Ok n', s') →
  same_rows st0 (working s').
Proof.
  intros Hbook Hrows Hrun.
  eapply (sell_loop_invariant (λ st _, same_rows st0 st)) in Hrun;
    [by destruct Hrun| |done|done].
  clear. intros st oid o m p q o1 n1 HI _ _ _ _ _ _ _ _ _ _ _ _ _.
  apply same_rows_set_order. unfold settle_sell.
  by apply same_rows_credit_quantity, same_rows_credit_quantity,
    same_rows_credit_balance, same_rows_add_transaction.
Qed.

Lemma _freeze_balance_same_rows st0 uid ticker amt s u s' :
  same_rows st0 (working s) →
  _freeze_balance base uid ticker amt s = (Ok u, s') →
  same_rows st0 (working s').
Proof.
  intros Hrows Hfr. apply _freeze_balance_ok in Hfr. case_bool_decide.
  - destruct Hfr as (? & _ & _ & ->). by apply same_rows_credit_balance.
  - destruct Hfr as (? & _ & _ & _ & ->). by apply same_rows_credit_quantity.
Qed.

(** What a successful submission routine returns and leaves behind. *)
Lemma submit_ok req uid now db oid n' s1 :
  submit base req uid now (mkSession db db) = (Ok (oid, n'), s1) →
  same_rows db (working s1)
  ∧ orders (working s1) !! oid = Some n'
  ∧ incoming_ok (match rq_direction req with BUY => BID | SELL => ASK end)
      (rq_ticker req) (effective_price req) uid (rq_qty req) n'.
Proof.
  rewrite submit_eq. destruct (rq_direction req); intros Hsub.
  - apply create_limit_buy_order_ok in Hsub as (s2 & s3 & Hloop & Hfr & -> & ->).
    split; [|split; [apply lookup_insert_eq|]].
    + apply same_rows_set_order.
      eapply buy_loop_same_rows in Hloop as Hrows;
        [|apply get_orders_book_ok|apply same_rows_refl].
      case_bool_decide; [|by subst].
      destruct Hfr as [_ Hfr]. by eapply _freeze_balance_same_rows.
    + eapply (buy_loop_keeps base
                (incoming_ok BID (rq_ticker req) (effective_price req) uid
                   (rq_qty req))); [|  |done].
      * intros m amt m1. apply incoming_ok_fill.
      * repeat split; simpl; try done. lia.
  - apply create_limit_sell_order_ok in Hsub as (s2 & s3 & Hloop & Hfr & -> & ->).
    split; [|split; [apply lookup_insert_eq|]].
    + apply same_rows_set_order.
      eapply sell_loop_same_rows in Hloop as Hrows;
        [|apply get_orders_book_ok|apply same_rows_refl].
      case_bool_decide; [|by subst].
      destruct Hfr as [_ Hfr]. by eapply _freeze_balance_same_rows.
    + eapply (sell_loop_keeps
                (incoming_ok ASK (rq_ticker req) (effective_price req) uid
                   (rq_qty req))); [|  |done].
      * intros m amt m1. apply incoming_ok_fill.
      * repeat split; simpl; try done. lia.
Qed.

(** A successful [POST /order], taken apart. *)
Lemma create_order_ok req uid now db oid db1 :
  run_request (create_order base req uid now) db = (Ok oid, db1) →
  is_Some (users db !! uid)
  ∧ valid_request req = true
  ∧ rq_ticker req ∈ instruments db
  ∧ ∃ n' s1,
      submit base req uid now (mkSession db db) = (Ok (oid, n'), s1)
      ∧ db1 = working s1.
Proof.
  rewrite create_order_run.
  destruct (users db !! uid) as [u|]; [|done].
  destruct (valid_request req); [|done]. simpl.
  case_bool_decide as Hi; [|done]. simpl.
  destruct (submit base req uid now _) as [[[oid' n']|e] s1]; [|done].
  simpl. case_bool_decide; [done|]. intros [= <- <-]. eauto 10.
Qed.

Lemma valid_effective_price req :
  valid_request req = true → effective_price req = rq_price req.
Proof.
  unfold valid_request, effective_price. intros Hv.
  apply andb_true_iff in Hv as [_ Hv].
  destruct (rq_price req) as [p|]; [|done]. simpl.
  apply Z.ltb_lt in Hv. rewrite (proj2 (Z.eqb_neq p 0)) by lia. done.
Qed.

End RoundTrip.

(** X5.  An order that [POST /order] accepted reads back through
    [GET /order/{id}]: the owner gets the direction, ticker, quantity and
    price of the request, with a status that is not CANCELLED; any other
    user gets 403 and an unknown id gets 404; the read changes nothing. *)
Theorem order_reads_back_as_submitted
    (base : string) (req : CreateOrderRequest) (uid : UUID) (now : Z)
    (db : Store) (oid : UUID) (db1 : Store) :
  run_request (create_order base req uid now) db = (Ok oid, db1) →
  (∃ rs,
      run_request (get_order oid uid) db1 = (Ok rs, db1)
      ∧ rs_id rs = oid ∧ rs_user_id rs = uid
      ∧ rs_direction rs = rq_direction req
      ∧ rs_ticker rs = rq_ticker req
      ∧ rs_qty rs = rq_qty req
      ∧ rs_price rs = rq_price req
      ∧ rs_status rs ≠ CANCELLED)
  ∧ (∀ other, other ≠ uid → is_Some (users db1 !! other) →
       run_request (get_order oid other) db1
       = (Raise (HTTPException 403 "Order does not belong to user"), db1))
  ∧ (∀ missing, orders db1 !! missing = None →
       run_request (get_order missing uid) db1
       = (Raise (HTTPException 404 "Order not found"), db1)).
Proof.
  intros Hrun.
  apply create_order_ok in Hrun as (Hu & Hv & _ & n' & s1 & Hsub & ->).
  apply submit_ok in Hsub as ([Hrows _] & Hlk & Hd & Ht & Hp & Hown & Hq & Hs).
  assert (Hu1 : is_Some (users (working s1) !! uid)) by by apply Hrows.
  split; [|split].
  - exists (_format_order_response oid n').
    rewrite get_order_run, Hlk by done.
    rewrite bool_decide_eq_true_2 by done.
    unfold _format_order_response. simpl. rewrite Hd.
    rewrite <-(valid_effective_price _ Hv).
    repeat split; try done. by destruct (rq_direction req).
  - intros other Hne Ho. rewrite get_order_run, Hlk by done.
    rewrite bool_decide_eq_false_2 by congruence. done.
  - intros missing Hm. by rewrite get_order_run, Hm.
Qed.

(** Bob's bid of 8 at 100 reads back with qty 8, 5 of them filled. *)
Lemma order_reads_back_as_submitted_witness :
  run_request (get_order 2%positive bob) db_partial
  = (Ok (mkOrderResponse 2%positive PARTIALLY_EXECUTED bob BUY MEMCOIN 8
           (Some 100) 5), db_partial).
Proof.
  assert (Hrun :
    run_request
      (create_order RUB (mkCreateOrderRequest BUY MEMCOIN 8 (Some 100)) bob 2)
      db_ask
    = (Ok 2%positive, db_partial)) by (vm_compute; reflexivity).
  destruct (order_reads_back_as_submitted RUB _ bob 2 db_ask 2%positive
              db_partial Hrun) as ((rs & Hget & _) & _).
  rewrite Hget. f_equal.
  apply (f_equal fst) in Hget. simpl in Hget. rewrite <-Hget. by vm_compute.
Defined.

(** ** Market orders *)

Section MarketOrders.

Variable base : string.

Lemma fill_keeps_executed_empty m amt m1 :
  (status m = EXECUTED → amount m = 0) →
  _partially_execute_order m amt = Ok m1 →
  (status m1 = EXECUTED → amount m1 = 0).
Proof.
  intros _ Hm1. apply _partially_execute_order_ok in Hm1 as [_ ->]. simpl.
  destruct (amount m - amt =? 0) eqn:Hz; [|done].
  intros _. by apply Z.eqb_eq.
Qed.

Lemma submit_executed_empty req uid now s oid n' s1 :
  submit base req uid now s = (Ok (oid, n'), s1) →
  status n' = EXECUTED → amount n' = 0.
Proof.
  rewrite submit_eq. destruct (rq_direction req); intros Hsub.
  - apply create_limit_buy_order_ok in Hsub as (s2 & s3 & Hloop & _).
    eapply (buy_loop_keeps base (λ m, status m = EXECUTED → amount m = 0));
      [apply fill_keeps_executed_empty| |done]. done.
  - apply create_limit_sell_order_ok in Hsub as (s2 & s3 & Hloop & _).
    eapply (sell_loop_keeps (λ m, status m = EXECUTED → amount m = 0));
      [apply fill_keeps_executed_empty| |done]. done.
Qed.

Lemma submit_rests_only_priced req uid now s oid n' s1 :
  submit base req uid now s = (Ok (oid, n'), s1) →
  status n' ≠ EXECUTED → truthy (effective_price req) = true.
Proof.
  rewrite submit_eq. destruct (rq_direction req); intros Hsub Hs.
  - apply create_limit_buy_order_ok in Hsub as (s2 & s3 & _ & Hfr & _).
    rewrite bool_decide_eq_true_2 in Hfr by done. by destruct Hfr.
  - apply create_limit_sell_order_ok in Hsub as (s2 & s3 & _ & Hfr & _).
    rewrite bool_decide_eq_true_2 in Hfr by done. by destruct Hfr.
Qed.

End MarketOrders.

(** X6.  A market order never rests: [POST /order] without a price either
    stores an EXECUTED order filled for the whole quantity, with no residue,
    or is answered with an error and leaves the database as it was. *)
Theorem market_order_all_or_nothing
    (base : string) (req : CreateOrderRequest) (uid : UUID) (now : Z)
    (db : Store) :
  rq_price req = None →
  match (run_request (create_order base req uid now) db).1 with
  | Ok oid =>
      ∃ o, orders (run_request (create_order base req uid now) db).2 !! oid
           = Some o
        ∧ status o = EXECUTED ∧ amount o = 0 ∧ filled o = rq_qty req
        ∧ price o = None
  | Raise _ => (run_request (create_order base req uid now) db).2 = db
  end.
Proof.
  intros Hp.
  destruct (run_request (create_order base req uid now) db) as [[oid|e] db1]
    eqn:Hrun; simpl.
  - apply create_order_ok in Hrun as (_ & _ & _ & n' & s1 & Hsub & ->).
    pose proof (submit_executed_empty _ _ _ _ _ _ _ _ Hsub) as Hempty.
    pose proof (submit_rests_only_priced _ _ _ _ _ _ _ _ Hsub) as Hrest.
    apply submit_ok in Hsub as (_ & Hlk & Hd & Ht & Hpr & Hown & Hq & Hs).
    assert (Heff : effective_price req = None).
    { unfold effective_price. rewrite Hp. by destruct (truthy None). }
    rewrite Heff in *.
    assert (Hex : status n' = EXECUTED).
    { destruct (decide (status n' = EXECUTED)) as [|Hne]; [done|].
      by specialize (Hrest Hne). }
    exists n'. specialize (Hempty Hex). repeat split; try done. lia.
  - pose proof (create_order_stores_no_cancelled base req uid now db) as H.
    by rewrite Hrun in H.
Qed.

(** Bob's market BUY of 5 takes all of Alice's resting 5 at 100. *)
Lemma market_order_all_or_nothing_witness :
  ∃ o,
    orders
      (run_request
         (create_order RUB (mkCreateOrderRequest BUY MEMCOIN 5 None) bob 2)
         db_ask).2 !! 2%positive = Some o
    ∧ status o = EXECUTED ∧ amount o = 0 ∧ filled o = 5 ∧ price o = None.
Proof.
  pose proof (market_order_all_or_nothing RUB
                (mkCreateOrderRequest BUY MEMCOIN 5 None) bob 2 db_ask eq_refl)
    as H.
  assert (Hr :
    (run_request
       (create_order RUB (mkCreateOrderRequest BUY MEMCOIN 5 None) bob 2)
       db_ask).1 = Ok 2%positive) by (vm_compute; reflexivity).
  rewrite Hr in H. exact H.
Defined.

(** ** What the fills of one submission add up to *)

Lemma tx_total_app l k : tx_total (l ++ k) = tx_total l + tx_total k.
Proof. unfold tx_total. induction l as [|tr l IH]; simpl; lia. Qed.

Lemma buy_break_limit n lp o p L :
  buy_break n lp o = Ok false → price o = Some p → lp = Some L → L ≠ 0 →
  p ≤ L.
Proof.
  unfold buy_break, truthy. intros Hbrk Hp -> HL. rewrite Hp in Hbrk.
  destruct (amount n =? 0); [done|].
  rewrite (proj2 (Z.eqb_neq L 0)) in Hbrk by done. simpl in Hbrk.
  injection Hbrk as Hlt. by apply Z.ltb_ge.
Qed.

Lemma sell_break_limit n lp o p L :
  sell_break n lp o = Ok false → price o = Some p → lp = Some L → L ≠ 0 →
  L ≤ p.
Proof.
  unfold sell_break, truthy. intros Hbrk Hp -> HL. rewrite Hp in Hbrk.
  destruct (amount n =? 0); [done|].
  rewrite (proj2 (Z.eqb_neq L 0)) in Hbrk by done. simpl in Hbrk.
  injection Hbrk as Hlt. by apply Z.ltb_ge.
Qed.

Section Fills.

Variable base : string.

Lemma buy_loop_fills book n uid ticker lp s n' s' :
  buy_loop base book n uid ticker lp s = (Ok n', s') →
  ∃ trades,
    transactions (working s') = transactions (working s) ++ trades
    ∧ filled n' = filled n + tx_total trades
    ∧ amount n' = amount n - tx_total trades
    ∧ Forall (λ tr, ∀ L, lp = Some L → L ≠ 0 → tx_price tr ≤ L) trades
    ∧ (0 ≤ amount n → Forall (λ row : UUID * Order, 0 < amount row.2) book →
       Forall (λ tr, 0 < tx_amount tr) trades).
Proof.
  revert n s. induction book as [|[oid o] rest IH]; intros n s Hrun.
  - simpl in Hrun. inv_pair Hrun. exists []. rewrite app_nil_r. simpl.
    repeat split; try lia; by constructor.
  - apply buy_loop_cons_ok in Hrun
      as [(_ & -> & ->)|(p & ub & o1 & n1 & Hbrk & Hp & _ & _ & _ & _ & _ & Hn1 & Hrun)].
    + exists []. rewrite app_nil_r. simpl. repeat split; try lia; by constructor.
    + apply IH in Hrun as (trades & Htx & Hf & Ha & Hlim & Hpos).
      simpl in Htx. rewrite transactions_settle_buy, <-app_assoc in Htx.
      apply _partially_execute_order_ok in Hn1 as [Hle ->]. simpl in *.
      eexists (_ :: trades). split; [done|]. simpl.
      split; [lia|]. split; [lia|]. split.
      * constructor; [|done]. simpl. intros L HL HL0.
        by eapply buy_break_limit.
      * intros Hn Hall. apply Forall_cons in Hall as [Ho Hall]. simpl in Ho.
        apply buy_break_false in Hbrk.
        constructor; [simpl; lia|]. apply Hpos; [lia|done].
Qed.

Lemma sell_loop_fills book n uid ticker lp s n' s' :
  sell_loop book n uid ticker lp s = (Ok n', s') →
  ∃ trades,
    transactions (working s') = transactions (working s) ++ trades
    ∧ filled n' = filled n + tx_total trades
    ∧ amount n' = amount n - tx_total trades
    ∧ Forall (λ tr, ∀ L, lp = Some L → L ≠ 0 → L ≤ tx_price tr) trades
    ∧ (0 ≤ amount n → Forall (λ row : UUID * Order, 0 < amount row.2) book →
       Forall (λ tr, 0 < tx_amount tr) trades).
Proof.
  revert n s. induction book as [|[oid o] rest IH]; intros n s Hrun.
  - simpl in Hrun. inv_pair Hrun. exists []. rewrite app_nil_r. simpl.
    repeat split; try lia; by constructor.
  - apply sell_loop_cons_ok in Hrun
      as [(_ & -> & ->)|(p & q & o1 & n1 & Hbrk & Hp & _ & _ & _ & _ & _ & _ & Hn1 & Hrun)].
    + exists []. rewrite app_nil_r. simpl. repeat split; try lia; by constructor.
    + apply IH in Hrun as (trades & Htx & Hf & Ha & Hlim & Hpos).
      simpl in Htx. rewrite transactions_settle_sell, <-app_assoc in Htx.
      apply _partially_execute_order_ok in Hn1 as [Hle ->]. simpl in *.
      eexists (_ :: trades). split; [done|]. simpl.
      split; [lia|]. split; [lia|]. split.
      * constructor; [|done]. simpl. intros L HL HL0.
        by eapply sell_break_limit.
      * intros Hn Hall. apply Forall_cons in Hall as [Ho Hall]. simpl in Ho.
        apply sell_break_false in Hbrk.
        constructor; [simpl; lia|]. apply Hpos; [lia|done].
Qed.

End Fills.

(** X7.  The trades a successful submission records add up to the quantity
    filled on the stored order; a limit BUY never trades above its limit and
    a limit SELL never below it; and where every open order of the book has
    a positive residue, every trade exchanges a positive number of units. *)
Theorem fills_add_up_within_limit
    (base : string) (req : CreateOrderRequest) (uid : UUID) (now : Z)
    (db : Store) (oid : UUID) (db1 : Store) :
  run_request (create_order base req uid now) db = (Ok oid, db1) →
  ∃ o trades,
    orders db1 !! oid = Some o
    ∧ transactions db1 = transactions db ++ trades
    ∧ filled o = tx_total trades
    ∧ amount o = rq_qty req - tx_total trades
    ∧ (∀ tr L, tr ∈ trades → rq_price req = Some L →
         match rq_direction req with
         | BUY => tx_price tr ≤ L
         | SELL => L ≤ tx_price tr
         end)
    ∧ (book_pos db → ∀ tr, tr ∈ trades → 0 < tx_amount tr).
Proof.
  intros Hrun.
  apply create_order_ok in Hrun as (Hu & Hv & _ & n' & s1 & Hsub & ->).
  assert (Hq : 0 < rq_qty req).
  { unfold valid_request in Hv. apply andb_true_iff in Hv as [Hv _].
    apply andb_true_iff in Hv as [_ Hv]. by apply Z.ltb_lt. }
  assert (HL : ∀ L, rq_price req = Some L → L ≠ 0).
  { intros L HL. unfold valid_request in Hv. rewrite HL in Hv.
    apply andb_true_iff in Hv as [_ Hv]. apply Z.ltb_lt in Hv. lia. }
  assert (Hbook : ∀ d, book_pos db →
            Forall (λ row : UUID * Order, 0 < amount row.2)
              (get_orders db (rq_ticker req) d (Z.to_nat (rq_qty req)) None)).
  { intros d Hpos. apply Forall_forall. intros row Hin.
    apply get_orders_elem in Hin as (Hlk & _ & _ & Hst).
    by destruct (Hpos _ _ Hlk Hst). }
  exists n'. rewrite submit_eq, (valid_effective_price _ Hv) in Hsub.
  destruct (rq_direction req).
  - apply create_limit_buy_order_ok in Hsub as (s2 & s3 & Hloop & Hfr & -> & ->).
    apply buy_loop_fills in Hloop as (trades & Htx & Hf & Ha & Hlim & Hpos).
    exists trades. simpl in *. rewrite lookup_insert_eq.
    assert (Htx3 : transactions (working s3) = transactions (working s2)).
    { case_bool_decide; [|by subst].
      destruct Hfr as [_ Hfr]. by eapply _freeze_balance_transactions. }
    rewrite Htx3. repeat split; try done; try lia.
    + intros tr L Hin HLp. rewrite Forall_forall in Hlim. by eapply Hlim; eauto.
    + intros Hbp tr Hin.
      specialize (Hpos ltac:(lia) (Hbook ASK Hbp)).
      rewrite Forall_forall in Hpos. by apply Hpos.
  - apply create_limit_sell_order_ok in Hsub as (s2 & s3 & Hloop & Hfr & -> & ->).
    apply sell_loop_fills in Hloop as (trades & Htx & Hf & Ha & Hlim & Hpos).
    exists trades. simpl in *. rewrite lookup_insert_eq.
    assert (Htx3 : transactions (working s3) = transactions (working s2)).
    { case_bool_decide; [|by subst].
      destruct Hfr as [_ Hfr]. by eapply _freeze_balance_transactions. }
    rewrite Htx3. repeat split; try done; try lia.
    + intros tr L Hin HLp. rewrite Forall_forall in Hlim. by eapply Hlim; eauto.
    + intros Hbp tr Hin.
      specialize (Hpos ltac:(lia) (Hbook BID Hbp)).
      rewrite Forall_forall in Hpos. by apply Hpos.
Qed.

(** Eve's bid of 7 at 100 fills 5 against Carol and 2 against Dave. *)
Lemma fills_add_up_within_limit_witness :
  ∃ o trades,
    orders
      (run_request
         (create_order RUB (mkCreateOrderRequest BUY MEMCOIN 7 (Some 100)) eve 3)
         db_two_asks).2 !! 3%positive = Some o
    ∧ trades = [mkTransaction carol eve MEMCOIN 5 100;
                mkTransaction dave eve MEMCOIN 2 100]
    ∧ filled o = tx_total trades
    ∧ amount o = 7 - tx_total trades.
Proof.
  pose (db1 := (run_request
                  (create_order RUB (mkCreateOrderRequest BUY MEMCOIN 7 (Some 100))
                     eve 3) db_two_asks).2).
  assert (Hrun :
    run_request
      (create_order RUB (mkCreateOrderRequest BUY MEMCOIN 7 (Some 100)) eve 3)
      db_two_asks
    = (Ok 3%positive, db1)) by (vm_compute; reflexivity).
  assert (Htx : transactions db1
                = transactions db_two_asks
                  ++ [mkTransaction carol eve MEMCOIN 5 100;
                      mkTransaction dave eve MEMCOIN 2 100])
    by (vm_compute; reflexivity).
  destruct (fills_add_up_within_limit RUB _ eve 3 db_two_asks 3%positive db1 Hrun)
    as (o & trades & Ho & Htr & Hf & Ha & _).
  rewrite Htx in Htr. apply app_inv_head in Htr. subst trades.
  eexists o, _. split; [exact Ho|]. split; [reflexivity|]. split; [exact Hf|exact Ha].
Defined.

(** ** No negative holdings *)

Lemma users_credit_balance_lookup uid d st k u :
  users (credit_balance uid d st) !! k = Some u →
  ∃ u0, users st !! k = Some u0
    ∧ balance u = if bool_decide (k = uid) then float_add (balance u0) d
                  else balance u0.
Proof.
  unfold credit_balance. destruct (users st !! uid) as [u1|] eqn:Hu; simpl.
  - case_bool_decide as Hk.
    + subst k. rewrite lookup_insert_eq. intros [= <-]. eauto.
    + rewrite lookup_insert_ne by done. intros ->. by eexists.
  - intros Hk. exists u. split; [done|].
    case_bool_decide; [congruence|done].
Qed.

Lemma inventories_credit_quantity_lookup uid t d st k q :
  inventories (credit_quantity uid t d st) !! k = Some q →
  ∃ q0, inventories st !! k = Some q0
    ∧ q = if bool_decide (k = (uid, t)) then float_add q0 d else q0.
Proof.
  unfold credit_quantity. destruct (inventories st !! (uid, t)) as [q1|] eqn:Hq; simpl.
  - case_bool_decide as Hk.
    + subst k. rewrite lookup_insert_eq. intros [= <-]. eauto.
    + rewrite lookup_insert_ne by done. intros ->. by eexists.
  - intros Hk. exists q. split; [done|].
    case_bool_decide; [congruence|done].
Qed.

Lemma ledger_nonneg_credit_balance uid d st :
  ledger_nonneg st →
  (∀ u, users st !! uid = Some u → 0 ≤ float_add (balance u) d) →
  ledger_nonneg (credit_balance uid d st).
Proof.
  intros [Hu Hq] Hd. split.
  - intros k u Hk. apply users_credit_balance_lookup in Hk as (u0 & Hk & ->).
    case_bool_decide; [subst k; by apply Hd|].
    by apply (Hu k).
  - rewrite inventories_credit_balance. done.
Qed.

Lemma ledger_nonneg_credit_quantity uid t d st :
  ledger_nonneg st →
  (∀ q, inventories st !! (uid, t) = Some q → 0 ≤ float_add q d) →
  ledger_nonneg (credit_quantity uid t d st).
Proof.
  intros [Hu Hq] Hd. split.
  - rewrite users_credit_quantity. done.
  - intros k q Hk. apply inventories_credit_quantity_lookup in Hk as (q0 & Hk & ->).
    case_bool_decide; [subst k; by apply Hd|].
    by apply (Hq k).
Qed.

Lemma ledger_nonneg_settle_buy seller buyer t p amt st ub :
  ledger_nonneg st → 0 ≤ amt → 0 ≤ p →
  users st !! buyer = Some ub → amt * p ≤ balance ub →
  ledger_nonneg (settle_buy seller buyer t p amt st).
Proof.
  intros Hl Hamt Hp Hub Hle. unfold settle_buy.
  apply ledger_nonneg_credit_quantity.
  - apply ledger_nonneg_credit_balance.
    + apply ledger_nonneg_credit_balance; [done|].
      intros u Hu. destruct Hl as [Hl _]. specialize (Hl _ _ Hu).
      apply float_add_nonneg; nia.
    + intros u Hu. apply users_credit_balance_lookup in Hu as (u0 & Hu & ->).
      simpl in Hu. assert (u0 = ub) as -> by congruence.
      destruct Hl as [Hl _]. specialize (Hl _ _ Hub).
      case_bool_decide.
      * by apply float_add_sub_nonneg.
      * by apply float_sub_nonneg.
  - intros q Hq. rewrite !inventories_credit_balance in Hq. simpl in Hq.
    destruct Hl as [_ Hl]. specialize (Hl _ _ Hq).
    by apply float_add_nonneg.
Qed.

Lemma ledger_nonneg_settle_sell seller buyer t p amt st q :
  ledger_nonneg st → 0 ≤ amt → 0 ≤ p →
  inventories st !! (seller, t) = Some q → amt ≤ q →
  ledger_nonneg (settle_sell seller buyer t p amt st).
Proof.
  intros Hl Hamt Hp Hq Hle. unfold settle_sell.
  apply ledger_nonneg_credit_quantity.
  - apply ledger_nonneg_credit_quantity.
    + apply ledger_nonneg_credit_balance; [done|].
      intros u Hu. destruct Hl as [Hl _]. specialize (Hl _ _ Hu).
      apply float_add_nonneg; nia.
    + intros q' Hq'. rewrite inventories_credit_balance in Hq'. simpl in Hq'.
      assert (q' = q) as -> by congruence. by apply float_sub_nonneg.
  - intros q' Hq'.
    apply inventories_credit_quantity_lookup in Hq' as (q0 & Hq' & ->).
    rewrite inventories_credit_balance in Hq'. simpl in Hq'.
    apply float_add_nonneg; [|done].
    case_bool_decide as Hk.
    + injection Hk as ->. assert (q0 = q) as -> by congruence.
      by apply float_sub_nonneg.
    + destruct Hl as [_ Hl]. by apply (Hl _ _ Hq').
Qed.

Lemma book_pos_orders st st' :
  orders st' = orders st → book_pos st → book_pos st'.
Proof. unfold book_pos. by intros ->. Qed.

Lemma book_pos_set_order oid o st :
  book_pos st →
  (status o ∈ [NEW; PARTIALLY_EXECUTED] →
   0 < amount o ∧ ∀ p, price o = Some p → 0 < p) →
  book_pos (set_order oid o st).
Proof.
  intros Hb Ho k o' Hk Hst. simpl in Hk.
  destruct (decide (k = oid)) as [->|Hne].
  - rewrite lookup_insert_eq in Hk. injection Hk as <-. by apply Ho.
  - rewrite lookup_insert_ne in Hk by done. by eapply Hb.
Qed.

Lemma fill_keeps_open_positive o amt o1 :
  0 ≤ amt → (∀ p, price o = Some p → 0 < p) →
  _partially_execute_order o amt = Ok o1 →
  0 ≤ amount o1
  ∧ (status o1 ∈ [NEW; PARTIALLY_EXECUTED] →
     0 < amount o1 ∧ ∀ p, price o1 = Some p → 0 < p).
Proof.
  intros Hamt Hp Ho1. apply _partially_execute_order_ok in Ho1 as [Hle ->].
  simpl. split; [lia|].
  destruct (amount o - amt =? 0) eqn:Hz; [status_solver|].
  apply Z.eqb_neq in Hz. intros _. split; [lia|done].
Qed.

Section NoNegativeHoldings.

Variable base : string.

Lemma buy_loop_nonneg book n uid ticker lp s n' s' :
  book_ok (working s) book ASK ticker →
  ledger_nonneg (working s) → book_pos (working s) →
  0 ≤ amount n → (∀ p, price n = Some p → 0 < p) →
  buy_loop base book n uid ticker lp s = (Ok n', s') →
  ledger_nonneg (working s') ∧ book_pos (working s')
  ∧ 0 ≤ amount n' ∧ price n' = price n
  ∧ (n' = n ∨ (status n' ∈ [NEW; PARTIALLY_EXECUTED] → 0 < amount n')).
Proof.
  intros Hbook Hl Hb Hn Hp Hrun.
  pose (I := λ (st : Store) (m : Order),
    ledger_nonneg st ∧ book_pos st ∧ 0 ≤ amount m ∧ price m = price n
    ∧ (m = n ∨ (status m ∈ [NEW; PARTIALLY_EXECUTED] → 0 < amount m))).
  assert (HI0 : I (working s) n) by (unfold I; repeat (split; [done|]); by left).
  refine (proj1 ((buy_loop_invariant base I uid ticker lp) _ book n s n' s' Hbook HI0 Hrun)).
  clear Hl Hb Hbook HI0 Hrun.
  intros st oid o m p ub o1 m1 (Hl & Hb & Hm & Hpm & _)
      Hlk _ _ Hst Hbrk Hpo Hub Hle _ _ Ho1 Hm1.
    destruct (Hb _ _ Hlk Hst) as [Hao Hpp]. specialize (Hpp _ Hpo).
    apply buy_break_false in Hbrk.
    assert (Hamt : 0 ≤ Z.min (amount o) (amount m)) by lia.
    apply fill_keeps_open_positive in Ho1 as [_ Ho1];
      [|done|intros p' Hp'; assert (p' = p) as -> by congruence; done].
    pose proof Hm1 as Hm1'.
    apply _partially_execute_order_ok in Hm1' as [_ Hm1'].
    assert (Ham1 : 0 ≤ amount m1 ∧ price m1 = price m
                   ∧ (status m1 ∈ [NEW; PARTIALLY_EXECUTED] → 0 < amount m1)).
    { subst m1. simpl. split; [lia|]. split; [done|].
      destruct (amount m - Z.min (amount o) (amount m) =? 0) eqn:Hz;
        [status_solver|].
      apply Z.eqb_neq in Hz. intros _. lia. }
    destruct Ham1 as (? & ? & ?).
    split; [|split; [|split; [done|split; [congruence|by right]]]].
    + by eapply ledger_nonneg_settle_buy; [| |lia| |].
    + apply book_pos_set_order; [|done].
      eapply book_pos_orders; [|done]. apply orders_settle_buy.
Qed.

Lemma sell_loop_nonneg book n uid ticker lp s n' s' :
  book_ok (working s) book BID ticker →
  ledger_nonneg (working s) → book_pos (working s) →
  0 ≤ amount n → (∀ p, price n = Some p → 0 < p) →
  sell_loop book n uid ticker lp s = (Ok n', s') →
  ledger_nonneg (working s') ∧ book_pos (working s')
  ∧ 0 ≤ amount n' ∧ price n' = price n
  ∧ (n' = n ∨ (status n' ∈ [NEW; PARTIALLY_EXECUTED] → 0 < amount n')).
Proof.
  intros Hbook Hl Hb Hn Hp Hrun.
  pose (I := λ (st : Store) (m : Order),
    ledger_nonneg st ∧ book_pos st ∧ 0 ≤ amount m ∧ price m = price n
    ∧ (m = n ∨ (status m ∈ [NEW; PARTIALLY_EXECUTED] → 0 < amount m))).
  assert (HI0 : I (working s) n) by (unfold I; repeat (split; [done|]); by left).
  refine (proj1 ((sell_loop_invariant I uid ticker lp) _ book n s n' s' Hbook HI0 Hrun)).
  clear Hl Hb Hbook HI0 Hrun.
  intros st oid o m p q o1 m1 (Hl & Hb & Hm & Hpm & _)
      Hlk _ _ Hst Hbrk Hpo Hq Hle _ _ _ Ho1 Hm1.
    destruct (Hb _ _ Hlk Hst) as [Hao Hpp]. specialize (Hpp _ Hpo).
    apply sell_break_false in Hbrk.
    assert (Hamt : 0 ≤ Z.min (amount o) (amount m)) by lia.
    apply fill_keeps_open_positive in Ho1 as [_ Ho1];
      [|done|intros p' Hp'; assert (p' = p) as -> by congruence; done].
    pose proof Hm1 as Hm1'.
    apply _partially_execute_order_ok in Hm1' as [_ Hm1'].
    assert (Ham1 : 0 ≤ amount m1 ∧ price m1 = price m
                   ∧ (status m1 ∈ [NEW; PARTIALLY_EXECUTED] → 0 < amount m1)).
    { subst m1. simpl. split; [lia|]. split; [done|].
      destruct (amount m - Z.min (amount o) (amount m) =? 0) eqn:Hz;
        [status_solver|].
      apply Z.eqb_neq in Hz. intros _. lia. }
    destruct Ham1 as (? & ? & ?).
    split; [|split; [|split; [done|split; [congruence|by right]]]].
    + by eapply ledger_nonneg_settle_sell; [| |lia| |].
    + apply book_pos_set_order; [|done].
      eapply book_pos_orders; [|done]. apply orders_settle_sell.
Qed.

Lemma _freeze_balance_nonneg uid ticker amt s u s' :
  ledger_nonneg (working s) → book_pos (working s) →
  _freeze_balance base uid ticker amt s = (Ok u, s') →
  ledger_nonneg (working s') ∧ book_pos (working s').
Proof.
  intros Hl Hb Hfr. apply _freeze_balance_ok in Hfr.
  case_bool_decide.
  - destruct Hfr as (usr & Hu & Hle & ->). simpl. split.
    + apply ledger_nonneg_credit_balance; [done|].
      intros u' Hu'. assert (u' = usr) as -> by congruence.
      by apply float_sub_nonneg.
    + eapply book_pos_orders; [|done]. apply orders_credit_balance.
  - destruct Hfr as (q & _ & Hq & Hle & ->). simpl. split.
    + apply ledger_nonneg_credit_quantity; [done|].
      intros q' Hq'. assert (q' = q) as -> by congruence.
      by apply float_sub_nonneg.
    + eapply book_pos_orders; [|done]. apply orders_credit_quantity.
Qed.

Lemma create_order_nonneg req uid now db :
  ledger_nonneg db → book_pos db →
  ledger_nonneg (run_request (create_order base req uid now) db).2
  ∧ book_pos (run_request (create_order base req uid now) db).2.
Proof.
  intros Hl Hb.
  pose proof (create_order_stores_no_cancelled base req uid now db) as Hcases.
  destruct (run_request (create_order base req uid now) db) as [[oid|e] db1] eqn:Hrun;
    simpl in Hcases; [|by subst db1].
  clear Hcases. simpl.
  apply create_order_ok in Hrun as (_ & Hv & _ & n' & s1 & Hsub & ->).
  assert (Hq : 0 < rq_qty req).
  { unfold valid_request in Hv. apply andb_true_iff in Hv as [Hv _].
    apply andb_true_iff in Hv as [_ Hv]. by apply Z.ltb_lt. }
  assert (HL : ∀ L, rq_price req = Some L → 0 < L).
  { intros L HL. unfold valid_request in Hv. rewrite HL in Hv.
    apply andb_true_iff in Hv as [_ Hv]. by apply Z.ltb_lt in Hv. }
  rewrite submit_eq, (valid_effective_price _ Hv) in Hsub.
  destruct (rq_direction req).
  - apply create_limit_buy_order_ok in Hsub as (s2 & s3 & Hloop & Hfr & -> & ->).
    apply buy_loop_nonneg in Hloop as (Hl2 & Hb2 & Hn' & Hpr & Hopen);
      [|apply get_orders_book_ok|done|done|simpl; lia|done].
    simpl in Hpr.
    assert (Hs3 : ledger_nonneg (working s3) ∧ book_pos (working s3)).
    { case_bool_decide; [|by subst].
      destruct Hfr as [_ Hfr]. by eapply _freeze_balance_nonneg. }
    destruct Hs3 as [Hl3 Hb3]. simpl. split; [done|].
    apply book_pos_set_order; [done|]. intros Hst. split.
    + destruct Hopen as [->|Hopen]; [simpl; lia|by apply Hopen].
    + intros p Hp. apply HL. congruence.
  - apply create_limit_sell_order_ok in Hsub as (s2 & s3 & Hloop & Hfr & -> & ->).
    apply sell_loop_nonneg in Hloop as (Hl2 & Hb2 & Hn' & Hpr & Hopen);
      [|apply get_orders_book_ok|done|done|simpl; lia|done].
    simpl in Hpr.
    assert (Hs3 : ledger_nonneg (working s3) ∧ book_pos (working s3)).
    { case_bool_decide; [|by subst].
      destruct Hfr as [_ Hfr]. by eapply _freeze_balance_nonneg. }
    destruct Hs3 as [Hl3 Hb3]. simpl. split; [done|].
    apply book_pos_set_order; [done|]. intros Hst. split.
    + destruct Hopen as [->|Hopen]; [simpl; lia|by apply Hopen].
    + intros p Hp. apply HL. congruence.
Qed.

Lemma cancel_order_endpoint_nonneg order_id uid db :
  ledger_nonneg db → book_pos db →
  ledger_nonneg (run_request (cancel_order_endpoint base order_id uid) db).2
  ∧ book_pos (run_request (cancel_order_endpoint base order_id uid) db).2.
Proof.
  intros Hl Hb. rewrite cancel_order_endpoint_run.
  destruct (users db !! uid) as [u|]; [|done].
  destruct (orders db !! order_id) as [o|] eqn:Ho; [|done].
  case_bool_decide as Hown; [done|].
  case_bool_decide as Hst; [done|].
  destruct (price o) as [p|] eqn:Hp; [|done]. simpl.
  assert (Hnew : status o ∈ [NEW; PARTIALLY_EXECUTED]).
  { destruct (status o); revert Hst; status_solver. }
  destruct (Hb _ _ Ho Hnew) as [Ha Hpp]. specialize (Hpp _ Hp).
  split.
  - unfold unfreeze_residue. rewrite Hp. simpl.
    destruct Hl as [Hl1 Hl2].
    destruct (direction o); try case_bool_decide;
      (apply ledger_nonneg_credit_balance || apply ledger_nonneg_credit_quantity);
      try done; intros x Hx;
      (specialize (Hl1 _ _ Hx) || specialize (Hl2 _ _ Hx));
      apply float_add_nonneg; nia.
  - apply book_pos_set_order; [|unfold cancelled; simpl; status_solver].
    eapply book_pos_orders; [|done].
    unfold unfreeze_residue.
    destruct (direction o); try case_bool_decide;
      auto using orders_credit_balance, orders_credit_quantity.
Qed.

End NoNegativeHoldings.

(** X8.  No request to [POST /order] or [DELETE /order/{id}] drives a
    holding below zero: from a database where every balance and every
    inventory quantity is non-negative and every open order has a positive
    residue and, if priced, a positive price, the database the request
    leaves is again such a database, whatever the request and whether it
    succeeds or fails. *)
Theorem order_requests_keep_holdings_nonnegative
    (base : string) (db : Store) :
  ledger_nonneg db → book_pos db →
  (∀ req uid now,
     ledger_nonneg (run_request (create_order base req uid now) db).2
     ∧ book_pos (run_request (create_order base req uid now) db).2)
  ∧ (∀ order_id uid,
       ledger_nonneg (run_request (cancel_order_endpoint base order_id uid) db).2
       ∧ book_pos (run_request (cancel_order_endpoint base order_id uid) db).2).
Proof.
  intros Hl Hb. split.
  - intros. by apply create_order_nonneg.
  - intros. by apply cancel_order_endpoint_nonneg.
Qed.

(** From the funded database Alice's ask rests, then Bob's bid takes it:
    both databases keep every holding non-negative. *)
Lemma order_requests_keep_holdings_nonnegative_witness :
  (ledger_nonneg db_ask ∧ book_pos db_ask)
  ∧ (ledger_nonneg db_partial ∧ book_pos db_partial).
Proof.
  assert (Hl : ledger_nonneg db_funded).
  { split.
    - change (map_Forall (λ (_ : UUID) (u : User), 0 ≤ balance u)
                (users db_funded)).
      apply (bool_decide_unpack _). by vm_compute.
    - change (map_Forall (λ (_ : UUID * string) (q : Z), 0 ≤ q)
                (inventories db_funded)).
      apply (bool_decide_unpack _). by vm_compute. }
  assert (Hb : book_pos db_funded).
  { intros oid o Hlk. simpl in Hlk. by rewrite lookup_empty in Hlk. }
  destruct (order_requests_keep_holdings_nonnegative RUB db_funded Hl Hb)
    as [Hask _].
  specialize (Hask (mkCreateOrderRequest SELL MEMCOIN 5 (Some 100)) alice 1).
  split; [exact Hask|].
  destruct Hask as [Hl1 Hb1].
  destruct (order_requests_keep_holdings_nonnegative RUB db_ask Hl1 Hb1)
    as [Hbid _].
  exact (Hbid (mkCreateOrderRequest BUY MEMCOIN 8 (Some 100)) bob 2).
Defined.

(** ** Conservation where no sum is rounded *)

Section msum_bounds.
Context `{Countable K} {A : Type} (f : K → A → Z).

Lemma msum_nonneg (m : gmap K A) :
  (∀ k x, m !! k = Some x → 0 ≤ f k x) → 0 ≤ msum f m.
Proof.
  induction m as [|k x m Hk IH] using map_ind; intros Hf.
  - by rewrite msum_empty.
  - rewrite msum_insert_fresh by done.
    pose proof (Hf k x (lookup_insert_eq _ _ _)).
    assert (0 ≤ msum f m); [|lia].
    apply IH. intros k' x' Hk'. apply Hf.
    rewrite lookup_insert_ne; [done|]. congruence.
Qed.

Lemma msum_lookup_le (m : gmap K A) k x :
  (∀ k x, m !! k = Some x → 0 ≤ f k x) →
  m !! k = Some x → f k x ≤ msum f m.
Proof.
  intros Hf Hk. rewrite (msum_delete f m k x Hk).
  assert (0 ≤ msum f (delete k m)); [|lia].
  apply msum_nonneg. intros k' x' Hk'.
  apply lookup_delete_Some in Hk' as [_ Hk']. by apply (Hf k').
Qed.

End msum_bounds.

Section Exact.

Variable base : string.

Lemma available_total_nonneg st t :
  ledger_nonneg st → 0 ≤ available_total base st t.
Proof.
  intros [Hu Hq]. unfold available_total. case_bool_decide.
  - apply msum_nonneg. intros k u Hk. by apply (Hu k).
  - apply msum_nonneg. intros k q Hk. case_bool_decide; [|done].
    by apply (Hq k).
Qed.

Lemma frozen_total_nonneg st t : book_pos st → 0 ≤ frozen_total base st t.
Proof.
  intros Hb. apply msum_nonneg. intros k o Hk.
  apply frozen_nonneg. by apply (Hb k).
Qed.

Lemma balance_le_total st uid u :
  ledger_nonneg st → book_pos st →
  users st !! uid = Some u → balance u ≤ total base st base.
Proof.
  intros Hl Hb Hu. pose proof (frozen_total_nonneg st base Hb).
  unfold total, available_total. rewrite bool_decide_eq_true_2 by done.
  pose proof (msum_lookup_le (λ _ u, balance u) (users st) uid u) as Hle.
  simpl in Hle. destruct Hl as [Hl _].
  assert (balance u ≤ msum (λ _ u, balance u) (users st)); [|lia].
  apply Hle; [|done]. intros k x Hk. by apply (Hl k).
Qed.

Lemma quantity_le_total st uid t q :
  ledger_nonneg st → book_pos st → t ≠ base →
  inventories st !! (uid, t) = Some q → q ≤ total base st t.
Proof.
  intros Hl Hb Hne Hq. pose proof (frozen_total_nonneg st t Hb).
  unfold total, available_total. rewrite bool_decide_eq_false_2 by done.
  pose proof (msum_lookup_le
                (λ (k : UUID * string) q, if bool_decide (k.2 = t) then q else 0)
                (inventories st) (uid, t) q) as Hle.
  simpl in Hle. rewrite bool_decide_eq_true_2 in Hle by done.
  destruct Hl as [_ Hl].
  assert (q ≤ msum (λ (k : UUID * string) q,
                      if bool_decide (k.2 = t) then q else 0) (inventories st));
    [|lia].
  apply Hle; [|done]. intros k x Hk. case_bool_decide; [|done]. by apply (Hl k).
Qed.

Lemma frozen_le_total st oid o t :
  ledger_nonneg st → book_pos st →
  orders st !! oid = Some o → frozen base t o ≤ total base st t.
Proof.
  intros Hl Hb Ho. pose proof (available_total_nonneg st t Hl).
  unfold total, frozen_total.
  assert (frozen base t o ≤ msum (λ _ o, frozen base t o) (orders st)); [|lia].
  apply (msum_lookup_le (λ _ o, frozen base t o) (orders st) oid o); [|done].
  intros k x Hk. apply frozen_nonneg. by apply (Hb k).
Qed.

Lemma total_settle_buy seller buyer ticker p amt st t us ub q :
  ledger_nonneg st → book_pos st → ledger_exact base st →
  users st !! seller = Some us → users st !! buyer = Some ub →
  inventories st !! (buyer, ticker) = Some q → ticker ≠ base →
  0 ≤ amt ≤ 2 ^ 52 → 0 ≤ p → amt * p ≤ balance ub →
  total base (settle_buy seller buyer ticker p amt st) t
  = total base st t + (if bool_decide (t = ticker) then amt else 0).
Proof.
  intros Hl Hb Hx Hs Hbu Hq Hne Hamt Hp Hle. unfold settle_buy.
  pose proof (balance_le_total st _ _ Hl Hb Hs) as Hs52.
  pose proof (balance_le_total st _ _ Hl Hb Hbu) as Hb52.
  pose proof (quantity_le_total st _ _ _ Hl Hb Hne Hq) as Hq52.
  pose proof (Hx base) as Hxb. pose proof (Hx ticker) as Hxt.
  destruct Hl as [Hlu Hlq].
  pose proof (Hlu _ _ Hs). pose proof (Hlu _ _ Hbu). pose proof (Hlq _ _ Hq).
  assert (Hc : 0 ≤ amt * p) by nia.
  rewrite (total_credit_quantity _ _ _ _ _ _ q);
    [|by rewrite !inventories_credit_balance|done].
  assert (Hub' : ∃ u', users (credit_balance seller (amt * p)
                                (add_transaction
                                   (mkTransaction seller buyer ticker amt p) st))
                         !! buyer = Some u'
                 ∧ balance u' = if bool_decide (buyer = seller)
                                then balance ub + amt * p else balance ub).
  { destruct (users_credit_balance_is_Some seller (amt * p)
                (add_transaction (mkTransaction seller buyer ticker amt p) st)
                buyer) as [_ [u' Hu']]; [by eexists|].
    exists u'. split; [done|].
    apply users_credit_balance_lookup in Hu' as (u0 & Hu0 & ->).
    simpl in Hu0. assert (u0 = ub) as -> by congruence.
    case_bool_decide; [|done]. apply float_add_exact; lia. }
  destruct Hub' as (u' & Hu' & Hbal').
  rewrite (total_credit_balance _ _ _ _ _ u') by done.
  rewrite (total_credit_balance _ _ _ _ _ us) by done.
  rewrite total_add_transaction.
  rewrite (float_add_exact q amt) by lia.
  rewrite (float_add_exact (balance us)) by lia.
  rewrite (float_sub_exact (balance u')) by (case_bool_decide; lia).
  repeat case_bool_decide; congruence || lia.
Qed.

Lemma total_settle_sell seller buyer ticker p amt st t us qs qb :
  ledger_nonneg st → book_pos st → ledger_exact base st →
  users st !! seller = Some us →
  inventories st !! (seller, ticker) = Some qs →
  inventories st !! (buyer, ticker) = Some qb → ticker ≠ base →
  0 ≤ amt ≤ qs → 0 ≤ p → amt * p ≤ 2 ^ 52 →
  total base (settle_sell seller buyer ticker p amt st) t
  = total base st t + (if bool_decide (t = base) then amt * p else 0).
Proof.
  intros Hl Hb Hx Hs Hqs Hqb Hne Hamt Hp Hle. unfold settle_sell.
  pose proof (balance_le_total st _ _ Hl Hb Hs) as Hs52.
  pose proof (quantity_le_total st _ _ _ Hl Hb Hne Hqs) as Hqs52.
  pose proof (quantity_le_total st _ _ _ Hl Hb Hne Hqb) as Hqb52.
  pose proof (Hx base) as Hxb. pose proof (Hx ticker) as Hxt.
  destruct Hl as [Hlu Hlq].
  pose proof (Hlu _ _ Hs). pose proof (Hlq _ _ Hqs). pose proof (Hlq _ _ Hqb).
  assert (Hc : 0 ≤ amt * p) by nia.
  assert (Hqb' : ∃ q', inventories
                         (credit_quantity seller ticker (- amt)
                            (credit_balance seller (amt * p)
                               (add_transaction
                                  (mkTransaction seller buyer ticker amt p) st)))
                         !! (buyer, ticker) = Some q'
                 ∧ q' = if bool_decide (buyer = seller) then qs - amt else qb).
  { destruct (inventories_credit_quantity_is_Some seller ticker (- amt)
                (credit_balance seller (amt * p)
                   (add_transaction (mkTransaction seller buyer ticker amt p) st))
                (buyer, ticker)) as [_ [q' Hq']].
    { rewrite inventories_credit_balance. by eexists. }
    exists q'. split; [done|].
    apply inventories_credit_quantity_lookup in Hq' as (q0 & Hq0 & ->).
    rewrite inventories_credit_balance in Hq0. simpl in Hq0.
    case_bool_decide as Hk.
    - injection Hk as ->. rewrite bool_decide_eq_true_2 by done.
      assert (q0 = qs) as -> by congruence. apply float_sub_exact; lia.
    - rewrite bool_decide_eq_false_2 by congruence. congruence. }
  destruct Hqb' as (q' & Hq' & Hq'eq).
  rewrite (total_credit_quantity _ _ _ _ _ _ q') by done.
  rewrite (total_credit_quantity _ _ _ _ _ _ qs);
    [|by rewrite inventories_credit_balance|done].
  rewrite (total_credit_balance _ _ _ _ _ us) by done.
  rewrite total_add_transaction.
  rewrite (float_add_exact q' amt) by (case_bool_decide; lia).
  rewrite (float_sub_exact qs) by lia.
  rewrite (float_add_exact (balance us)) by lia.
  repeat case_bool_decide; congruence || lia.
Qed.

(** One fill of the buy loop, from a ledger where no sum is rounded. *)
Lemma buy_step_exact st oid o m uid ticker p ub o1 :
  ticker ≠ base →
  ledger_nonneg st → book_pos st → ledger_exact base st →
  orders st !! oid = Some o → direction o = ASK →
  instrument_ticker o = ticker → status o ∈ [NEW; PARTIALLY_EXECUTED] →
  price o = Some p → 0 ≤ amount m → amount m ≠ 0 →
  users st !! uid = Some ub →
  Z.min (amount o) (amount m) * p ≤ balance ub →
  is_Some (users st !! user_id o) →
  is_Some (inventories st !! (uid, ticker)) →
  _partially_execute_order o (Z.min (amount o) (amount m)) = Ok o1 →
  let st' := set_order oid o1
               (settle_buy (user_id o) uid ticker p
                  (Z.min (amount o) (amount m)) st) in
  ledger_nonneg st' ∧ book_pos st'
  ∧ (∀ t, total base st' t = total base st t)
  ∧ 0 < p ∧ 0 < Z.min (amount o) (amount m)
  ∧ balance ub ≤ 2 ^ 52.
Proof.
  intros Hne Hl Hb Hx Hlk Hd Ht Hst Hpo Hm Hm0 Hub Hle [us Hus] [qb Hqb] Ho1.
  destruct (Hb _ _ Hlk Hst) as [Hao Hpp]. specialize (Hpp _ Hpo).
  assert (Hamt : 0 < Z.min (amount o) (amount m)) by lia.
  assert (Ha52 : Z.min (amount o) (amount m) ≤ 2 ^ 52).
  { pose proof (frozen_le_total st oid o ticker Hl Hb Hlk) as Hf.
    rewrite (frozen_ask base) in Hf by done.
    rewrite bool_decide_eq_true_2 in Hf by done.
    pose proof (Hx ticker). lia. }
  pose proof (balance_le_total st _ _ Hl Hb Hub) as Hb52.
  pose proof (Hx base) as Hxb.
  pose proof Ho1 as Ho1'.
  apply fill_keeps_open_positive in Ho1' as [_ Ho1'];
    [|lia|intros p' Hp'; assert (p' = p) as -> by congruence; done].
  split; [|split; [|split; [|split; [done|split; [done|lia]]]]].
  - by eapply ledger_nonneg_settle_buy; [|lia|lia| |].
  - apply book_pos_set_order; [|done].
    eapply book_pos_orders; [|done]. apply orders_settle_buy.
  - intros t. apply _partially_execute_order_ok in Ho1 as [_ ->].
    erewrite total_set_order by (by rewrite orders_settle_buy).
    rewrite (total_settle_buy _ _ _ _ _ _ _ us ub qb) by (done || lia).
    rewrite frozen_filled_ask, (frozen_ask base) by done.
    rewrite Ht. repeat case_bool_decide; congruence || lia.
Qed.

(** One fill of the sell loop, from a ledger where no sum is rounded. *)
Lemma sell_step_exact st oid o m uid ticker p qs o1 :
  ticker ≠ base →
  ledger_nonneg st → book_pos st → ledger_exact base st →
  orders st !! oid = Some o → direction o = BID →
  instrument_ticker o = ticker → status o ∈ [NEW; PARTIALLY_EXECUTED] →
  price o = Some p → 0 ≤ amount m → amount m ≠ 0 →
  inventories st !! (uid, ticker) = Some qs →
  Z.min (amount o) (amount m) ≤ qs →
  is_Some (users st !! uid) →
  is_Some (inventories st !! (user_id o, ticker)) →
  _partially_execute_order o (Z.min (amount o) (amount m)) = Ok o1 →
  let st' := set_order oid o1
               (settle_sell uid (user_id o) ticker p
                  (Z.min (amount o) (amount m)) st) in
  ledger_nonneg st' ∧ book_pos st'
  ∧ (∀ t, total base st' t = total base st t)
  ∧ 0 < p ∧ 0 < Z.min (amount o) (amount m)
  ∧ Z.min (amount o) (amount m) * p ≤ 2 ^ 52
  ∧ qs ≤ 2 ^ 52.
Proof.
  intros Hne Hl Hb Hx Hlk Hd Ht Hst Hpo Hm Hm0 Hqs Hle [us Hus] [qb Hqb] Ho1.
  destruct (Hb _ _ Hlk Hst) as [Hao Hpp]. specialize (Hpp _ Hpo).
  assert (Hamt : 0 < Z.min (amount o) (amount m)) by lia.
  assert (Hc52 : Z.min (amount o) (amount m) * p ≤ 2 ^ 52).
  { pose proof (frozen_le_total st oid o base Hl Hb Hlk) as Hf.
    rewrite (frozen_bid base _ _ p) in Hf by done.
    rewrite bool_decide_eq_true_2 in Hf by done.
    pose proof (Hx base). nia. }
  pose proof (quantity_le_total st _ _ _ Hl Hb Hne Hqs) as Hq52.
  pose proof (Hx ticker) as Hxt.
  pose proof Ho1 as Ho1'.
  apply fill_keeps_open_positive in Ho1' as [_ Ho1'];
    [|lia|intros p' Hp'; assert (p' = p) as -> by congruence; done].
  split; [|split; [|split; [|split; [done|split; [done|split; [done|lia]]]]]].
  - by eapply ledger_nonneg_settle_sell; [|lia|lia| |].
  - apply book_pos_set_order; [|done].
    eapply book_pos_orders; [|done]. apply orders_settle_sell.
  - intros t. apply _partially_execute_order_ok in Ho1 as [_ ->].
    erewrite total_set_order by (by rewrite orders_settle_sell).
    rewrite (total_settle_sell _ _ _ _ _ _ _ us qs qb) by (done || lia).
    rewrite (frozen_filled_bid base _ _ _ _ p), (frozen_bid base _ _ p) by done.
    repeat case_bool_decide; lia.
Qed.

Lemma buy_loop_total book n uid ticker lp q s n' s' :
  ticker ≠ base →
  book_ok (working s) book ASK ticker →
  ledger_nonneg (working s) → book_pos (working s) →
  ledger_exact base (working s) →
  0 ≤ amount n →
  incoming_ok BID ticker lp uid q n →
  buy_loop base book n uid ticker lp s = (Ok n', s') →
  (∀ t, total base (working s') t = total base (working s) t)
  ∧ incoming_ok BID ticker lp uid q n'.
Proof.
  intros Hne Hbook Hl Hb Hx Hn Hin Hrun.
  pose (I := λ (st : Store) (m : Order),
    ledger_nonneg st ∧ book_pos st
    ∧ (∀ t, total base st t = total base (working s) t)
    ∧ 0 ≤ amount m ∧ incoming_ok BID ticker lp uid q m).
  assert (HI0 : I (working s) n) by (unfold I; by repeat (split; [done|])).
  destruct (buy_loop_invariant base I uid ticker lp) with (4 := Hrun)
    as [(_ & _ & Htot & _ & Hin') _]; [|done|done|done].
  clear Hl Hb Hbook HI0 Hrun Hn Hin.
  intros st oid o m p ub o1 m1 (Hl & Hb & Htot & Hm & Hin)
      Hlk Hd Ht Hst Hbrk Hpo Hub Hle Hus Hqb Ho1 Hm1.
  apply buy_break_false in Hbrk.
  assert (Hx' : ledger_exact base st) by (intros t; rewrite Htot; apply Hx).
  destruct (buy_step_exact st oid o m uid ticker p ub o1)
    as (Hl' & Hb' & Htot' & _); try done.
  split; [done|]. split; [done|]. split.
  { intros t. by rewrite Htot'. }
  split; [|by eapply incoming_ok_fill].
  apply _partially_execute_order_ok in Hm1 as [_ ->]. simpl. lia.
Qed.

Lemma sell_loop_total book n uid ticker lp q s n' s' :
  ticker ≠ base →
  book_ok (working s) book BID ticker →
  ledger_nonneg (working s) → book_pos (working s) →
  ledger_exact base (working s) →
  0 ≤ amount n →
  incoming_ok ASK ticker lp uid q n →
  sell_loop book n uid ticker lp s = (Ok n', s') →
  (∀ t, total base (working s') t = total base (working s) t)
  ∧ incoming_ok ASK ticker lp uid q n'.
Proof.
  intros Hne Hbook Hl Hb Hx Hn Hin Hrun.
  pose (I := λ (st : Store) (m : Order),
    ledger_nonneg st ∧ book_pos st
    ∧ (∀ t, total base st t = total base (working s) t)
    ∧ 0 ≤ amount m ∧ incoming_ok ASK ticker lp uid q m).
  assert (HI0 : I (working s) n) by (unfold I; by repeat (split; [done|])).
  destruct (sell_loop_invariant I uid ticker lp) with (4 := Hrun)
    as [(_ & _ & Htot & _ & Hin') _]; [|done|done|done].
  clear Hl Hb Hbook HI0 Hrun Hn Hin.
  intros st oid o m p qs o1 m1 (Hl & Hb & Htot & Hm & Hin)
      Hlk Hd Ht Hst Hbrk Hpo Hqs Hle Hus _ Hqb Ho1 Hm1.
  apply sell_break_false in Hbrk.
  assert (Hx' : ledger_exact base st) by (intros t; rewrite Htot; apply Hx).
  destruct (sell_step_exact st oid o m uid ticker p qs o1)
    as (Hl' & Hb' & Htot' & _); try done.
  split; [done|]. split; [done|]. split.
  { intros t. by rewrite Htot'. }
  split; [|by eapply incoming_ok_fill].
  apply _partially_execute_order_ok in Hm1 as [_ ->]. simpl. lia.
Qed.

Lemma create_limit_buy_order_total ticker qty lp uid now s r s' :
  ticker ≠ base →
  ledger_nonneg (working s) → book_pos (working s) →
  ledger_exact base (working s) →
  0 ≤ qty → (∀ p, lp = Some p → 0 < p) →
  create_limit_buy_order base ticker qty lp uid now s = (Ok r, s') →
  ∀ t, total base (working s') t = total base (working s) t.
Proof.
  intros Hne Hl Hb Hx Hqty Hlp Hrun. destruct r as [oid n'].
  apply create_limit_buy_order_ok in Hrun as (s1 & s2 & Hloop & Hfr & -> & ->).
  pose proof Hloop as Hloop'.
  apply buy_loop_nonneg in Hloop' as (Hl1 & Hb1 & Hn' & _);
    [|apply get_orders_book_ok|done|done|done|done].
  apply (buy_loop_total _ _ _ _ _ qty) in Hloop
    as [Htot (Hd & Ht & Hp & Hu & Hq & Hs)];
    [|done|apply get_orders_book_ok|done|done|done|done
     |by repeat split; simpl; try lia].
  intros t. simpl. case_bool_decide as Hex.
  - destruct Hfr as [Htr Hfr].
    apply _freeze_balance_ok in Hfr. rewrite bool_decide_eq_true_2 in Hfr by done.
    destruct Hfr as (usr & Husr & Hle & ->). simpl.
    rewrite total_set_order_fresh.
    2:{ rewrite orders_credit_balance. apply fresh_order_id. }
    rewrite (total_credit_balance _ _ _ _ _ usr) by done.
    destruct (price n') as [p|] eqn:Hpn; [|by rewrite <-Hp in Htr].
    rewrite (frozen_bid _ _ _ p); [| done | | done].
    2:{ destruct (status n'); status_solver. }
    simpl in *.
    assert (Hp0 : 0 < p) by (apply Hlp; congruence).
    pose proof (balance_le_total _ _ _ Hl1 Hb1 Husr) as Hb52.
    rewrite Htot in Hb52. pose proof (Hx base).
    destruct Hl1 as [Hlu _]. pose proof (Hlu _ _ Husr).
    rewrite float_sub_exact by nia.
    rewrite Htot. case_bool_decide; lia.
  - subst s2. rewrite total_set_order_fresh by apply fresh_order_id.
    rewrite frozen_closed, Htot; [lia|].
    destruct (status n'); status_solver.
Qed.

Lemma create_limit_sell_order_total ticker qty lp uid now s r s' :
  ticker ≠ base →
  ledger_nonneg (working s) → book_pos (working s) →
  ledger_exact base (working s) →
  0 ≤ qty → (∀ p, lp = Some p → 0 < p) →
  create_limit_sell_order base ticker qty lp uid now s = (Ok r, s') →
  ∀ t, total base (working s') t = total base (working s) t.
Proof.
  intros Hne Hl Hb Hx Hqty Hlp Hrun. destruct r as [oid n'].
  apply create_limit_sell_order_ok in Hrun as (s1 & s2 & Hloop & Hfr & -> & ->).
  pose proof Hloop as Hloop'.
  apply sell_loop_nonneg in Hloop' as (Hl1 & Hb1 & Hn' & _);
    [|apply get_orders_book_ok|done|done|done|done].
  apply (sell_loop_total _ _ _ _ _ qty) in Hloop
    as [Htot (Hd & Ht & Hp & Hu & Hq & Hs)];
    [|done|apply get_orders_book_ok|done|done|done|done
     |by repeat split; simpl; try lia].
  intros t. simpl. case_bool_decide as Hex.
  - destruct Hfr as [Htr Hfr].
    apply _freeze_balance_ok in Hfr. rewrite bool_decide_eq_false_2 in Hfr by done.
    destruct Hfr as (q & Husr & Hq' & Hle & ->). simpl.
    rewrite total_set_order_fresh.
    2:{ rewrite orders_credit_quantity. apply fresh_order_id. }
    rewrite (total_credit_quantity _ _ _ _ _ _ q) by done.
    rewrite frozen_ask; [| done |].
    2:{ destruct (status n'); status_solver. }
    pose proof (quantity_le_total _ _ _ _ Hl1 Hb1 Hne Hq') as Hq52.
    rewrite Htot in Hq52. pose proof (Hx ticker).
    rewrite float_sub_exact by lia.
    rewrite Htot. repeat case_bool_decide; congruence || lia.
  - subst s2. rewrite total_set_order_fresh by apply fresh_order_id.
    rewrite frozen_closed, Htot; [lia|].
    destruct (status n'); status_solver.
Qed.

Lemma submit_total req uid now s r s' :
  rq_ticker req ≠ base →
  valid_request req = true →
  ledger_nonneg (working s) → book_pos (working s) →
  ledger_exact base (working s) →
  submit base req uid now s = (Ok r, s') →
  ∀ t, total base (working s') t = total base (working s) t.
Proof.
  intros Hne Hv Hl Hb Hx. rewrite submit_eq, (valid_effective_price _ Hv).
  apply valid_request_pos in Hv as [Hq Hp].
  destruct (rq_direction req); intros Hrun.
  - eapply create_limit_buy_order_total; [done|done|done|done| |done|done]. lia.
  - eapply create_limit_sell_order_total; [done|done|done|done| |done|done]. lia.
Qed.

Lemma create_order_total req uid now db :
  rq_ticker req ≠ base →
  ledger_nonneg db → book_pos db → ledger_exact base db →
  ∀ t, total base (run_request (create_order base req uid now) db).2 t
       = total base db t.
Proof.
  intros Hne Hl Hb Hx t. rewrite create_order_run.
  destruct (users db !! uid); [|done].
  destruct (valid_request req) eqn:Hv; [|done]. simpl.
  destruct (negb _); [done|].
  destruct (submit base req uid now _) as [[order|e] s1] eqn:Hsub; [|done].
  simpl.
  by rewrite (submit_total req uid now (mkSession db db) _ _
                Hne Hv Hl Hb Hx Hsub).
Qed.

End Exact.

(** ** C1 *)

(** C1, as stated, fails in two ways.  At the edge of the Float range:
    Alice holds 2^53 RUB and her ASK of 1 MEMCOIN at 1 rests; Bob, who holds
    2^53 + 2 RUB, buys it.  The credit of 1 to Alice is lost in the rounding
    of 2^53 + 1, and Bob's 2^53 + 1 after the debit is rounded down as well:
    the RUB held by all users drop from 2^54 + 2 to 2^54.  And where the
    base ticker itself is listed and traded: Alice's ASK of 5 RUB at 2 rests
    (the freeze took 5 from her cash) and Bob buys it; he pays 10 in cash
    and the 5 units go to his inventory row, which the cash total does not
    count: the RUB held by all users drop from 200 to 195. *)
Lemma submission_conservation_counterexample :
  (let after :=
     run_request
       (create_order RUB (mkCreateOrderRequest BUY MEMCOIN 1 (Some 1)) bob 2)
       db_large_ask in
   after.1 = Ok 2%positive
   ∧ transactions after.2 = [mkTransaction alice bob MEMCOIN 1 1]
   ∧ balance_of db_large_ask alice = Some 9007199254740992
   ∧ balance_of after.2 alice = Some 9007199254740992
   ∧ total RUB db_large_ask RUB = 18014398509481986
   ∧ total RUB after.2 RUB = 18014398509481984)
  ∧ (let after :=
       run_request
         (create_order RUB (mkCreateOrderRequest BUY RUB 5 (Some 2)) bob 2)
         db_base_ask in
     after.1 = Ok 2%positive
     ∧ transactions after.2 = [mkTransaction alice bob RUB 5 2]
     ∧ total RUB db_base_ask RUB = 200
     ∧ total RUB after.2 RUB = 195).
Proof. vm_compute. by repeat split. Qed.

(** C1, amended.  A fill settled by [_execute_buy] (incoming BID, resting
    ASK) credits the seller's cash, debits the incoming buyer's cash,
    credits the buyer's inventory and leaves the resting seller's inventory
    as the freeze left it; a fill settled by [_execute_sell] (incoming ASK,
    resting BID) credits the incoming seller's cash, debits the seller's
    inventory, credits the buyer's inventory and leaves the resting buyer's
    cash as the freeze left it; each posting is a sum of the Float column,
    rounded to binary64.  Where no balance or quantity is negative, open
    orders have positive residues and prices, and the total of every ticker
    is at most 2^52 (so that no sum is rounded), a submission on a traded
    ticker (the base ticker is cash and is not traded) leaves, for every
    ticker including the base ticker, the sum over all users of available
    plus frozen holdings unchanged. *)
Theorem submission_conserves_holdings
    (base : string) (req : CreateOrderRequest) (uid : UUID) (now : Z)
    (db : Store) :
  rq_ticker req ≠ base →
  ledger_nonneg db → book_pos db → ledger_exact base db →
  (∀ seller lp amt s tr s',
      seller ≠ uid →
      _execute_buy base seller uid (rq_ticker req) lp amt s = (Ok tr, s') →
      ∃ p, lp = Some p
        ∧ balance_of (working s') seller
          = (λ b, float_add b (amt * p)) <$> balance_of (working s) seller
        ∧ balance_of (working s') uid
          = (λ b, float_add b (- (amt * p))) <$> balance_of (working s) uid
        ∧ inventories (working s') !! (uid, rq_ticker req)
          = (λ q, float_add q amt)
              <$> inventories (working s) !! (uid, rq_ticker req)
        ∧ inventories (working s') !! (seller, rq_ticker req)
          = inventories (working s) !! (seller, rq_ticker req))
  ∧ (∀ buyer lp amt s tr s',
      buyer ≠ uid →
      _execute_sell uid buyer (rq_ticker req) lp amt s = (Ok tr, s') →
      ∃ p, lp = Some p
        ∧ balance_of (working s') uid
          = (λ b, float_add b (amt * p)) <$> balance_of (working s) uid
        ∧ balance_of (working s') buyer = balance_of (working s) buyer
        ∧ inventories (working s') !! (uid, rq_ticker req)
          = (λ q, float_add q (- amt))
              <$> inventories (working s) !! (uid, rq_ticker req)
        ∧ inventories (working s') !! (buyer, rq_ticker req)
          = (λ q, float_add q amt)
              <$> inventories (working s) !! (buyer, rq_ticker req))
  ∧ ∀ t, total base (run_request (create_order base req uid now) db).2 t
         = total base db t.
Proof.
  intros Hne Hl Hb Hx. split; [|split].
  - intros seller lp amt s tr s' Hsu Hex.
    apply _execute_buy_ok in Hex as (p & ub & -> & _ & _ & _ & _ & _ & ->).
    exists p. split; [done|]. simpl. by apply settle_buy_postings.
  - intros buyer lp amt s tr s' Hbu Hex.
    apply _execute_sell_ok in Hex as (p & q & -> & _ & _ & _ & _ & _ & _ & ->).
    exists p. split; [done|]. simpl. by apply settle_sell_postings.
  - by apply create_order_total.
Qed.

(** ** Scenario databases *)

Lemma msum_list `{Countable K} {A} (f : K → A → Z) (m : gmap K A) :
  msum f m = foldr (λ (kv : K * A) acc, f kv.1 kv.2 + acc) 0 (map_to_list m).
Proof.
  unfold msum. rewrite map_fold_foldr.
  induction (map_to_list m) as [|[k x] l IH]; simpl; [done|]. by rewrite IH.
Qed.

Lemma book_pos_db_funded : book_pos db_funded.
Proof. intros oid o Hlk. simpl in Hlk. by rewrite lookup_empty in Hlk. Qed.

Lemma ledger_db_ask : ledger_nonneg db_ask ∧ book_pos db_ask.
Proof.
  apply (create_order_nonneg RUB
           (mkCreateOrderRequest SELL MEMCOIN 5 (Some 100)) alice 1 db_funded
           ledger_nonneg_db_funded book_pos_db_funded).
Qed.

Lemma ledger_exact_db_ask : ledger_exact RUB db_ask.
Proof.
  intros t. unfold total, available_total, frozen_total.
  rewrite !msum_list.
  set (lu := map_to_list (users db_ask)).
  set (li := map_to_list (inventories db_ask)).
  set (lo := map_to_list (orders db_ask)).
  vm_compute in (value of lu). vm_compute in (value of li).
  vm_compute in (value of lo). subst lu li lo.
  change (2 ^ 52) with 4503599627370496.
  unfold frozen. simpl. repeat case_bool_decide; simpl; lia.
Qed.

Lemma msum_mono `{Countable K} {A} (f g : K → A → Z) (m : gmap K A) :
  (∀ k x, m !! k = Some x → f k x ≤ g k x) → msum f m ≤ msum g m.
Proof.
  induction m as [|k x m Hk IH] using map_ind; intros Hfg.
  - by rewrite !msum_empty.
  - rewrite !msum_insert_fresh by done.
    pose proof (Hfg k x (lookup_insert_eq _ _ _)).
    assert (msum f m ≤ msum g m); [|lia].
    apply IH. intros k' x' Hk'. apply Hfg.
    rewrite lookup_insert_ne; [done|]. congruence.
Qed.

(** What one user holds of a ticker is part of the ticker's total. *)
Lemma holdings_le_total base st uid t v :
  ledger_nonneg st → book_pos st →
  holdings base st uid t = Some v → v ≤ total base st t.
Proof.
  intros Hl Hb. unfold holdings, total.
  assert (Hfr : frozen_of base t st uid ≤ frozen_total base st t).
  { apply msum_mono. intros k o Hk. case_bool_decide; [done|].
    apply frozen_nonneg. by apply (Hb k). }
  pose proof (available_total_nonneg base st t Hl) as Hav.
  assert (Hst : ∀ x,
            (if bool_decide (t = base) then balance <$> users st !! uid
             else inventories st !! (uid, t)) = Some x →
            x ≤ available_total base st t).
  { intros x Hx. unfold available_total. destruct Hl as [Hlu Hlq].
    case_bool_decide.
    - destruct (users st !! uid) as [u|] eqn:Hu; [|done]. injection Hx as <-.
      apply (msum_lookup_le (λ _ u, balance u) (users st) uid u); [|done].
      intros k x Hk. by apply (Hlu k).
    - pose proof (msum_lookup_le
                    (λ (k : UUID * string) q,
                       if bool_decide (k.2 = t) then q else 0)
                    (inventories st) (uid, t) x) as Hle.
      simpl in Hle. rewrite bool_decide_eq_true_2 in Hle by done.
      apply Hle; [|done]. intros k y Hk. case_bool_decide; [|done].
      by apply (Hlq k). }
  destruct (if bool_decide (t = base) then _ else _) as [x|].
  - intros [= <-]. specialize (Hst x eq_refl). lia.
  - destruct (has_open_ask st uid t); [|done]. intros [= <-]. lia.
Qed.

Lemma ledger_db_partial : ledger_nonneg db_partial ∧ book_pos db_partial.
Proof.
  destruct ledger_db_ask as [Hl Hb].
  apply (create_order_nonneg RUB
           (mkCreateOrderRequest BUY MEMCOIN 8 (Some 100)) bob 2 db_ask Hl Hb).
Qed.

Lemma ledger_exact_db_partial : ledger_exact RUB db_partial.
Proof.
  intros t. destruct ledger_db_ask as [Hl Hb].
  unfold db_partial.
  rewrite (create_order_total RUB
             (mkCreateOrderRequest BUY MEMCOIN 8 (Some 100)) bob 2 db_ask);
    [apply ledger_exact_db_ask| |done|done|apply ledger_exact_db_ask].
  apply (bool_decide_unpack _). by vm_compute.
Qed.

(** After the partial fill Bob's query answers 500 RUB, the 200 available
    plus the 300 his resting bid withholds. *)
Lemma balance_query_is_available_plus_frozen_witness :
  ∃ result,
    get_user_balance RUB db_partial bob = Ok result
    ∧ result !! RUB = holdings RUB db_partial bob RUB
    ∧ holdings RUB db_partial bob RUB = Some 500.
Proof.
  destruct ledger_db_partial as [Hl Hb].
  assert (Hx : ∀ t v, holdings RUB db_partial bob t = Some v → v ≤ 2 ^ 53).
  { intros t v Hv. apply (holdings_le_total RUB _ _ _ _ Hl Hb) in Hv.
    pose proof (ledger_exact_db_partial t).
    assert (2 ^ 52 ≤ 2 ^ 53) by (by vm_compute). lia. }
  pose proof (proj1 (balance_query_is_available_plus_frozen RUB db_partial bob
                       Hl Hb Hx)) as Hq.
  destruct Hq as (result & Hres & Hall).
  exists result. split; [exact Hres|]. split; [apply Hall|by vm_compute].
Defined.

(** Bob's bid of 8 against Alice's resting 5 moves no total. *)
Lemma submission_conserves_holdings_witness :
  total RUB db_partial RUB = total RUB db_ask RUB
  ∧ total RUB db_partial MEMCOIN = total RUB db_ask MEMCOIN.
Proof.
  assert (Hne : MEMCOIN ≠ RUB) by (apply (bool_decide_unpack _); by vm_compute).
  destruct ledger_db_ask as [Hl Hb].
  pose proof (proj2 (proj2 (submission_conserves_holdings RUB
                (mkCreateOrderRequest BUY MEMCOIN 8 (Some 100)) bob 2 db_ask
                Hne Hl Hb ledger_exact_db_ask))) as H.
  split; apply H.
Defined.

(** ** Cancellation *)

Lemma orders_unfreeze_residue base o st :
  orders (unfreeze_residue base o st) = orders st.
Proof.
  unfold unfreeze_residue.
  destruct (direction o); try case_bool_decide;
    auto using orders_credit_balance, orders_credit_quantity.
Qed.

Lemma transactions_unfreeze_residue base o st :
  transactions (unfreeze_residue base o st) = transactions st.
Proof.
  unfold unfreeze_residue.
  destruct (direction o); try case_bool_decide;
    auto using transactions_credit_balance, transactions_credit_quantity.
Qed.

Lemma same_rows_unfreeze_residue base o st :
  same_rows st (unfreeze_residue base o st).
Proof.
  unfold unfreeze_residue.
  destruct (direction o); try case_bool_decide;
    auto using same_rows_credit_balance, same_rows_credit_quantity, same_rows_refl.
Qed.

Lemma not_closed_is_new o :
  status o ∉ [PARTIALLY_EXECUTED; EXECUTED; CANCELLED] → status o = NEW.
Proof. destruct (status o); status_solver. Qed.

Lemma cancel_order_endpoint_ok base order_id uid db db1 :
  run_request (cancel_order_endpoint base order_id uid) db = (Ok tt, db1) →
  ∃ o p, is_Some (users db !! uid)
    ∧ orders db !! order_id = Some o
    ∧ user_id o = uid ∧ status o = NEW ∧ price o = Some p
    ∧ db1 = set_order order_id (cancelled o) (unfreeze_residue base o db).
Proof.
  rewrite cancel_order_endpoint_run.
  destruct (users db !! uid) as [u|]; [|done].
  destruct (orders db !! order_id) as [o|] eqn:Ho; [|done].
  case_bool_decide as Hown; [done|].
  case_bool_decide as Hst; [done|].
  destruct (price o) as [p|] eqn:Hp; [|done].
  intros [= <-]. exists o, p.
  split; [eauto|]. split; [done|]. split; [|split; [by apply not_closed_is_new|done]].
  destruct (decide (user_id o = uid)); [done|]. by destruct Hown.
Qed.

(** X9.  A cancellation gives back exactly what the order withheld: where
    no balance or quantity is negative, open orders have positive residues
    and prices and the total of every ticker is at most 2^52 (so that the
    credit is not rounded), and unless the order is an ASK on a traded
    ticker whose owner has no inventory row for it, [DELETE /order/{id}]
    leaves the total of every ticker (available plus frozen, over all
    users) unchanged, whether it succeeds or fails. *)
Theorem cancellation_conserves_holdings
    (base : string) (db : Store) (order_id uid : UUID) :
  ledger_nonneg db → book_pos db → ledger_exact base db →
  (∀ o, orders db !! order_id = Some o →
        direction o = ASK → instrument_ticker o ≠ base →
        is_Some (inventories db !! (user_id o, instrument_ticker o))) →
  ∀ t, total base (run_request (cancel_order_endpoint base order_id uid) db).2 t
       = total base db t.
Proof.
  intros Hl Hb Hx Hrow t.
  destruct (run_request (cancel_order_endpoint base order_id uid) db)
    as [[[]|e] db1] eqn:Hrun.
  - apply cancel_order_endpoint_ok in Hrun
      as (o & p & [u Hu] & Ho & Hown & Hst & Hp & ->). simpl.
    specialize (Hrow _ Ho). subst uid.
    assert (Hopen : status o ∈ [NEW; PARTIALLY_EXECUTED])
      by (rewrite Hst; status_solver).
    destruct (Hb _ _ Ho Hopen) as [Ha Hpp]. specialize (Hpp _ Hp).
    pose proof (balance_le_total base db _ _ Hl Hb Hu) as Hb52.
    pose proof (Hx base) as Hxb.
    pose proof (proj1 Hl _ _ Hu) as Hb0.
    rewrite (total_set_order base order_id o)
      by (by rewrite orders_unfreeze_residue).
    rewrite (frozen_closed base t (cancelled o))
      by (unfold cancelled; simpl; status_solver).
    unfold unfreeze_residue. destruct (direction o) eqn:Hd.
    + rewrite (frozen_ask base t o) by done.
      case_bool_decide as Hbt.
      * pose proof (frozen_le_total base db _ _ base Hl Hb Ho) as Hf.
        rewrite (frozen_ask base) in Hf by done.
        rewrite bool_decide_eq_true_2 in Hf by done.
        rewrite (total_credit_balance _ _ _ _ _ u) by done.
        rewrite float_add_exact by lia.
        rewrite Hbt. repeat case_bool_decide; congruence || lia.
      * destruct (Hrow eq_refl Hbt) as [q Hq].
        pose proof (frozen_le_total base db _ _ (instrument_ticker o) Hl Hb Ho)
          as Hf.
        rewrite (frozen_ask base) in Hf by done.
        rewrite bool_decide_eq_true_2 in Hf by done.
        pose proof (quantity_le_total base db _ _ _ Hl Hb Hbt Hq) as Hq52.
        pose proof (Hx (instrument_ticker o)).
        pose proof (proj2 Hl _ _ Hq).
        rewrite (total_credit_quantity _ _ _ _ _ _ q) by done.
        rewrite float_add_exact by lia.
        repeat case_bool_decide; congruence || lia.
    + rewrite (frozen_bid base t o p) by done.
      pose proof (frozen_le_total base db _ _ base Hl Hb Ho) as Hf.
      rewrite (frozen_bid base _ _ p) in Hf by done.
      rewrite bool_decide_eq_true_2 in Hf by done.
      rewrite (total_credit_balance _ _ _ _ _ u) by done. rewrite Hp. simpl.
      rewrite float_add_exact by nia.
      case_bool_decide; lia.
  - rewrite cancel_order_endpoint_run in Hrun.
    destruct (users db !! uid); [|by inv_pair Hrun].
    destruct (orders db !! order_id) as [o|]; [|by inv_pair Hrun].
    repeat case_bool_decide; try by inv_pair Hrun.
    destruct (price o); by inv_pair Hrun.
Qed.

(** Alice withdraws her resting ask: 10 MEMCOIN and 1000 RUB before and
    after. *)
Lemma cancellation_conserves_holdings_witness :
  total RUB (run_request (cancel_order_endpoint RUB 1%positive alice) db_ask).2
    MEMCOIN = total RUB db_ask MEMCOIN
  ∧ total RUB (run_request (cancel_order_endpoint RUB 1%positive alice) db_ask).2
      RUB = total RUB db_ask RUB.
Proof.
  assert (Hrow : ∀ o, orders db_ask !! 1%positive = Some o →
            direction o = ASK → instrument_ticker o ≠ RUB →
            is_Some (inventories db_ask !! (user_id o, instrument_ticker o))).
  { intros o Ho _ _.
    assert (Hlk : orders db_ask !! 1%positive
                  = Some (mkOrder alice MEMCOIN 5 0 (Some 100) ASK NEW 1))
      by (by vm_compute).
    rewrite Hlk in Ho. injection Ho as <-. simpl.
    apply (bool_decide_unpack _). by vm_compute. }
  destruct ledger_db_ask as [Hl Hb].
  split; apply (cancellation_conserves_holdings RUB db_ask 1%positive alice
                  Hl Hb ledger_exact_db_ask Hrow).
Defined.

(** X10.  A cancellation happens once and only to an untouched order: a
    successful [DELETE /order/{id}] found the order NEW, owned by the caller
    and priced; it changes that one order row to CANCELLED, keeping its
    amount and filled quantity, and records no trade; and the same request
    repeated is answered 400 and changes nothing. *)
Theorem cancellation_is_one_shot
    (base : string) (db : Store) (order_id uid : UUID) (db1 : Store) :
  run_request (cancel_order_endpoint base order_id uid) db = (Ok tt, db1) →
  (∃ o, orders db !! order_id = Some o
     ∧ status o = NEW ∧ user_id o = uid ∧ is_Some (price o)
     ∧ orders db1
       = <[order_id := with_amount o (amount o) (filled o) CANCELLED]> (orders db)
     ∧ transactions db1 = transactions db)
  ∧ run_request (cancel_order_endpoint base order_id uid) db1
    = (Raise (HTTPException 400
                "Order already executed/partially_executed/cancelled"), db1).
Proof.
  intros Hrun.
  apply cancel_order_endpoint_ok in Hrun
    as (o & p & Hu & Ho & Hown & Hst & Hp & ->).
  split.
  - exists o. simpl. rewrite orders_unfreeze_residue, transactions_unfreeze_residue.
    repeat split; eauto.
  - rewrite cancel_order_endpoint_run. simpl.
    destruct (same_rows_unfreeze_residue base o db) as [Hrows _].
    apply Hrows in Hu as [u' Hu']. rewrite Hu'.
    rewrite lookup_insert_eq. cbv beta iota.
    rewrite bool_decide_false by (simpl; intros Hne; by destruct Hne).
    rewrite bool_decide_true; [done|]. simpl. status_solver.
Qed.

Lemma cancellation_is_one_shot_witness :
  run_request (cancel_order_endpoint RUB 1%positive alice)
    (run_request (cancel_order_endpoint RUB 1%positive alice) db_ask).2
  = (Raise (HTTPException 400
              "Order already executed/partially_executed/cancelled"),
     (run_request (cancel_order_endpoint RUB 1%positive alice) db_ask).2).
Proof.
  assert (Hrun :
    run_request (cancel_order_endpoint RUB 1%positive alice) db_ask
    = (Ok tt, (run_request (cancel_order_endpoint RUB 1%positive alice) db_ask).2))
    by (vm_compute; reflexivity).
  exact (proj2 (cancellation_is_one_shot RUB db_ask 1%positive alice _ Hrun)).
Defined.

(** ** Order rows over time *)

Lemma evolves_refl o : evolves o o.
Proof. by repeat split. Qed.

Lemma evolves_fill o o' amt o1 :
  evolves o o' → status o' ∈ [NEW; PARTIALLY_EXECUTED] →
  _partially_execute_order o' amt = Ok o1 → evolves o o1.
Proof.
  intros (Hu & Ht & Hp & Hd & Hc & Hq & Hfin) Hopen Ho1.
  apply _partially_execute_order_ok in Ho1 as [_ ->]. unfold with_amount. simpl.
  split; [done|]. split; [done|]. split; [done|]. split; [done|].
  split; [done|]. split; [cbn; lia|].
  intros Hcl. rewrite (Hfin Hcl) in Hopen. revert Hcl Hopen.
  destruct (status o); status_solver.
Qed.

Lemma orders_evolve_refl st : orders_evolve st st.
Proof.
  intros i. destruct (orders st !! i); constructor. apply evolves_refl.
Qed.

Lemma orders_evolve_same_orders st0 st st' :
  orders st' = orders st → orders_evolve st0 st → orders_evolve st0 st'.
Proof. unfold orders_evolve. by intros ->. Qed.

Lemma orders_evolve_set_order st0 st oid o o1 :
  orders_evolve st0 st → orders st !! oid = Some o →
  (∀ o0, evolves o0 o → evolves o0 o1) →
  orders_evolve st0 (set_order oid o1 st).
Proof.
  intros Hev Ho Hstep i. specialize (Hev i). simpl.
  destruct (decide (i = oid)) as [->|Hne].
  - rewrite lookup_insert_eq. rewrite Ho in Hev.
    inversion Hev as [o0 ? Hoo|]; subst. constructor. by apply Hstep.
  - by rewrite lookup_insert_ne.
Qed.

Lemma orders_evolve_lookup st0 st i o' :
  orders_evolve st0 st → orders st !! i = Some o' →
  ∃ o, orders st0 !! i = Some o ∧ evolves o o'.
Proof.
  intros Hev Ho'. specialize (Hev i). rewrite Ho' in Hev.
  inversion Hev; subst. eauto.
Qed.

Lemma orders_evolve_lookup_1 st0 st i o :
  orders_evolve st0 st → orders st0 !! i = Some o →
  ∃ o', orders st !! i = Some o' ∧ evolves o o'.
Proof.
  intros Hev Ho. specialize (Hev i). rewrite Ho in Hev.
  inversion Hev; subst. eauto.
Qed.

Lemma orders_evolve_None st0 st i :
  orders_evolve st0 st → orders st0 !! i = None → orders st !! i = None.
Proof.
  intros Hev Ho. specialize (Hev i). rewrite Ho in Hev. by inversion Hev.
Qed.

Section OrderRows.

Variable base : string.

Lemma buy_loop_orders_evolve st0 book n uid ticker lp s n' s' :
  book_ok (working s) book ASK ticker →
  orders_evolve st0 (working s) →
  buy_loop base book n uid ticker lp s = (Ok n', s') →
  orders_evolve st0 (working s').
Proof.
  intros Hbook Hev Hrun.
  refine (proj1 (buy_loop_invariant base (λ st _, orders_evolve st0 st)
                   uid ticker lp _ book n s n' s' Hbook Hev Hrun)).
  clear. intros st oid o m p ub o1 m1 Hev Hlk _ _ Hst _ _ _ _ _ _ Ho1 _.
  eapply orders_evolve_set_order.
  - eapply orders_evolve_same_orders; [apply orders_settle_buy|done].
  - by rewrite orders_settle_buy.
  - intros o0 Ho0. by eapply evolves_fill.
Qed.

Lemma sell_loop_orders_evolve st0 book n uid ticker lp s n' s' :
  book_ok (working s) book BID ticker →
  orders_evolve st0 (working s) →
  sell_loop book n uid ticker lp s = (Ok n', s') →
  orders_evolve st0 (working s').
Proof.
  intros Hbook Hev Hrun.
  refine (proj1 (sell_loop_invariant (λ st _, orders_evolve st0 st)
                   uid ticker lp _ book n s n' s' Hbook Hev Hrun)).
  clear. intros st oid o m p q o1 m1 Hev Hlk _ _ Hst _ _ _ _ _ _ _ Ho1 _.
  eapply orders_evolve_set_order.
  - eapply orders_evolve_same_orders; [apply orders_settle_sell|done].
  - by rewrite orders_settle_sell.
  - intros o0 Ho0. by eapply evolves_fill.
Qed.

(** A submission that succeeds leaves the table it found, each row in a
    later state, plus the new row at an identifier not used before. *)
Lemma submit_orders_evolve req uid now db oid n' s1 :
  submit base req uid now (mkSession db db) = (Ok (oid, n'), s1) →
  ∃ st, orders_evolve db st ∧ orders st !! oid = None
    ∧ orders (working s1) = <[oid := n']> (orders st).
Proof.
  rewrite submit_eq. destruct (rq_direction req); intros Hsub.
  - apply create_limit_buy_order_ok in Hsub as (s2 & s3 & Hloop & Hfr & -> & ->).
    apply (buy_loop_orders_evolve db) in Hloop;
      [|apply get_orders_book_ok|apply orders_evolve_refl].
    exists (working s3).
    assert (Ho : orders (working s3) = orders (working s2)).
    { case_bool_decide; [|by subst].
      destruct Hfr as [_ Hfr]. by eapply _freeze_balance_orders. }
    split; [by eapply orders_evolve_same_orders|].
    split; [apply fresh_order_id|done].
  - apply create_limit_sell_order_ok in Hsub as (s2 & s3 & Hloop & Hfr & -> & ->).
    apply (sell_loop_orders_evolve db) in Hloop;
      [|apply get_orders_book_ok|apply orders_evolve_refl].
    exists (working s3).
    assert (Ho : orders (working s3) = orders (working s2)).
    { case_bool_decide; [|by subst].
      destruct Hfr as [_ Hfr]. by eapply _freeze_balance_orders. }
    split; [by eapply orders_evolve_same_orders|].
    split; [apply fresh_order_id|done].
Qed.

Lemma create_order_orders_evolve req uid now db :
  ∃ st, orders_evolve db st
    ∧ match (run_request (create_order base req uid now) db).1 with
      | Ok oid =>
          orders st !! oid = None
          ∧ ∃ n', orders (run_request (create_order base req uid now) db).2
                  = <[oid := n']> (orders st)
      | Raise _ => (run_request (create_order base req uid now) db).2 = st
      end.
Proof.
  pose proof (create_order_stores_no_cancelled base req uid now db) as Hcases.
  destruct (run_request (create_order base req uid now) db) as [[oid|e] db1] eqn:Hrun;
    simpl in *.
  - clear Hcases.
    apply create_order_ok in Hrun as (_ & _ & _ & n' & s1 & Hsub & ->).
    apply submit_orders_evolve in Hsub as (st & Hev & Hnone & Ho). eauto.
  - exists db. split; [apply orders_evolve_refl|done].
Qed.

Lemma cancel_order_endpoint_orders_evolve order_id uid db :
  orders_evolve db (run_request (cancel_order_endpoint base order_id uid) db).2.
Proof.
  rewrite cancel_order_endpoint_run.
  destruct (users db !! uid); [|apply orders_evolve_refl].
  destruct (orders db !! order_id) as [o|] eqn:Ho; [|apply orders_evolve_refl].
  case_bool_decide; [apply orders_evolve_refl|].
  case_bool_decide as Hst; [apply orders_evolve_refl|].
  destruct (price o); [|apply orders_evolve_refl]. simpl.
  eapply orders_evolve_set_order.
  - eapply orders_evolve_same_orders;
      [apply orders_unfreeze_residue|apply orders_evolve_refl].
  - by rewrite orders_unfreeze_residue.
  - intros o0 (Hu & Ht & Hp & Hd & Hc & Hq & Hfin).
    unfold cancelled. simpl. repeat split; try done.
    intros Hcl. rewrite (Hfin Hcl) in Hst. destruct Hst. revert Hcl.
    destruct (status o); status_solver.
Qed.

End OrderRows.

(** X11.  The order endpoints never delete or rewrite history: after
    [POST /order] or [DELETE /order/{id}], every order row that was in the
    database is still there under its identifier, with the same owner,
    ticker, direction, price and creation time and the same amount plus
    filled; a row that was EXECUTED or CANCELLED is unchanged; and the only
    identifier that can be new is the one [POST /order] returns. *)
Theorem order_rows_only_move_forward
    (base : string) (db : Store) :
  (∀ req uid now i,
     let r := run_request (create_order base req uid now) db in
     match orders db !! i with
     | Some o => ∃ o', orders r.2 !! i = Some o' ∧ evolves o o'
     | None => orders r.2 !! i = None ∨ r.1 = Ok i
     end)
  ∧ (∀ order_id uid i,
       let r := run_request (cancel_order_endpoint base order_id uid) db in
       match orders db !! i with
       | Some o => ∃ o', orders r.2 !! i = Some o' ∧ evolves o o'
       | None => orders r.2 !! i = None
       end).
Proof.
  split.
  - intros req uid now i r. subst r.
    destruct (create_order_orders_evolve base req uid now db) as (st & Hev & Hr).
    destruct (run_request (create_order base req uid now) db) as [[oid|e] db1];
      simpl in *.
    + destruct Hr as (Hnone & n' & Ho).
      destruct (orders db !! i) as [o|] eqn:Hi.
      * destruct (orders_evolve_lookup_1 _ _ _ _ Hev Hi) as (o' & Ho' & Hoo').
        exists o'. split; [|done]. rewrite Ho.
        rewrite lookup_insert_ne by congruence. done.
      * destruct (decide (i = oid)) as [->|Hne]; [by right|left].
        rewrite Ho, lookup_insert_ne by done.
        by eapply orders_evolve_None.
    + subst db1. destruct (orders db !! i) as [o|] eqn:Hi.
      * by eapply orders_evolve_lookup_1.
      * left. by eapply orders_evolve_None.
  - intros order_id uid i r. subst r.
    pose proof (cancel_order_endpoint_orders_evolve base order_id uid db) as Hev.
    destruct (orders db !! i) as [o|] eqn:Hi.
    + by eapply orders_evolve_lookup_1.
    + by eapply orders_evolve_None.
Qed.

(** ** The book is never crossed *)

Lemma evolves_open o o' :
  evolves o o' → status o' ∈ [NEW; PARTIALLY_EXECUTED] →
  status o ∈ [NEW; PARTIALLY_EXECUTED].
Proof.
  intros (_ & _ & _ & _ & _ & _ & Hfin) Hopen.
  destruct (status o) eqn:Hst; try status_solver.
  - rewrite Hfin in Hopen by status_solver. rewrite Hst in Hopen.
    revert Hopen. status_solver.
  - rewrite Hfin in Hopen by status_solver. rewrite Hst in Hopen.
    revert Hopen. status_solver.
Qed.

Lemma uncrossed_evolve st0 st :
  uncrossed st0 → orders_evolve st0 st → uncrossed st.
Proof.
  intros Hun Hev ia a ib b pa pb Ha Hb Hsa Hsb Hda Hdb Ht Hpa Hpb.
  destruct (orders_evolve_lookup _ _ _ _ Hev Ha) as (a0 & Ha0 & Hea).
  destruct (orders_evolve_lookup _ _ _ _ Hev Hb) as (b0 & Hb0 & Heb).
  pose proof (evolves_open _ _ Hea Hsa) as Hsa0.
  pose proof (evolves_open _ _ Heb Hsb) as Hsb0.
  destruct Hea as (_ & Hta & Hpra & Hdira & _).
  destruct Heb as (_ & Htb & Hprb & Hdirb & _).
  eapply (Hun ia a0 ib b0); eauto; congruence.
Qed.

(** Adding a row that no open row of the other side of its ticker meets or
    betters keeps the book uncrossed. *)
Lemma uncrossed_insert st0 st st' oid n' :
  uncrossed st0 → orders_evolve st0 st →
  orders st' = <[oid := n']> (orders st) →
  (status n' ∈ [NEW; PARTIALLY_EXECUTED] →
   ∀ i o p L, orders st !! i = Some o →
     status o ∈ [NEW; PARTIALLY_EXECUTED] →
     instrument_ticker o = instrument_ticker n' →
     price o = Some p → price n' = Some L →
     match direction n' with
     | BID => direction o = ASK → L < p
     | ASK => direction o = BID → p < L
     end) →
  uncrossed st'.
Proof.
  intros Hun Hev Ho Hnew ia a ib b pa pb Ha Hb Hsa Hsb Hda Hdb Ht Hpa Hpb.
  rewrite Ho in Ha, Hb.
  destruct (decide (ia = oid)) as [->|Hia], (decide (ib = oid)) as [->|Hib].
  - rewrite lookup_insert_eq in Ha, Hb. congruence.
  - rewrite lookup_insert_eq in Ha. rewrite lookup_insert_ne in Hb by done.
    injection Ha as ->.
    specialize (Hnew Hsa ib b pb pa Hb Hsb (eq_sym Ht) Hpb Hpa).
    rewrite Hda in Hnew. by apply Hnew.
  - rewrite lookup_insert_eq in Hb. rewrite lookup_insert_ne in Ha by done.
    injection Hb as ->.
    specialize (Hnew Hsb ia a pa pb Ha Hsa Ht Hpa Hpb).
    rewrite Hdb in Hnew. by apply Hnew.
  - rewrite lookup_insert_ne in Ha, Hb by done.
    by eapply (uncrossed_evolve st0 st Hun Hev ia a ib b).
Qed.

Lemma buy_break_true n L o :
  L ≠ 0 → buy_break n (Some L) o = Ok true →
  amount n = 0 ∨ ∃ p, price o = Some p ∧ L < p.
Proof.
  intros HL. unfold buy_break, truthy.
  destruct (amount n =? 0) eqn:Hz; [left; by apply Z.eqb_eq|].
  rewrite (proj2 (Z.eqb_neq L 0)) by done. simpl.
  destruct (price o) as [p|]; [|done].
  intros [= Hlt]. right. exists p. split; [done|]. by apply Z.ltb_lt.
Qed.

Lemma sell_break_true n L o :
  L ≠ 0 → sell_break n (Some L) o = Ok true →
  amount n = 0 ∨ ∃ p, price o = Some p ∧ p < L.
Proof.
  intros HL. unfold sell_break, truthy.
  destruct (amount n =? 0) eqn:Hz; [left; by apply Z.eqb_eq|].
  rewrite (proj2 (Z.eqb_neq L 0)) by done. simpl.
  destruct (price o) as [p|]; [|done].
  intros [= Hlt]. right. exists p. split; [done|]. by apply Z.ltb_lt.
Qed.

Lemma fill_keeps_open_amount m amt m1 :
  (status m ∈ [NEW; PARTIALLY_EXECUTED] → 0 < amount m) →
  _partially_execute_order m amt = Ok m1 →
  (status m1 ∈ [NEW; PARTIALLY_EXECUTED] → 0 < amount m1).
Proof.
  intros _ Hm1. apply _partially_execute_order_ok in Hm1 as [Hle ->].
  unfold with_amount. cbn.
  destruct (amount m - amt =? 0) eqn:Hz; [status_solver|].
  apply Z.eqb_neq in Hz. intros _. lia.
Qed.

Lemma get_orders_complete st ticker d limit oid o :
  orders st !! oid = Some o →
  instrument_ticker o = ticker → direction o = d →
  status o ∈ [NEW; PARTIALLY_EXECUTED] →
  (oid, o) ∈ get_orders st ticker d limit None
  ∨ (length (get_orders st ticker d limit None) = limit
     ∧ ∀ row, row ∈ get_orders st ticker d limit None → book_le d row (oid, o)).
Proof.
  intros Ho Ht Hd Hs. unfold get_orders. simpl.
  set (l := merge_sort _ _).
  assert (Hin : (oid, o) ∈ l).
  { unfold l. rewrite merge_sort_Permutation.
    apply list_elem_of_filter. split.
    - by apply book_where_spec.
    - by apply elem_of_map_to_list. }
  assert (Hl : StronglySorted (book_le d) l)
    by (apply StronglySorted_merge_sort; apply _).
  rewrite <-(take_drop limit l) in Hin, Hl.
  apply elem_of_app in Hin as [Hin|Hin]; [by left|right]. split.
  - rewrite length_take. apply Nat.min_l.
    destruct (decide (limit ≤ length l)%nat) as [|Hn]; [done|].
    rewrite drop_ge in Hin by lia. by apply elem_of_nil in Hin.
  - intros row Hrow. by eapply StronglySorted_app_1_elem_of.
Qed.

Section Uncrossed.

Variable base : string.

(** An incoming BID that is left with a residue has emptied a prefix of the
    view, one unit at least per row, and stopped at the end of the view or
    at an ASK above its limit. *)
Lemma buy_loop_clears book n uid ticker L s n' s' :
  book_ok (working s) book ASK ticker →
  Forall (λ row : UUID * Order, 0 < amount row.2) book →
  L ≠ 0 → 0 < amount n' →
  buy_loop base book n uid ticker (Some L) s = (Ok n', s') →
  ∃ k : nat,
    amount n' + Z.of_nat k ≤ amount n
    ∧ (∀ row, row ∈ take k book →
         ∃ o1, orders (working s') !! row.1 = Some o1 ∧ status o1 = EXECUTED)
    ∧ (∀ i, i ∉ book.*1 → orders (working s') !! i = orders (working s) !! i)
    ∧ (k = length book
       ∨ ∃ row p, book !! k = Some row ∧ price row.2 = Some p ∧ L < p).
Proof.
  intros Hbook Hpos HL Hrest. revert n s Hbook.
  induction book as [|[oid o] rest IH]; intros n s Hbook Hrun.
  - simpl in Hrun. inv_pair Hrun. exists 0%nat. simpl.
    split; [lia|]. split; [by intros row Hin%elem_of_nil|]. split; [done|by left].
  - apply Forall_cons in Hpos as [Ho Hpos]. simpl in Ho.
    apply buy_loop_cons_ok in Hrun
      as [(Hbrk & -> & ->)|(p & ub & o1 & n1 & Hbrk & Hp & _ & _ & _ & _ & Ho1 & Hn1 & Hrun)].
    + apply (buy_break_true _ _ _ HL) in Hbrk as [Hz|(p & Hp & Hlt)]; [lia|].
      exists 0%nat. simpl. split; [lia|].
      split; [by intros row Hin%elem_of_nil|]. split; [done|].
      right. exists (oid, o), p. done.
    + assert (Hbook' : book_ok
                (set_order oid o1
                   (settle_buy (user_id o) uid ticker p
                      (Z.min (amount o) (amount n)) (working s)))
                rest ASK ticker).
      { eapply book_ok_tail; [done|]. simpl. by rewrite orders_settle_buy. }
      destruct Hbook as [Hnd _]. simpl in Hnd. apply NoDup_cons in Hnd as [Hnin _].
      destruct (IH Hpos _ (mkSession (committed s) _) Hbook' Hrun)
        as (k & Hk & Hex & Hframe & Hstop).
      simpl in Hframe.
      apply _partially_execute_order_ok in Ho1 as [_ ->].
      apply _partially_execute_order_ok in Hn1 as [_ ->].
      unfold with_amount in *. cbn in Hk.
      assert (Hmin : Z.min (amount o) (amount n) = amount o) by lia.
      exists (S k). split; [lia|]. split; [|split].
      * intros row Hin. simpl in Hin. apply elem_of_cons in Hin as [->|Hin].
        -- simpl. rewrite Hframe by done. rewrite lookup_insert_eq.
           eexists. split; [done|]. cbn. rewrite Hmin, Z.sub_diag. done.
        -- by apply Hex.
      * intros i Hi. simpl in Hi. apply not_elem_of_cons in Hi as [Hne Hi].
        rewrite Hframe by done. rewrite lookup_insert_ne by done.
        by rewrite orders_settle_buy.
      * destruct Hstop as [->|(row & p' & Hrow & Hp' & Hlt)]; [by left|].
        right. exists row, p'. done.
Qed.

Lemma sell_loop_clears book n uid ticker L s n' s' :
  book_ok (working s) book BID ticker →
  Forall (λ row : UUID * Order, 0 < amount row.2) book →
  L ≠ 0 → 0 < amount n' →
  sell_loop book n uid ticker (Some L) s = (Ok n', s') →
  ∃ k : nat,
    amount n' + Z.of_nat k ≤ amount n
    ∧ (∀ row, row ∈ take k book →
         ∃ o1, orders (working s') !! row.1 = Some o1 ∧ status o1 = EXECUTED)
    ∧ (∀ i, i ∉ book.*1 → orders (working s') !! i = orders (working s) !! i)
    ∧ (k = length book
       ∨ ∃ row p, book !! k = Some row ∧ price row.2 = Some p ∧ p < L).
Proof.
  intros Hbook Hpos HL Hrest. revert n s Hbook.
  induction book as [|[oid o] rest IH]; intros n s Hbook Hrun.
  - simpl in Hrun. inv_pair Hrun. exists 0%nat. simpl.
    split; [lia|]. split; [by intros row Hin%elem_of_nil|]. split; [done|by left].
  - apply Forall_cons in Hpos as [Ho Hpos]. simpl in Ho.
    apply sell_loop_cons_ok in Hrun
      as [(Hbrk & -> & ->)|(p & q & o1 & n1 & Hbrk & Hp & _ & _ & _ & _ & _ & Ho1 & Hn1 & Hrun)].
    + apply (sell_break_true _ _ _ HL) in Hbrk as [Hz|(p & Hp & Hlt)]; [lia|].
      exists 0%nat. simpl. split; [lia|].
      split; [by intros row Hin%elem_of_nil|]. split; [done|].
      right. exists (oid, o), p. done.
    + assert (Hbook' : book_ok
                (set_order oid o1
                   (settle_sell uid (user_id o) ticker p
                      (Z.min (amount o) (amount n)) (working s)))
                rest BID ticker).
      { eapply book_ok_tail; [done|]. simpl. by rewrite orders_settle_sell. }
      destruct Hbook as [Hnd _]. simpl in Hnd. apply NoDup_cons in Hnd as [Hnin _].
      destruct (IH Hpos _ (mkSession (committed s) _) Hbook' Hrun)
        as (k & Hk & Hex & Hframe & Hstop).
      simpl in Hframe.
      apply _partially_execute_order_ok in Ho1 as [_ ->].
      apply _partially_execute_order_ok in Hn1 as [_ ->].
      unfold with_amount in *. cbn in Hk.
      assert (Hmin : Z.min (amount o) (amount n) = amount o) by lia.
      exists (S k). split; [lia|]. split; [|split].
      * intros row Hin. simpl in Hin. apply elem_of_cons in Hin as [->|Hin].
        -- simpl. rewrite Hframe by done. rewrite lookup_insert_eq.
           eexists. split; [done|]. cbn. rewrite Hmin, Z.sub_diag. done.
        -- by apply Hex.
      * intros i Hi. simpl in Hi. apply not_elem_of_cons in Hi as [Hne Hi].
        rewrite Hframe by done. rewrite lookup_insert_ne by done.
        by rewrite orders_settle_sell.
      * destruct Hstop as [->|(row & p' & Hrow & Hp' & Hlt)]; [by left|].
        right. exists row, p'. done.
Qed.

(** What is left open on the other side after the loop is beyond the
    limit. *)
Lemma resting_beyond_limit (d : DirectionEnum) db ticker (qty : Z) L
    (st : Store) (amt : Z) (k : nat) i o p :
  let book := get_orders db ticker d (Z.to_nat qty) None in
  0 < amt → amt + Z.of_nat k ≤ qty →
  (∀ row, row ∈ take k book →
     ∃ o1, orders st !! row.1 = Some o1 ∧ status o1 = EXECUTED) →
  (∀ j, j ∉ book.*1 → orders st !! j = orders db !! j) →
  (k = length book
   ∨ ∃ row q, book !! k = Some row ∧ price row.2 = Some q
       ∧ match d with ASK => L < q | BID => q < L end) →
  orders_evolve db st →
  orders st !! i = Some o → status o ∈ [NEW; PARTIALLY_EXECUTED] →
  instrument_ticker o = ticker → direction o = d → price o = Some p →
  match d with ASK => L < p | BID => p < L end.
Proof.
  intros book Hamt Hk Hex Hframe Hstop Hev Ho Hopen Ht Hd Hp.
  destruct (orders_evolve_lookup _ _ _ _ Hev Ho) as (o0 & Ho0 & Hevo).
  pose proof (evolves_open _ _ Hevo Hopen) as Hopen0.
  destruct Hevo as (_ & Ht0 & Hp0 & Hd0 & _).
  assert (Hnot : (i, o0) ∉ take k book).
  { intros Hin. apply Hex in Hin as (o1 & Ho1 & Hst1). simpl in Ho1.
    assert (o1 = o) as -> by congruence.
    rewrite Hst1 in Hopen. revert Hopen. status_solver. }
  assert (Hcmp : ∀ row q, book !! k = Some row → price row.2 = Some q →
                  match d with ASK => q ≤ p | BID => p ≤ q end).
  { intros row q Hrow Hq.
    assert (Hle : book_le d row (i, o0)).
    { destruct (get_orders_complete db ticker d (Z.to_nat qty) i o0)
        as [Hin|[_ Hall]]; [done|congruence|congruence|done| |].
      - fold book in Hin. apply list_elem_of_lookup in Hin as [j Hj].
        destruct (decide (j < k)%nat) as [Hlt|Hge].
        + destruct Hnot. apply list_elem_of_lookup. exists j.
          by rewrite lookup_take_lt.
        + destruct (decide (j = k)) as [->|Hne].
          * assert (row = (i, o0)) as -> by congruence.
            destruct (book_le_total d (i, o0) (i, o0)); done.
          * eapply (StronglySorted_lookup_lt (book_le d) book k j);
              [apply get_orders_sorted|lia|done|done].
      - apply Hall. by eapply list_elem_of_lookup_2. }
    destruct (book_le_priced d row (i, o0) q p Hle Hq) as [Hord _];
      [simpl; congruence|].
    by destruct d. }
  destruct Hstop as [->|(row & q & Hrow & Hq & Hlt)].
  - exfalso. destruct (get_orders_complete db ticker d (Z.to_nat qty) i o0)
      as [Hin|[Hlen _]]; [done|congruence|congruence|done| |].
    + fold book in Hin. destruct Hnot. by rewrite firstn_all.
    + fold book in Hlen. lia.
  - specialize (Hcmp row q Hrow Hq). destruct d; lia.
Qed.

Lemma create_order_uncrossed req uid now db :
  book_pos db → uncrossed db →
  uncrossed (run_request (create_order base req uid now) db).2.
Proof.
  intros Hb Hun.
  pose proof (create_order_stores_no_cancelled base req uid now db) as Hcases.
  destruct (run_request (create_order base req uid now) db) as [[oid|e] db1] eqn:Hrun;
    simpl in Hcases; [|by subst db1].
  clear Hcases. simpl.
  apply create_order_ok in Hrun as (_ & Hv & _ & n' & s1 & Hsub & ->).
  assert (Hq : 0 < rq_qty req).
  { unfold valid_request in Hv. apply andb_true_iff in Hv as [Hv _].
    apply andb_true_iff in Hv as [_ Hv]. by apply Z.ltb_lt. }
  assert (HL : ∀ L, rq_price req = Some L → L ≠ 0).
  { intros L HL. unfold valid_request in Hv. rewrite HL in Hv.
    apply andb_true_iff in Hv as [_ Hv]. apply Z.ltb_lt in Hv. lia. }
  assert (Hbook : ∀ d,
            Forall (λ row : UUID * Order, 0 < amount row.2)
              (get_orders db (rq_ticker req) d (Z.to_nat (rq_qty req)) None)).
  { intros d. apply Forall_forall. intros row Hin.
    apply get_orders_elem in Hin as (Hlk & _ & _ & Hst).
    by destruct (Hb _ _ Hlk Hst). }
  rewrite submit_eq, (valid_effective_price _ Hv) in Hsub.
  destruct (rq_direction req).
  - apply create_limit_buy_order_ok in Hsub as (s2 & s3 & Hloop & Hfr & -> & ->).
    assert (Ho : orders (working s3) = orders (working s2)).
    { case_bool_decide; [|by subst].
      destruct Hfr as [_ Hfr]. by eapply _freeze_balance_orders. }
    pose proof Hloop as Hev.
    apply (buy_loop_orders_evolve base db) in Hev;
      [|apply get_orders_book_ok|apply orders_evolve_refl].
    pose proof Hloop as Hkeep.
    apply (buy_loop_keeps base
             (λ m, price m = rq_price req ∧ direction m = BID
                   ∧ instrument_ticker m = rq_ticker req
                   ∧ (status m ∈ [NEW; PARTIALLY_EXECUTED] → 0 < amount m)))
      in Hkeep as (Hpr & Hdir & Htk & Hopen).
    2:{ intros m amt m1 (? & ? & ? & Hm) Hm1.
        pose proof (fill_keeps_open_amount _ _ _ Hm Hm1).
        apply _partially_execute_order_ok in Hm1 as [_ ->]. done. }
    2:{ simpl. done. }
    eapply (uncrossed_insert db (working s2)); [done|done|simpl; by rewrite Ho|].
    intros Hst i o p L Hi Hsto Hto Hpo HpL. rewrite Hdir. intros Hdo.
    rewrite Hpr in HpL.
    pose proof Hloop as Hloop'. rewrite HpL in Hloop'.
    apply buy_loop_clears in Hloop' as (k & Hk & Hex & Hframe & Hstop);
      [|apply get_orders_book_ok|apply (Hbook ASK)|by apply HL|by apply Hopen].
    simpl in Hk, Hframe.
    eapply (resting_beyond_limit ASK db (rq_ticker req) (rq_qty req) L
              (working s2) (amount n') k i o p); eauto; congruence.
  - apply create_limit_sell_order_ok in Hsub as (s2 & s3 & Hloop & Hfr & -> & ->).
    assert (Ho : orders (working s3) = orders (working s2)).
    { case_bool_decide; [|by subst].
      destruct Hfr as [_ Hfr]. by eapply _freeze_balance_orders. }
    pose proof Hloop as Hev.
    apply (sell_loop_orders_evolve db) in Hev;
      [|apply get_orders_book_ok|apply orders_evolve_refl].
    pose proof Hloop as Hkeep.
    apply (sell_loop_keeps
             (λ m, price m = rq_price req ∧ direction m = ASK
                   ∧ instrument_ticker m = rq_ticker req
                   ∧ (status m ∈ [NEW; PARTIALLY_EXECUTED] → 0 < amount m)))
      in Hkeep as (Hpr & Hdir & Htk & Hopen).
    2:{ intros m amt m1 (? & ? & ? & Hm) Hm1.
        pose proof (fill_keeps_open_amount _ _ _ Hm Hm1).
        apply _partially_execute_order_ok in Hm1 as [_ ->]. done. }
    2:{ simpl. done. }
    eapply (uncrossed_insert db (working s2)); [done|done|simpl; by rewrite Ho|].
    intros Hst i o p L Hi Hsto Hto Hpo HpL. rewrite Hdir. intros Hdo.
    rewrite Hpr in HpL.
    pose proof Hloop as Hloop'. rewrite HpL in Hloop'.
    apply sell_loop_clears in Hloop' as (k & Hk & Hex & Hframe & Hstop);
      [|apply get_orders_book_ok|apply (Hbook BID)|by apply HL|by apply Hopen].
    simpl in Hk, Hframe.
    eapply (resting_beyond_limit BID db (rq_ticker req) (rq_qty req) L
              (working s2) (amount n') k i o p); eauto; congruence.
Qed.

End Uncrossed.

(** X12.  The book is never left crossed.  From a database in which every
    open order has a positive residue and, if priced, a positive price, and
    in which no open BID is priced at or above an open ASK of its ticker,
    [POST /order] and [DELETE /order/{id}] lead to a database with no open
    BID at or above an open ASK of its ticker: an incoming order rests only
    after every resting order it could trade with has been filled in
    full. *)
Theorem order_requests_keep_book_uncrossed
    (base : string) (db : Store) :
  book_pos db → uncrossed db →
  (∀ req uid now, uncrossed (run_request (create_order base req uid now) db).2)
  ∧ (∀ order_id uid,
       uncrossed (run_request (cancel_order_endpoint base order_id uid) db).2).
Proof.
  intros Hb Hun. split.
  - intros. by apply create_order_uncrossed.
  - intros. eapply uncrossed_evolve; [done|].
    apply cancel_order_endpoint_orders_evolve.
Qed.

(** Alice's ask rests in the empty book and Bob's bid takes it in full
    before resting: neither database is crossed. *)
Lemma order_requests_keep_book_uncrossed_witness :
  uncrossed db_ask ∧ uncrossed db_partial.
Proof.
  assert (Hl : ledger_nonneg db_funded).
  { split.
    - change (map_Forall (λ (_ : UUID) (u : User), 0 ≤ balance u)
                (users db_funded)).
      apply (bool_decide_unpack _). by vm_compute.
    - change (map_Forall (λ (_ : UUID * string) (q : Z), 0 ≤ q)
                (inventories db_funded)).
      apply (bool_decide_unpack _). by vm_compute. }
  assert (Hb : book_pos db_funded).
  { intros oid o Hlk. simpl in Hlk. by rewrite lookup_empty in Hlk. }
  assert (Hun : uncrossed db_funded).
  { intros ia a ib b pa pb Ha. simpl in Ha. by rewrite lookup_empty in Ha. }
  destruct (order_requests_keep_book_uncrossed RUB db_funded Hb Hun) as [Hask _].
  specialize (Hask (mkCreateOrderRequest SELL MEMCOIN 5 (Some 100)) alice 1).
  split; [exact Hask|].
  destruct (create_order_nonneg RUB
              (mkCreateOrderRequest SELL MEMCOIN 5 (Some 100)) alice 1
              db_funded Hl Hb) as [_ Hb1].
  destruct (order_requests_keep_book_uncrossed RUB db_ask Hb1 Hask) as [Hbid _].
  exact (Hbid (mkCreateOrderRequest BUY MEMCOIN 8 (Some 100)) bob 2).
Defined.

(** ** The published order book *)

Lemma qty_at_absent p rows :
  p ∉ (λ row : UUID * Order, price row.2) <$> rows → qty_at p rows = 0.
Proof.
  induction rows as [|row rows IH]; [done|]. simpl.
  intros Hn. apply not_elem_of_cons in Hn as [Hne Hn].
  rewrite bool_decide_false by congruence. rewrite IH by done. lia.
Qed.

Lemma foldl_aggregate_step_lookup rows acc k :
  foldl aggregate_step acc rows !! k
  = if bool_decide (k ∈ (λ row : UUID * Order, price row.2) <$> rows)
    then Some (default 0 (acc !! k) + qty_at k rows)
    else acc !! k.
Proof.
  revert acc. induction rows as [|row rows IH]; intros acc; [done|].
  simpl. rewrite IH. unfold aggregate_step.
  destruct (decide (price row.2 = k)) as [<-|Hne].
  - rewrite lookup_insert_eq. simpl.
    rewrite (bool_decide_true (_ ∈ _ :: _)) by (apply elem_of_cons; by left).
    rewrite (bool_decide_true (price row.2 = price row.2)) by done.
    case_bool_decide as Hin; f_equal; [lia|].
    rewrite qty_at_absent by done. lia.
  - rewrite lookup_insert_ne by done.
    rewrite (bool_decide_false (price row.2 = k)) by done.
    assert (Hiff : k ∈ price row.2 :: ((λ row : UUID * Order, price row.2) <$> rows)
                   ↔ k ∈ (λ row : UUID * Order, price row.2) <$> rows).
    { rewrite elem_of_cons. intuition congruence. }
    rewrite (bool_decide_ext _ _ Hiff). case_bool_decide; [f_equal; lia|done].
Qed.

Lemma aggregate_lookup rows k q :
  aggregate rows !! k = Some q
  ↔ (∃ row, row ∈ rows ∧ price row.2 = k) ∧ q = qty_at k rows.
Proof.
  unfold aggregate. rewrite foldl_aggregate_step_lookup, lookup_empty. simpl.
  case_bool_decide as Hin.
  - apply list_elem_of_fmap in Hin as (row & -> & Hin). split.
    + intros [= <-]. split; [eauto|lia].
    + intros [_ ->]; f_equal; lia.
  - split; [done|]. intros [(row & Hrow & <-) _]. destruct Hin.
    apply list_elem_of_fmap. eauto.
Qed.

Lemma to_level_Some item lv :
  to_level item = Some lv ↔ item = (Some (lv_price lv), lv_qty lv).
Proof.
  destruct item as [[p|] q], lv as [p' q']; unfold to_level; simpl;
    split; intros H; try done; by injection H as -> ->.
Qed.

Global Instance level_le_total d : Total (level_le d).
Proof.
  intros a b. unfold level_le, level_leb. destruct d; leb_cases; simpl; tauto || lia.
Qed.

Global Instance level_le_trans d : Transitive (level_le d).
Proof.
  intros a b c. unfold level_le, level_leb.
  destruct d; leb_cases; simpl; tauto || lia.
Qed.

Lemma StronglySorted_strict d (l : list OrderbookLevel) :
  StronglySorted (level_le d) l → NoDup (lv_price <$> l) →
  StronglySorted (level_lt d) l.
Proof.
  induction 1 as [|x l Hs IH Hall]; intros Hnd; [constructor|].
  simpl in Hnd. apply NoDup_cons in Hnd as [Hnin Hnd].
  constructor; [by apply IH|].
  rewrite Forall_forall in Hall. apply Forall_forall. intros y Hy.
  specialize (Hall y Hy).
  assert (lv_price x ≠ lv_price y).
  { intros Heq. apply Hnin. rewrite Heq. apply list_elem_of_fmap. eauto. }
  unfold level_le, level_leb in Hall. unfold level_lt.
  destruct d; leb_cases; simpl in Hall; try done; lia.
Qed.

Lemma aggregate_orders_Some st ticker d limit levels :
  aggregate_orders st ticker d limit = Some levels →
  StronglySorted (level_le d) levels
  ∧ NoDup (lv_price <$> levels)
  ∧ length levels = size (aggregate (get_orders st ticker d limit None))
  ∧ ∀ lv, lv ∈ levels ↔
      aggregate (get_orders st ticker d limit None) !! Some (lv_price lv)
      = Some (lv_qty lv).
Proof.
  unfold aggregate_orders. cbv zeta.
  set (agg := aggregate _).
  destruct (mapM to_level (map_to_list agg)) as [items|] eqn:Hm; [|done].
  simpl. intros [= <-]. apply mapM_Some in Hm.
  assert (Hitems : map_to_list agg
                   = (λ lv, (Some (lv_price lv), lv_qty lv)) <$> items).
  { clear -Hm. induction Hm as [|item lv l k Hx _ IH]; [done|].
    simpl. apply to_level_Some in Hx. rewrite Hx. f_equal. exact IH. }
  split; [by (apply StronglySorted_merge_sort; apply _)|].
  split; [|split].
  - rewrite merge_sort_Permutation.
    pose proof (NoDup_fst_map_to_list agg) as Hnd. rewrite Hitems in Hnd.
    rewrite <-list_fmap_compose in Hnd.
    apply (NoDup_fmap_1 Some). by rewrite <-list_fmap_compose.
  - rewrite merge_sort_Permutation.
    rewrite <-(length_map_to_list agg), Hitems. by rewrite length_fmap.
  - intros lv. rewrite merge_sort_Permutation.
    rewrite <-elem_of_map_to_list, Hitems. split.
    + intros Hin. apply list_elem_of_fmap. eauto.
    + intros Hin. apply list_elem_of_fmap in Hin as (lv' & Heq & Hin).
      destruct lv, lv'. simpl in Heq. by injection Heq as -> ->.
Qed.

Lemma aggregate_orders_None st ticker d limit :
  aggregate_orders st ticker d limit = None →
  ∃ row, row ∈ get_orders st ticker d limit None ∧ price row.2 = None.
Proof.
  unfold aggregate_orders. cbv zeta.
  set (agg := aggregate _).
  destruct (mapM to_level (map_to_list agg)) as [items|] eqn:Hm; [done|].
  intros _. apply mapM_None in Hm. apply Exists_exists in Hm as ([k q] & Hin & Hk).
  apply elem_of_map_to_list in Hin.
  destruct k as [p|]; [done|].
  apply aggregate_lookup in Hin as [(row & Hrow & Hp) _]. eauto.
Qed.

Lemma size_aggregate rows : (size (aggregate rows) ≤ length rows)%nat.
Proof.
  unfold aggregate.
  assert (H : ∀ acc, (size (foldl aggregate_step acc rows)
                      ≤ size acc + length rows)%nat).
  { induction rows as [|row rows IH]; intros acc; simpl; [lia|].
    etrans; [apply IH|]. unfold aggregate_step.
    destruct (acc !! price row.2) eqn:Hk.
    - rewrite map_size_insert_Some by done. lia.
    - rewrite map_size_insert_None by done. lia. }
  specialize (H ∅). by rewrite map_size_empty in H.
Qed.

(** X13.  One side of the published book.  When [aggregate_orders] answers,
    its levels are in strict price order (rising for ASK, falling for BID),
    so no price appears twice; a level (p, q) is listed exactly when some
    order of the view is priced p, and q is then the sum of the residues of
    the view's orders priced p; and there are at most [limit] levels, the
    limit bounding the orders read, not the levels.  It fails exactly when
    the view holds an order without a price. *)
Theorem orderbook_levels_aggregate_the_view
    (st : Store) (ticker : string) (d : DirectionEnum) (limit : nat) :
  let view := get_orders st ticker d limit None in
  match aggregate_orders st ticker d limit with
  | Some levels =>
      StronglySorted (level_lt d) levels
      ∧ (∀ p q, mkOrderbookLevel p q ∈ levels
           ↔ (∃ row, row ∈ view ∧ price row.2 = Some p)
             ∧ q = qty_at (Some p) view)
      ∧ (length levels ≤ limit)%nat
      ∧ ∀ row, row ∈ view → is_Some (price row.2)
  | None => ∃ row, row ∈ view ∧ price row.2 = None
  end.
Proof.
  intros view.
  destruct (aggregate_orders st ticker d limit) as [levels|] eqn:Hagg;
    [|by apply aggregate_orders_None].
  pose proof Hagg as Hsome.
  apply aggregate_orders_Some in Hsome as (Hs & Hnd & Hlen & Hin).
  fold view in Hlen, Hin.
  split; [by apply StronglySorted_strict|]. split; [|split].
  - intros p q. rewrite Hin. simpl. apply aggregate_lookup.
  - rewrite Hlen. etrans; [apply size_aggregate|].
    unfold view, get_orders. rewrite length_take. lia.
  - intros row Hrow. destruct (price row.2) as [p|] eqn:Hp; [eauto|].
    exfalso.
    assert (Hk : is_Some (aggregate view !! None)).
    { destruct (aggregate view !! None) as [q|] eqn:Hq; [eauto|].
      pose proof (proj2 (aggregate_lookup view None (qty_at None view))) as Hl.
      rewrite Hq in Hl. discriminate Hl. split; [eauto|done]. }
    destruct Hk as [q Hq].
    unfold aggregate_orders in Hagg. cbv zeta in Hagg. fold view in Hagg.
    destruct (mapM to_level (map_to_list (aggregate view))) as [items|] eqn:Hm;
      [|done].
    apply mapM_Some in Hm. apply elem_of_map_to_list in Hq.
    apply list_elem_of_lookup in Hq as [i Hi].
    destruct (Forall2_lookup_l _ _ _ _ _ Hm Hi) as (lv & _ & Hlv).
    done.
Qed.

Lemma get_orderbook_run ticker limit db :
  run_request (get_orderbook ticker limit) db
  = (if bool_decide (ticker ∈ instruments db) then
       Ok (bids ← aggregate_orders db ticker BID limit;
           asks ← aggregate_orders db ticker ASK limit;
           Some (mkOrderbookResponse bids asks))
     else
       Raise (HTTPException 404
                (String.append "Instrument with ticker '"
                   (String.append ticker "' not found"))),
     db).
Proof.
  unfold run_request, get_orderbook, get_instrument_by_ticker.
  unfold mbind, Sess_bind, read, raise, mret, Sess_ret. simpl.
  by case_bool_decide.
Qed.

Lemma level_in_view st ticker d limit levels lv :
  aggregate_orders st ticker d limit = Some levels → lv ∈ levels →
  ∃ oid o, orders st !! oid = Some o
    ∧ instrument_ticker o = ticker ∧ direction o = d
    ∧ status o ∈ [NEW; PARTIALLY_EXECUTED]
    ∧ price o = Some (lv_price lv).
Proof.
  intros Hagg Hlv.
  apply aggregate_orders_Some in Hagg as (_ & _ & _ & Hin).
  apply Hin, aggregate_lookup in Hlv as [([oid o] & Hrow & Hp) _].
  apply get_orders_elem in Hrow as (Hlk & Ht & Hd & Hst). simpl in *.
  eauto 10.
Qed.

(** X14.  [GET /orderbook/{ticker}] answers 404 for an unknown ticker and
    never changes the database; and when no open BID of the database is at
    or above an open ASK of its ticker, every bid level it publishes is
    priced strictly below every ask level. *)
Theorem published_book_is_uncrossed
    (ticker : string) (limit : nat) (db : Store) :
  uncrossed db →
  (run_request (get_orderbook ticker limit) db).2 = db
  ∧ (ticker ∉ instruments db →
     (run_request (get_orderbook ticker limit) db).1
     = Raise (HTTPException 404
                (String.append "Instrument with ticker '"
                   (String.append ticker "' not found"))))
  ∧ ∀ resp b a,
      (run_request (get_orderbook ticker limit) db).1 = Ok (Some resp) →
      b ∈ bid_levels resp → a ∈ ask_levels resp →
      lv_price b < lv_price a.
Proof.
  intros Hun. rewrite get_orderbook_run. simpl.
  split; [done|]. split.
  - intros Hnot. by rewrite bool_decide_false.
  - intros resp b a Hok Hb Ha.
    case_bool_decide; [|done]. injection Hok as Hok.
    destruct (aggregate_orders db ticker BID limit) as [bids|] eqn:Hbids; [|done].
    destruct (aggregate_orders db ticker ASK limit) as [asks|] eqn:Hasks; [|done].
    simpl in Hok. injection Hok as <-. simpl in Hb, Ha.
    destruct (level_in_view _ _ _ _ _ _ Hbids Hb)
      as (ib & ob & Hob & Htb & Hdb & Hsb & Hpb).
    destruct (level_in_view _ _ _ _ _ _ Hasks Ha)
      as (ia & oa & Hoa & Hta & Hda & Hsa & Hpa).
    eapply (Hun ia oa ib ob); eauto. congruence.
Qed.

(** Alice's ask at 100 and Bob's bid at 50 both rest: the published book
    shows 4 bid at 50 below 5 offered at 100. *)
Lemma published_book_is_uncrossed_witness :
  ∃ db,
    db = (run_request
            (create_order RUB (mkCreateOrderRequest BUY MEMCOIN 4 (Some 50)) bob 2)
            db_ask).2
    ∧ (run_request (get_orderbook MEMCOIN 10) db).1
      = Ok (Some (mkOrderbookResponse [mkOrderbookLevel 50 4]
                                      [mkOrderbookLevel 100 5]))
    ∧ lv_price (mkOrderbookLevel 50 4) < lv_price (mkOrderbookLevel 100 5).
Proof.
  eexists. split; [reflexivity|].
  set (db := (run_request _ db_ask).2).
  assert (Hl : ledger_nonneg db_funded).
  { split.
    - change (map_Forall (λ (_ : UUID) (u : User), 0 ≤ balance u)
                (users db_funded)).
      apply (bool_decide_unpack _). by vm_compute.
    - change (map_Forall (λ (_ : UUID * string) (q : Z), 0 ≤ q)
                (inventories db_funded)).
      apply (bool_decide_unpack _). by vm_compute. }
  assert (Hb : book_pos db_funded).
  { intros oid o Hlk. simpl in Hlk. by rewrite lookup_empty in Hlk. }
  assert (Hun : uncrossed db_funded).
  { intros ia a ib b pa pb Ha. simpl in Ha. by rewrite lookup_empty in Ha. }
  assert (Hun1 : uncrossed db_ask)
    by (by apply (create_order_uncrossed RUB)).
  assert (Hb1 : book_pos db_ask)
    by (by apply (create_order_nonneg RUB)).
  assert (Hun2 : uncrossed db)
    by (by apply (create_order_uncrossed RUB)).
  assert (Hresp : (run_request (get_orderbook MEMCOIN 10) db).1
                  = Ok (Some (mkOrderbookResponse [mkOrderbookLevel 50 4]
                                                  [mkOrderbookLevel 100 5])))
    by (vm_compute; reflexivity).
  split; [exact Hresp|].
  destruct (published_book_is_uncrossed MEMCOIN 10 db Hun2) as (_ & _ & Hlt).
  apply (Hlt _ _ _ Hresp); simpl; apply elem_of_cons; by left.
Defined.

(** ** New users and new instruments *)

Section NewRows.

Variable base : string.

Lemma total_add_inventory uid ticker st t :
  inventories st !! (uid, ticker) = None
  ∨ inventories st !! (uid, ticker) = Some 0 →
  total base (add_inventory uid ticker st) t = total base st t.
Proof.
  intros Hrow. unfold total, available_total, frozen_total. simpl.
  case_bool_decide; [done|]. f_equal.
  destruct Hrow as [Hrow|Hrow].
  - rewrite msum_insert_fresh by done. simpl. by case_bool_decide.
  - rewrite (msum_insert _ _ _ 0) by done. simpl. case_bool_decide; lia.
Qed.

Lemma total_add_user uid u st t :
  users st !! uid = None → balance u = 0 →
  total base (add_user uid u st) t = total base st t.
Proof.
  intros Hrow Hb. unfold total, available_total, frozen_total. simpl.
  case_bool_decide; [|done]. f_equal.
  rewrite msum_insert_fresh by done. lia.
Qed.

Lemma total_add_instrument ticker st t :
  total base (add_instrument ticker st) t = total base st t.
Proof. reflexivity. Qed.

(** Rows of one user, one per ticker of a list. *)
Lemma foldl_add_inventory_tickers uid l st :
  let st' := foldl (λ st ticker, add_inventory uid ticker st) st l in
  users st' = users st ∧ instruments st' = instruments st
  ∧ orders st' = orders st ∧ transactions st' = transactions st
  ∧ (∀ k, inventories st' !! k
          = if bool_decide (k.1 = uid ∧ k.2 ∈ l) then Some 0
            else inventories st !! k)
  ∧ ((∀ t, t ∈ l → inventories st !! (uid, t) = None
                    ∨ inventories st !! (uid, t) = Some 0) →
     ∀ t, total base st' t = total base st t).
Proof.
  revert st. induction l as [|x l IH]; intros st; simpl.
  - repeat split; try done.
    intros k. rewrite bool_decide_false; [done|].
    intros [_ Hin]. by apply elem_of_nil in Hin.
  - destruct (IH (add_inventory uid x st)) as (Hu & Hi & Ho & Htx & Hinv & Htot).
    simpl in *. repeat split; try done.
    + intros [u t]. rewrite Hinv. simpl.
      destruct (decide ((u, t) = (uid, x))) as [[= -> ->]|Hne].
      * rewrite lookup_insert_eq.
        rewrite (bool_decide_true (uid = uid ∧ x ∈ x :: l))
          by (split; [done|apply elem_of_cons; by left]).
        by case_bool_decide.
      * rewrite lookup_insert_ne by done.
        assert (Hiff : (u = uid ∧ t ∈ l) ↔ (u = uid ∧ t ∈ x :: l)).
        { rewrite elem_of_cons. split; [intros [-> Hin]; eauto|].
          intros [-> [->|Hin]]; [by destruct Hne|eauto]. }
        by rewrite (bool_decide_ext _ _ Hiff).
    + intros Hrows t. rewrite Htot.
      * apply total_add_inventory. apply Hrows. apply elem_of_cons. by left.
      * intros t' Ht'.
        destruct (decide (t' = x)) as [->|Hne].
        -- right. apply lookup_insert_eq.
        -- rewrite lookup_insert_ne by congruence.
           apply Hrows. apply elem_of_cons. by right.
Qed.

(** Rows of one ticker, one per user of a list. *)
Lemma foldl_add_inventory_users ticker l st :
  let st' := foldl (λ st uid, add_inventory uid ticker st) st l in
  users st' = users st ∧ instruments st' = instruments st
  ∧ orders st' = orders st ∧ transactions st' = transactions st
  ∧ (∀ k, inventories st' !! k
          = if bool_decide (k.2 = ticker ∧ k.1 ∈ l) then Some 0
            else inventories st !! k)
  ∧ ((∀ uid, uid ∈ l → inventories st !! (uid, ticker) = None
                        ∨ inventories st !! (uid, ticker) = Some 0) →
     ∀ t, total base st' t = total base st t).
Proof.
  revert st. induction l as [|x l IH]; intros st; simpl.
  - repeat split; try done.
    intros k. rewrite bool_decide_false; [done|].
    intros [_ Hin]. by apply elem_of_nil in Hin.
  - destruct (IH (add_inventory x ticker st)) as (Hu & Hi & Ho & Htx & Hinv & Htot).
    simpl in *. repeat split; try done.
    + intros [u t]. rewrite Hinv. simpl.
      destruct (decide ((u, t) = (x, ticker))) as [[= -> ->]|Hne].
      * rewrite lookup_insert_eq.
        rewrite (bool_decide_true (ticker = ticker ∧ x ∈ x :: l))
          by (split; [done|apply elem_of_cons; by left]).
        by case_bool_decide.
      * rewrite lookup_insert_ne by done.
        assert (Hiff : (t = ticker ∧ u ∈ l) ↔ (t = ticker ∧ u ∈ x :: l)).
        { rewrite elem_of_cons. split; [intros [-> Hin]; eauto|].
          intros [-> [->|Hin]]; [by destruct Hne|eauto]. }
        by rewrite (bool_decide_ext _ _ Hiff).
    + intros Hrows t. rewrite Htot.
      * apply total_add_inventory. apply Hrows. apply elem_of_cons. by left.
      * intros u' Hu'.
        destruct (decide (u' = x)) as [->|Hne].
        -- right. apply lookup_insert_eq.
        -- rewrite lookup_insert_ne by congruence.
           apply Hrows. apply elem_of_cons. by right.
Qed.

End NewRows.

Lemma create_user_eq name role s :
  create_user name role s
  = (Ok (fresh (dom (users (working s))), mkUser name role 0),
     mkSession (committed s)
       (foldl (λ st ticker,
                 add_inventory (fresh (dom (users (working s)))) ticker st)
          (add_user (fresh (dom (users (working s)))) (mkUser name role 0)
             (working s))
          (elements (instruments (working s))))).
Proof. reflexivity. Qed.

Lemma create_instrument_eq name ticker s :
  create_instrument name ticker s
  = if (100 <? String.length name)%nat || (10 <? String.length ticker)%nat
    then (Raise (DBAPIError "value too long for type character varying"), s)
    else if bool_decide (ticker ∈ instruments (working s))
    then (Raise (DBAPIError "duplicate key value violates unique constraint"),
          s)
    else
      (Ok ticker,
       mkSession (committed s)
         (foldl (λ st uid, add_inventory uid ticker st)
            (add_instrument ticker (working s))
            (map_to_list (users (working s))).*1)).
Proof.
  unfold create_instrument. unfold mbind at 1, Sess_bind at 1, read at 1.
  destruct (_ || _); [by destruct s|].
  case_bool_decide; [by destruct s|]. by destruct s.
Qed.

Lemma fresh_user_id (st : Store) : users st !! fresh (dom (users st)) = None.
Proof. apply not_elem_of_dom. apply is_fresh. Qed.

Lemma elem_of_user_ids (st : Store) uid :
  uid ∈ (map_to_list (users st)).*1 ↔ is_Some (users st !! uid).
Proof.
  rewrite list_elem_of_fmap. split.
  - intros ([k u] & -> & Hin). apply elem_of_map_to_list in Hin. eauto.
  - intros [u Hu]. exists (uid, u). split; [done|]. by apply elem_of_map_to_list.
Qed.

(** X15.  A new user starts empty.  [UserRepository.create_user] succeeds
    with an identifier not in use, stores the user with balance 0 and one
    inventory row of quantity 0 for every listed instrument, changes no
    other user row, inventory row, order or trade, commits nothing, and
    leaves the total of every ticker as it was; the foreign keys of the
    inventory rows still hold, and if every user held a row for every
    listed instrument before, every user does after. *)
Theorem new_user_starts_empty
    (base : string) (name : string) (role : RoleEnum) (s : Session) :
  inventory_fk (working s) →
  ∃ new_id s',
    create_user name role s = (Ok (new_id, mkUser name role 0), s')
    ∧ committed s' = committed s
    ∧ users (working s) !! new_id = None
    ∧ users (working s') = <[new_id := mkUser name role 0]> (users (working s))
    ∧ (∀ uid t,
         inventories (working s') !! (uid, t)
         = if bool_decide (uid = new_id ∧ t ∈ instruments (working s))
           then Some 0 else inventories (working s) !! (uid, t))
    ∧ instruments (working s') = instruments (working s)
    ∧ orders (working s') = orders (working s)
    ∧ transactions (working s') = transactions (working s)
    ∧ (∀ t, total base (working s') t = total base (working s) t)
    ∧ inventory_fk (working s')
    ∧ (inventory_complete (working s) → inventory_complete (working s')).
Proof.
  intros Hfk. rewrite create_user_eq.
  set (new_id := fresh (dom (users (working s)))).
  assert (Hnew : users (working s) !! new_id = None) by apply fresh_user_id.
  eexists new_id, _. split; [reflexivity|]. simpl.
  destruct (foldl_add_inventory_tickers base new_id
              (elements (instruments (working s)))
              (add_user new_id (mkUser name role 0) (working s)))
    as (Hu & Hi & Ho & Htx & Hinv & Htot).
  simpl in *.
  assert (Hrows : ∀ uid t,
    inventories
      (foldl (λ st ticker, add_inventory new_id ticker st)
         (add_user new_id (mkUser name role 0) (working s))
         (elements (instruments (working s)))) !! (uid, t)
    = if bool_decide (uid = new_id ∧ t ∈ instruments (working s))
      then Some 0 else inventories (working s) !! (uid, t)).
  { intros uid t. rewrite Hinv. simpl.
    apply (f_equal (λ b : bool, if b then Some 0 else _)).
    apply bool_decide_ext. by rewrite elem_of_elements. }
  split; [done|]. split; [done|]. split; [done|]. split; [done|].
  split; [done|]. split; [done|]. split; [done|]. split; [|split].
  - intros t. rewrite Htot.
    + by apply total_add_user.
    + intros t' _. left.
      destruct (inventories (working s) !! (new_id, t')) as [q|] eqn:Hq; [|done].
      destruct (Hfk new_id t') as [[u Hu'] _]; [eauto|]. congruence.
  - intros uid t. rewrite Hrows, Hu, Hi.
    case_bool_decide as Hk.
    + destruct Hk as [-> Ht]. intros _. split; [|done].
      rewrite lookup_insert_eq. eauto.
    + intros Hrow. destruct (Hfk uid t Hrow) as [[u Hu'] Ht]. split; [|done].
      destruct (decide (uid = new_id)) as [->|Hne]; [congruence|].
      rewrite lookup_insert_ne by done. eauto.
  - intros Hc uid t. rewrite Hrows, Hu, Hi. intros Huid Ht.
    case_bool_decide as Hk; [eauto|].
    apply Hc; [|done].
    destruct (decide (uid = new_id)) as [->|Hne]; [by destruct Hk|].
    by rewrite lookup_insert_ne in Huid.
Qed.

Lemma inventory_fk_db_funded : inventory_fk db_funded.
Proof.
  assert (H : map_Forall
                (λ (k : UUID * string) (_ : Z),
                   is_Some (users db_funded !! k.1) ∧ k.2 ∈ instruments db_funded)
                (inventories db_funded)).
  { apply (bool_decide_unpack _). by vm_compute. }
  intros uid t [q Hq]. exact (H (uid, t) q Hq).
Qed.

(** A user registered on the funded database holds 0 MEMCOIN, and the
    MEMCOIN in existence are as many as before. *)
Lemma new_user_starts_empty_witness :
  ∃ new_id s',
    create_user "carol" USER (mkSession db_funded db_funded)
    = (Ok (new_id, mkUser "carol" USER 0), s')
    ∧ inventories (working s') !! (new_id, MEMCOIN) = Some 0
    ∧ total RUB (working s') MEMCOIN = total RUB db_funded MEMCOIN.
Proof.
  destruct (new_user_starts_empty RUB "carol" USER (mkSession db_funded db_funded)
              inventory_fk_db_funded)
    as (new_id & s' & Hrun & _ & _ & _ & Hrows & _ & _ & _ & Htot & _).
  exists new_id, s'. split; [exact Hrun|]. split; [|apply Htot].
  rewrite Hrows. rewrite bool_decide_true; [done|].
  split; [done|]. apply (bool_decide_unpack _). by vm_compute.
Defined.

(** X16.  A new instrument starts empty.  [InstrumentRepository.
    create_instrument], called with a name of at most 100 characters and a
    ticker of at most 10 characters (the widths of the two columns) that is
    not yet listed, lists it, stores one inventory row of quantity 0 for
    every user, changes no user row, no other inventory row, no order and no
    trade, commits nothing, and leaves the total of every ticker as it was;
    the foreign keys of the inventory rows still hold, and if every user
    held a row for every listed instrument before, every user does after. *)
Theorem new_instrument_starts_empty
    (base : string) (name ticker : string) (s : Session) :
  (String.length name ≤ 100)%nat →
  (String.length ticker ≤ 10)%nat →
  ticker ∉ instruments (working s) →
  inventory_fk (working s) →
  ∃ s',
    create_instrument name ticker s = (Ok ticker, s')
    ∧ committed s' = committed s
    ∧ instruments (working s') = {[ticker]} ∪ instruments (working s)
    ∧ users (working s') = users (working s)
    ∧ (∀ uid t,
         inventories (working s') !! (uid, t)
         = if bool_decide (t = ticker ∧ is_Some (users (working s) !! uid))
           then Some 0 else inventories (working s) !! (uid, t))
    ∧ orders (working s') = orders (working s)
    ∧ transactions (working s') = transactions (working s)
    ∧ (∀ t, total base (working s') t = total base (working s) t)
    ∧ inventory_fk (working s')
    ∧ (inventory_complete (working s) → inventory_complete (working s')).
Proof.
  intros Hname Hticker Hnew Hfk. rewrite create_instrument_eq.
  rewrite (proj2 (Nat.ltb_ge _ _) Hname), (proj2 (Nat.ltb_ge _ _) Hticker).
  rewrite bool_decide_eq_false_2 by done.
  eexists. split; [reflexivity|]. simpl.
  destruct (foldl_add_inventory_users base ticker
              (map_to_list (users (working s))).*1
              (add_instrument ticker (working s)))
    as (Hu & Hi & Ho & Htx & Hinv & Htot).
  simpl in *.
  assert (Hrows : ∀ uid t,
    inventories
      (foldl (λ st uid, add_inventory uid ticker st)
         (add_instrument ticker (working s))
         (map_to_list (users (working s))).*1) !! (uid, t)
    = if bool_decide (t = ticker ∧ is_Some (users (working s) !! uid))
      then Some 0 else inventories (working s) !! (uid, t)).
  { intros uid t. rewrite Hinv. simpl.
    apply (f_equal (λ b : bool, if b then Some 0 else _)).
    apply bool_decide_ext. by rewrite elem_of_user_ids. }
  split; [done|]. split; [done|]. split; [done|]. split; [done|].
  split; [done|]. split; [done|]. split; [|split].
  - intros t. rewrite Htot; [done|].
    intros uid _. left.
    destruct (inventories (working s) !! (uid, ticker)) as [q|] eqn:Hq; [|done].
    destruct (Hfk uid ticker) as [_ Hin]; [eauto|]. by destruct Hnew.
  - intros uid t. rewrite Hrows, Hu, Hi.
    case_bool_decide as Hk.
    + destruct Hk as [-> Huid]. intros _. split; [done|].
      apply elem_of_union. left. by apply elem_of_singleton.
    + intros Hrow. destruct (Hfk uid t Hrow) as [Huid Ht].
      split; [done|]. apply elem_of_union. by right.
  - intros Hc uid t. rewrite Hrows, Hu, Hi. intros Huid Ht.
    case_bool_decide as Hk; [eauto|].
    apply Hc; [done|].
    apply elem_of_union in Ht as [Ht|Ht]; [|done].
    apply elem_of_singleton in Ht. subst t. by destruct Hk.
Qed.

(** A ticker listed on the funded database: Alice holds 0 of it and none is
    in existence. *)
Lemma new_instrument_starts_empty_witness :
  ∃ s',
    create_instrument "Doge" "DOGE" (mkSession db_funded db_funded)
    = (Ok "DOGE", s')
    ∧ inventories (working s') !! (alice, "DOGE") = Some 0
    ∧ total RUB (working s') "DOGE" = total RUB db_funded "DOGE".
Proof.
  assert (Hnew : "DOGE" ∉ instruments db_funded).
  { apply (bool_decide_unpack _). by vm_compute. }
  assert (Hname : (String.length "Doge" ≤ 100)%nat) by (simpl; lia).
  assert (Hticker : (String.length "DOGE" ≤ 10)%nat) by (simpl; lia).
  destruct (new_instrument_starts_empty RUB "Doge" "DOGE"
              (mkSession db_funded db_funded) Hname Hticker Hnew
              inventory_fk_db_funded)
    as (s' & Hrun & _ & _ & _ & Hrows & _ & _ & Htot & _).
  exists s'. split; [exact Hrun|]. split; [|apply Htot].
  rewrite Hrows. rewrite bool_decide_true; [done|].
  split; [done|]. apply (bool_decide_unpack _). by vm_compute.
Defined.

Lemma keeps_create_instrument name ticker :
  keeps_committed (create_instrument name ticker).
Proof. unfold create_instrument. keeps_auto. Qed.

Lemma keeps_create_instrument_endpoint req admin :
  keeps_committed (create_instrument_endpoint req admin).
Proof.
  unfold create_instrument_endpoint.
  keeps_auto; auto using keeps_get_current_admin, keeps_create_instrument.
Qed.

(** X17.  [POST /admin/instrument] never commits: whatever it answers, the
    database after the request is the database before it.  For an admin and
    a well-formed body it answers 422 when the ticker is listed; when it is
    not, the request ends with the driver's error if the name is longer
    than the 100 characters of its column (the schema bounds the name only
    from below) and with success otherwise; in all cases nothing is
    stored. *)
Theorem create_instrument_endpoint_stores_nothing
    (req : InstrumentCreateRequest) (admin : UUID) (db : Store) :
  (run_request (create_instrument_endpoint req admin) db).2 = db
  ∧ (∀ a, users db !! admin = Some a → role a = ADMIN →
          valid_instrument_create req = true →
          run_request (create_instrument_endpoint req admin) db
          = (if bool_decide (ic_ticker req ∈ instruments db) then
               Raise (HTTPException 422
                        (String.append "Instrument with ticker '"
                           (String.append (ic_ticker req) "' already exists")))
             else if (100 <? String.length (ic_name req))%nat then
               Raise (DBAPIError "value too long for type character varying")
             else Ok tt, db)).
Proof.
  assert (Hd : (run_request (create_instrument_endpoint req admin) db).2 = db)
    by apply (keeps_create_instrument_endpoint req admin (mkSession db db)).
  split; [done|].
  intros a Ha Hr Hv.
  destruct (run_request (create_instrument_endpoint req admin) db) as [r db'] eqn:Hrun.
  simpl in Hd. subst db'. f_equal.
  apply (f_equal fst) in Hrun. simpl in Hrun. rewrite <-Hrun.
  unfold create_instrument_endpoint. unfold mbind at 1, Sess_bind at 1.
  rewrite (get_current_admin_ok admin a) by done.
  rewrite Hv. simpl negb. cbv iota.
  unfold mbind at 1, Sess_bind at 1, read at 1. simpl.
  case_bool_decide as Hin; [reflexivity|].
  unfold mbind at 1, Sess_bind at 1. rewrite create_instrument_eq. simpl.
  assert (Ht : (10 <? String.length (ic_ticker req))%nat = false).
  { unfold valid_instrument_create in Hv.
    apply andb_true_iff in Hv as [Hv _]. apply andb_true_iff in Hv as [_ Hv].
    apply Nat.leb_le in Hv. by apply Nat.ltb_ge. }
  rewrite Ht, orb_false_r.
  destruct (100 <? String.length (ic_name req))%nat; [reflexivity|].
  by rewrite bool_decide_eq_false_2 by done.
Qed.

(** An admin lists a new ticker on the funded database: the answer is a
    success and the ticker is still not listed. *)
Example create_instrument_answers_success_and_stores_nothing :
  let db := mkStore {[ alice := mkUser "alice" ADMIN 0 ]} ∅ ∅ ∅ [] in
  run_request
    (create_instrument_endpoint (mkInstrumentCreateRequest "Doge" "DOGE") alice) db
  = (Ok tt, db).
Proof. by vm_compute. Qed.

(** ** What a limit order can cost *)

Lemma inventories_credit_quantity_eq uid ticker d st k :
  inventories (credit_quantity uid ticker d st) !! k
  = if decide (k = (uid, ticker))
    then (λ q, float_add q d) <$> inventories st !! k
    else inventories st !! k.
Proof.
  unfold credit_quantity.
  destruct (inventories st !! (uid, ticker)) as [q|] eqn:Hq; simpl.
  - destruct (decide (k = (uid, ticker))) as [->|Hne].
    + by rewrite lookup_insert_eq, Hq.
    + by rewrite lookup_insert_ne.
  - destruct (decide (k = (uid, ticker))) as [->|Hne]; [by rewrite Hq|done].
Qed.

Lemma balance_of_settle_buy seller buyer ticker p amt st b :
  balance_of st buyer = Some b →
  0 ≤ amt * p ≤ b → b ≤ 2 ^ 52 →
  balance_of (settle_buy seller buyer ticker p amt st) buyer
  = Some (b + (if decide (buyer = seller) then amt * p else 0) - amt * p).
Proof.
  intros Hb Hc Hb52. unfold settle_buy.
  rewrite balance_of_credit_quantity, !balance_of_credit_balance.
  rewrite decide_True by done.
  change (balance_of (add_transaction _ st) buyer) with (balance_of st buyer).
  rewrite Hb. destruct (decide (buyer = seller)); simpl; f_equal.
  - rewrite (float_add_exact b) by lia. rewrite float_sub_exact; lia.
  - rewrite float_sub_exact; lia.
Qed.

Lemma holdings_settle_sell seller buyer ticker p amt st b q :
  balance_of st seller = Some b →
  inventories st !! (seller, ticker) = Some q →
  0 ≤ b ≤ 2 ^ 52 → 0 ≤ amt * p ≤ 2 ^ 52 → 0 ≤ amt ≤ q → q ≤ 2 ^ 52 →
  balance_of (settle_sell seller buyer ticker p amt st) seller
  = Some (b + amt * p)
  ∧ inventories (settle_sell seller buyer ticker p amt st) !! (seller, ticker)
    = Some (q - amt + (if decide (seller = buyer) then amt else 0)).
Proof.
  intros Hb Hq Hb52 Hc Hamt Hq52. unfold settle_sell. split.
  - rewrite !balance_of_credit_quantity, balance_of_credit_balance.
    rewrite decide_True by done.
    change (balance_of (add_transaction _ st) seller) with (balance_of st seller).
    rewrite Hb. simpl. f_equal. apply float_add_exact; lia.
  - rewrite !inventories_credit_quantity_eq, inventories_credit_balance.
    rewrite (decide_True (P := (seller, ticker) = (seller, ticker))) by done.
    change (inventories (add_transaction _ st)) with (inventories st).
    rewrite Hq. simpl.
    destruct (decide (seller = buyer)) as [->|Hne].
    + rewrite decide_True by done. simpl. f_equal.
      rewrite float_sub_exact by lia. rewrite float_add_exact; lia.
    + rewrite decide_False by congruence. f_equal.
      rewrite float_sub_exact; lia.
Qed.

Section Cost.

Variable base : string.

Lemma buy_loop_cost book n uid ticker L s n' s' b :
  ticker ≠ base →
  book_ok (working s) book ASK ticker →
  ledger_nonneg (working s) → book_pos (working s) →
  ledger_exact base (working s) →
  0 < L → 0 ≤ amount n →
  balance_of (working s) uid = Some b →
  buy_loop base book n uid ticker (Some L) s = (Ok n', s') →
  ledger_nonneg (working s') ∧ book_pos (working s')
  ∧ ledger_exact base (working s')
  ∧ ∃ b', balance_of (working s') uid = Some b'
      ∧ b - (amount n - amount n') * L ≤ b'
      ∧ 0 ≤ amount n' ≤ amount n.
Proof.
  intros Hne Hbook Hl Hb Hx HL Hn Hbal Hrun.
  pose (I := λ (st : Store) (m : Order),
    ledger_nonneg st ∧ book_pos st ∧ ledger_exact base st
    ∧ ∃ b', balance_of st uid = Some b'
        ∧ b - (amount n - amount m) * L ≤ b'
        ∧ 0 ≤ amount m ≤ amount n).
  assert (HI0 : I (working s) n).
  { unfold I. repeat (split; [done|]). exists b. split; [done|]. lia. }
  refine (proj1 ((buy_loop_invariant base I uid ticker (Some L)) _
                   book n s n' s' Hbook HI0 Hrun)).
  clear Hl Hb Hx Hbook HI0 Hrun Hbal.
  intros st oid o m p ub o1 m1 (Hl & Hb & Hx & b' & Hb' & Hle & Hm)
      Hlk Hd Ht Hst Hbrk Hpo Hub Hcost Hus Hqb Ho1 Hm1.
  assert (HpL : p ≤ L) by (eapply buy_break_limit; eauto; lia).
  apply buy_break_false in Hbrk.
  destruct (buy_step_exact base st oid o m uid ticker p ub o1)
    as (Hl' & Hb1 & Htot' & Hp0 & Hamt & Hb52); try done; [lia|].
  assert (b' = balance ub) as ->.
  { unfold balance_of in Hb'. rewrite Hub in Hb'. by injection Hb'. }
  apply _partially_execute_order_ok in Hm1 as [_ ->].
  split; [done|]. split; [done|]. split.
  { intros t. rewrite Htot'. apply Hx. }
  eexists. split.
  { rewrite balance_of_set_order. apply balance_of_settle_buy; [done|nia|done]. }
  unfold with_amount. cbn. split; [|lia].
  destruct (decide (uid = user_id o)); nia.
Qed.

Lemma sell_loop_cost book n uid ticker L s n' s' b q :
  ticker ≠ base →
  book_ok (working s) book BID ticker →
  ledger_nonneg (working s) → book_pos (working s) →
  ledger_exact base (working s) →
  0 < L → 0 ≤ amount n →
  balance_of (working s) uid = Some b →
  inventories (working s) !! (uid, ticker) = Some q →
  sell_loop book n uid ticker (Some L) s = (Ok n', s') →
  ledger_nonneg (working s') ∧ book_pos (working s')
  ∧ ledger_exact base (working s')
  ∧ ∃ b' q', balance_of (working s') uid = Some b'
      ∧ inventories (working s') !! (uid, ticker) = Some q'
      ∧ b + (amount n - amount n') * L ≤ b'
      ∧ q - (amount n - amount n') ≤ q'
      ∧ 0 ≤ amount n' ≤ amount n.
Proof.
  intros Hne Hbook Hl Hb Hx HL Hn Hbal Hq Hrun.
  pose (I := λ (st : Store) (m : Order),
    ledger_nonneg st ∧ book_pos st ∧ ledger_exact base st
    ∧ ∃ b' q', balance_of st uid = Some b'
        ∧ inventories st !! (uid, ticker) = Some q'
        ∧ b + (amount n - amount m) * L ≤ b'
        ∧ q - (amount n - amount m) ≤ q'
        ∧ 0 ≤ amount m ≤ amount n).
  assert (HI0 : I (working s) n).
  { unfold I. repeat (split; [done|]). exists b, q. repeat split; try done; lia. }
  refine (proj1 ((sell_loop_invariant I uid ticker (Some L)) _
                   book n s n' s' Hbook HI0 Hrun)).
  clear Hl Hb Hx Hbook HI0 Hrun Hbal Hq.
  intros st oid o m p qs o1 m1
      (Hl & Hb & Hx & b' & q' & Hb' & Hq' & Hle & Hqle & Hm)
      Hlk Hd Ht Hst Hbrk Hpo Hqs Hfill Hus Hub Hqb Ho1 Hm1.
  assert (HpL : L ≤ p) by (eapply sell_break_limit; eauto; lia).
  apply sell_break_false in Hbrk.
  destruct (sell_step_exact base st oid o m uid ticker p qs o1)
    as (Hl' & Hb1 & Htot' & Hp0 & Hamt & Hc52 & Hq52); try done; [lia|].
  assert (q' = qs) as -> by congruence.
  assert (Hb52 : 0 ≤ b' ≤ 2 ^ 52).
  { unfold balance_of in Hb'.
    destruct (users st !! uid) as [u|] eqn:Hu; [|done]. injection Hb' as <-.
    pose proof (balance_le_total base st _ _ Hl Hb Hu).
    pose proof (Hx base). pose proof (proj1 Hl _ _ Hu). lia. }
  apply _partially_execute_order_ok in Hm1 as [_ ->].
  destruct (holdings_settle_sell uid (user_id o) ticker p
              (Z.min (amount o) (amount m)) st b' qs Hb' Hqs)
    as [Hb2 Hq2]; [done|nia|lia|done|].
  split; [done|]. split; [done|]. split.
  { intros t. rewrite Htot'. apply Hx. }
  eexists _, _. split; [by rewrite balance_of_set_order|].
  split; [exact Hq2|].
  unfold with_amount. cbn. split; [nia|]. split; [|lia].
  destruct (decide (uid = user_id o)); lia.
Qed.

End Cost.

(** X18.  What a limit order on a traded ticker can cost its owner, where
    no balance or quantity is negative, every open order has a positive
    residue and price, and the total of every ticker is at most 2^52 (so
    that no sum is rounded).  After a limit BUY of qty at L that
    [POST /order] accepted, the buyer's cash is lower by at most qty times
    L, fills and residual freeze together.  After an accepted limit SELL,
    the seller's cash is higher by at least the filled quantity times L and
    the seller's available units are lower by at most qty. *)
Theorem limit_order_cost_is_bounded
    (base : string) (req : CreateOrderRequest) (uid : UUID) (now : Z)
    (db : Store) (oid : UUID) (db1 : Store) (L : Z) :
  rq_ticker req ≠ base →
  ledger_nonneg db → book_pos db → ledger_exact base db →
  rq_price req = Some L →
  run_request (create_order base req uid now) db = (Ok oid, db1) →
  ∃ o b0 b1,
    orders db1 !! oid = Some o
    ∧ balance_of db uid = Some b0 ∧ balance_of db1 uid = Some b1
    ∧ match rq_direction req with
      | BUY => b0 - rq_qty req * L ≤ b1
      | SELL =>
          b0 + filled o * L ≤ b1
          ∧ ∃ q0 q1,
              inventories db !! (uid, rq_ticker req) = Some q0
              ∧ inventories db1 !! (uid, rq_ticker req) = Some q1
              ∧ q0 - rq_qty req ≤ q1
      end.
Proof.
  intros Hbase Hl Hbp Hx HpL Hrun.
  apply create_order_ok in Hrun as ([u Hu] & Hv & _ & n' & s1 & Hsub & ->).
  assert (Hq : 0 < rq_qty req).
  { unfold valid_request in Hv. apply andb_true_iff in Hv as [Hv _].
    apply andb_true_iff in Hv as [_ Hv]. by apply Z.ltb_lt. }
  assert (HL : 0 < L).
  { unfold valid_request in Hv. rewrite HpL in Hv.
    apply andb_true_iff in Hv as [_ Hv]. by apply Z.ltb_lt in Hv. }
  assert (Hb0 : balance_of db uid = Some (balance u))
    by (unfold balance_of; by rewrite Hu).
  pose proof Hsub as Hinc. apply submit_ok in Hinc as (Hrows & _ & Hinc).
  destruct Hinc as (_ & _ & Hpr & _ & Hsum & _).
  rewrite (valid_effective_price _ Hv), HpL in Hpr.
  rewrite submit_eq, (valid_effective_price _ Hv), HpL in Hsub.
  exists n', (balance u).
  destruct (rq_direction req).
  - apply create_limit_buy_order_ok in Hsub as (s2 & s3 & Hloop & Hfr & -> & ->).
    eapply buy_loop_cost in Hloop as (Hl2 & Hbp2 & Hx2 & b2 & Hb2 & Hle & Hn');
      [|done|apply get_orders_book_ok|done|done|done|done|simpl; lia|exact Hb0].
    simpl in Hle, Hn'.
    assert (Hb3 : ∃ b3, balance_of (working s3) uid = Some b3
                        ∧ b2 - amount n' * L ≤ b3).
    { case_bool_decide.
      - destruct Hfr as [_ Hfr]. apply _freeze_balance_ok in Hfr.
        rewrite bool_decide_true in Hfr by done.
        destruct Hfr as (usr & Husr & Hfle & ->). simpl.
        rewrite balance_of_credit_balance, decide_True by done.
        rewrite Hb2. simpl. eexists. split; [done|].
        rewrite Hpr in *. simpl in *.
        assert (b2 = balance usr) as ->.
        { unfold balance_of in Hb2. rewrite Husr in Hb2. by injection Hb2. }
        pose proof (balance_le_total base _ _ _ Hl2 Hbp2 Husr).
        pose proof (Hx2 base).
        rewrite float_sub_exact by nia. lia.
      - subst s3. exists b2. split; [done|]. nia. }
    destruct Hb3 as (b3 & Hb3 & Hle3).
    exists b3. simpl. rewrite lookup_insert_eq, balance_of_set_order.
    split; [done|]. split; [done|]. split; [done|]. nia.
  - apply create_limit_sell_order_ok in Hsub as (s2 & s3 & Hloop & Hfr & -> & ->).
    cbn [working] in Hloop.
    assert (Hq0 : ∃ q0, inventories db !! (uid, rq_ticker req) = Some q0).
    { destruct (get_orders db (rq_ticker req) BID (Z.to_nat (rq_qty req)) None)
        as [|[oid0 o0] rest] eqn:Hbk.
      - simpl in Hloop. inv_pair Hloop.
        rewrite bool_decide_true in Hfr by done.
        destruct Hfr as [_ Hfr]. apply _freeze_balance_ok in Hfr.
        rewrite bool_decide_false in Hfr by done.
        destruct Hfr as (q & _ & Hq' & _). simpl in Hq'. eauto.
      - pose proof Hloop as Hlp.
        apply sell_loop_cons_ok in Hlp
          as [(_ & -> & ->)|(p & q & _ & _ & _ & _ & Hq' & _)]; [|simpl in Hq'; eauto].
        rewrite bool_decide_true in Hfr by done.
        destruct Hfr as [_ Hfr]. apply _freeze_balance_ok in Hfr.
        rewrite bool_decide_false in Hfr by done.
        destruct Hfr as (q & _ & Hq' & _). simpl in Hq'. eauto. }
    destruct Hq0 as [q0 Hq0].
    eapply (sell_loop_cost base _ _ _ _ _ _ _ _ (balance u) q0) in Hloop
      as (Hl2 & Hbp2 & Hx2 & b2 & q2 & Hb2 & Hq2 & Hle & Hqle & Hn');
      [|done|apply get_orders_book_ok|done|done|done|done|simpl; lia
       |exact Hb0|exact Hq0].
    simpl in Hle, Hqle, Hn'.
    assert (H3 : balance_of (working s3) uid = Some b2
                 ∧ ∃ q3, inventories (working s3) !! (uid, rq_ticker req) = Some q3
                         ∧ q2 - amount n' ≤ q3).
    { case_bool_decide.
      - destruct Hfr as [_ Hfr]. apply _freeze_balance_ok in Hfr.
        rewrite bool_decide_false in Hfr by done.
        destruct Hfr as (q & _ & Hq' & Hfle & ->). simpl.
        rewrite balance_of_credit_quantity. split; [done|].
        rewrite inventories_credit_quantity_eq, decide_True by done.
        rewrite Hq2. simpl. eexists. split; [done|].
        assert (q = q2) as -> by congruence.
        pose proof (quantity_le_total base _ _ _ _ Hl2 Hbp2 Hbase Hq2).
        pose proof (Hx2 (rq_ticker req)).
        rewrite float_sub_exact by lia. lia.
      - subst s3. split; [done|]. exists q2. split; [done|]. lia. }
    destruct H3 as (Hb3 & q3 & Hq3 & Hqle3).
    exists b2. simpl. rewrite lookup_insert_eq, balance_of_set_order.
    split; [done|]. split; [done|]. split; [done|].
    split; [nia|].
    exists q0, q3. split; [done|]. split; [done|]. lia.
Qed.

(** Bob bids 100 for 8 with 1000 in cash: 5 fill at 100, 3 rest, and he is
    left with 200, no less than 1000 - 8 * 100. *)
Lemma limit_order_cost_is_bounded_witness :
  ∃ o b1,
    orders db_partial !! 2%positive = Some o
    ∧ balance_of db_ask bob = Some 1000
    ∧ balance_of db_partial bob = Some b1
    ∧ 1000 - 8 * 100 ≤ b1.
Proof.
  assert (Hne : MEMCOIN ≠ RUB) by (apply (bool_decide_unpack _); by vm_compute).
  destruct ledger_db_ask as [Hl1 Hb1].
  assert (Hrun :
    run_request
      (create_order RUB (mkCreateOrderRequest BUY MEMCOIN 8 (Some 100)) bob 2)
      db_ask
    = (Ok 2%positive, db_partial)) by (vm_compute; reflexivity).
  destruct (limit_order_cost_is_bounded RUB
              (mkCreateOrderRequest BUY MEMCOIN 8 (Some 100)) bob 2 db_ask
              2%positive db_partial 100 Hne Hl1 Hb1 ledger_exact_db_ask
              eq_refl Hrun)
    as (o & b0 & b1 & Ho & Hb0 & Hbal & Hle).
  assert (Hb0' : balance_of db_ask bob = Some 1000) by (by vm_compute).
  rewrite Hb0' in Hb0. injection Hb0 as <-.
  cbn [rq_direction rq_qty] in Hle.
  exists o, b1. split; [exact Ho|]. split; [exact Hb0'|].
  split; [exact Hbal|exact Hle].
Defined.

(** ** Listing one's orders *)

Lemma get_orders_endpoint_run uid db :
  run_request (get_orders_endpoint uid) db
  = (match users db !! uid with
     | None => Raise (HTTPException 401 "User not found")
     | Some _ =>
         Ok ((λ row : UUID * Order, _format_order_response row.1 row.2)
               <$> OrderRepository_get_user_orders db uid)
     end, db).
Proof.
  unfold run_request, get_orders_endpoint, get_current_user.
  sess_unfold. simpl. by destruct (users db !! uid).
Qed.

(** X19.  The list and the single read agree.  For an authenticated user,
    [GET /order] answers with one entry per order of that user, whatever its
    status, and no entry twice: a response is in the list exactly when
    [GET /order/{id}] answers the same user with that response for its
    identifier.  Neither read changes the database. *)
Theorem order_list_agrees_with_single_read
    (uid : UUID) (db : Store) (l : list OrderResponse) :
  run_request (get_orders_endpoint uid) db = (Ok l, db) →
  NoDup (rs_id <$> l)
  ∧ (∀ rs, rs ∈ l ↔ run_request (get_order (rs_id rs) uid) db = (Ok rs, db))
  ∧ (∀ oid o, orders db !! oid = Some o → user_id o = uid →
       _format_order_response oid o ∈ l).
Proof.
  rewrite get_orders_endpoint_run.
  destruct (users db !! uid) as [u|] eqn:Hu; [|done].
  intros [= <-].
  assert (Hin : ∀ rs,
    rs ∈ (λ row : UUID * Order, _format_order_response row.1 row.2)
           <$> OrderRepository_get_user_orders db uid
    ↔ ∃ o, orders db !! rs_id rs = Some o ∧ user_id o = uid
           ∧ rs = _format_order_response (rs_id rs) o).
  { intros rs. rewrite list_elem_of_fmap. split.
    - intros ([oid o] & -> & Hrow).
      apply list_elem_of_filter in Hrow as [Hown Hrow].
      apply elem_of_map_to_list in Hrow. simpl in *. eauto.
    - intros (o & Ho & Hown & Hrs). exists (rs_id rs, o). split; [done|].
      apply list_elem_of_filter. split; [done|]. by apply elem_of_map_to_list. }
  split; [|split].
  - rewrite <-list_fmap_compose.
    eapply (NoDup_fmap_2_strong _ (filter _ (map_to_list (orders db)))).
    + intros [i a] [j b] Hi Hj Heq. simpl in Heq. subst j.
      apply list_elem_of_filter in Hi as [_ Hi].
      apply list_elem_of_filter in Hj as [_ Hj].
      apply elem_of_map_to_list in Hi, Hj. congruence.
    + apply NoDup_filter, NoDup_map_to_list.
  - intros rs. rewrite Hin. rewrite get_order_run by eauto. split.
    + intros (o & Ho & Hown & Hrs). rewrite Ho.
      rewrite bool_decide_true by done. by rewrite <-Hrs.
    + destruct (orders db !! rs_id rs) as [o|]; [|done].
      case_bool_decide; [|done]. intros [= Hrs]. eauto.
  - intros oid o Ho Hown. apply Hin. simpl. eauto.
Qed.

(** In the database where Bob's bid has taken Alice's ask, Alice's list
    holds her one order, EXECUTED and filled for 5. *)
Lemma order_list_agrees_with_single_read_witness :
  run_request (get_order 1%positive alice) db_partial
  = (Ok (mkOrderResponse 1%positive EXECUTED alice SELL MEMCOIN 5 (Some 100) 5),
     db_partial).
Proof.
  assert (Hrun :
    run_request (get_orders_endpoint alice) db_partial
    = (Ok [mkOrderResponse 1%positive EXECUTED alice SELL MEMCOIN 5 (Some 100) 5],
       db_partial)) by (vm_compute; reflexivity).
  destruct (order_list_agrees_with_single_read alice db_partial _ Hrun)
    as (_ & Hiff & _).
  apply (Hiff (mkOrderResponse 1%positive EXECUTED alice SELL MEMCOIN 5 (Some 100) 5)).
  apply elem_of_cons. by left.
Defined.
